(** * DAB+ receiver core: FIC parser, depuncturing, controls, MOT assembly

    A shallow embedding of the parts of the DAB+ decoder that its
    specification makes testable statements about:

    - [Controls]: the per-channel control flags (basic_dab_plus_channel.cpp);
    - [Channel]: the error-flag listeners of [Basic_DAB_Plus_Channel];
    - [FIC]: [FIC_Processor] (CRC-16 check, FIG scanner, FIG 0/0 and 0/10);
    - [Depuncture]: [DAB_Viterbi_Decoder::update];
    - [MOT]: the MOT segment assembler.

    Further parts of the same files:

    - [ControlOps]: sequences of operations on the control flags;
    - [FIGFields], [FIGServices], [FIGUserApps], [FIGDispatch]: the
      identifiers and the handlers of FIG 0/1, 0/2, 0/3, 0/4, 0/7, 0/8, 0/13
      and 0/14, with the byte layouts they read ([FIGCoding]);
    - [FIBErrors]: inverted bits in a FIB;
    - [ViterbiConfig]: [create_decoder_config];
    - [ChannelProcess]: [Basic_DAB_Plus_Channel::Process];
    - [ViewKeys]: [SimpleViewController::GetKey].

    Conventions.  A [uintN_t] is a [Z] with its wrap-around written out
    ([uint8], [uint16]).  A pointer into a byte array is the list of the
    bytes from the pointed-to position onwards, so [&buf[k]] is
    [skipn k buf] and [buf[i]] is [rd buf i]. *)

From Stdlib Require Import ZArith List Lia Bool String.
From stdpp Require Import base list.
From Equations Require Import Equations.
Import ListNotations.
Open Scope Z_scope.

(** ** Machine integers and buffers *)

Definition uint8 (z : Z) : Z := z mod 256.
Definition uint16 (z : Z) : Z := z mod 65536.
Definition to_int16 (z : Z) : Z := (z + 32768) mod 65536 - 32768.

(** [buf[i]]; reading past the end of the modelled array yields 0. *)
Definition rd (buf : list Z) (i : Z) : Z := nth (Z.to_nat i) buf 0.

(** [&buf[k]] *)
Definition ptr (buf : list Z) (k : Z) : list Z := skipn (Z.to_nat k) buf.

(** [(b & mask) >> sh] *)
Definition field (b mask sh : Z) : Z := Z.shiftr (Z.land b mask) sh.

(** C truth value of an integer. *)
Definition truthy (z : Z) : bool := negb (z =? 0).

(** The values [0, 1, ..., n-1] of a loop counter. *)
Definition Zseq (n : nat) : list Z := map Z.of_nat (seq 0 n).

(** ** Control flags (basic_dab_plus_channel.cpp, [Basic_DAB_Plus_Controls]) *)

Module Controls.

Definition CONTROL_FLAG_DECODE_AUDIO : Z := 0x80. (* 0b10000000 *)
Definition CONTROL_FLAG_DECODE_DATA  : Z := 0x40. (* 0b01000000 *)
Definition CONTROL_FLAG_PLAY_AUDIO   : Z := 0x20. (* 0b00100000 *)
Definition CONTROL_FLAG_ALL_SELECTED : Z := 0xE0. (* 0b11100000 *)

(** The object has the single member [uint8_t flags]. *)
Record Basic_DAB_Plus_Controls := { flags : Z }.

Definition GetAnyEnabled (c : Basic_DAB_Plus_Controls) : bool :=
  negb (flags c =? 0).

Definition GetAllEnabled (c : Basic_DAB_Plus_Controls) : bool :=
  flags c =? CONTROL_FLAG_ALL_SELECTED.

Definition RunAll (c : Basic_DAB_Plus_Controls) : Basic_DAB_Plus_Controls :=
  {| flags := CONTROL_FLAG_ALL_SELECTED |}.

Definition StopAll (c : Basic_DAB_Plus_Controls) : Basic_DAB_Plus_Controls :=
  {| flags := 0 |}.

(** [flags |= flag] and [flags &= ~flag]: both operands are promoted to
    [int], the result is converted back to [uint8_t]. *)
Definition SetFlag (c : Basic_DAB_Plus_Controls) (flag : Z) (state : bool)
  : Basic_DAB_Plus_Controls :=
  if state
  then {| flags := uint8 (Z.lor (flags c) flag) |}
  else {| flags := uint8 (Z.land (flags c) (Z.lnot flag)) |}.

Definition GetIsDecodeAudio (c : Basic_DAB_Plus_Controls) : bool :=
  negb (Z.land (flags c) CONTROL_FLAG_DECODE_AUDIO =? 0).

Definition SetIsDecodeAudio (c : Basic_DAB_Plus_Controls) (v : bool)
  : Basic_DAB_Plus_Controls :=
  let c := SetFlag c CONTROL_FLAG_DECODE_AUDIO v in
  if negb v then SetFlag c CONTROL_FLAG_PLAY_AUDIO false else c.

Definition GetIsDecodeData (c : Basic_DAB_Plus_Controls) : bool :=
  negb (Z.land (flags c) CONTROL_FLAG_DECODE_DATA =? 0).

Definition SetIsDecodeData (c : Basic_DAB_Plus_Controls) (v : bool)
  : Basic_DAB_Plus_Controls :=
  SetFlag c CONTROL_FLAG_DECODE_DATA v.

Definition GetIsPlayAudio (c : Basic_DAB_Plus_Controls) : bool :=
  negb (Z.land (flags c) CONTROL_FLAG_PLAY_AUDIO =? 0).

Definition SetIsPlayAudio (c : Basic_DAB_Plus_Controls) (v : bool)
  : Basic_DAB_Plus_Controls :=
  let c := SetFlag c CONTROL_FLAG_PLAY_AUDIO v in
  if v then SetFlag c CONTROL_FLAG_DECODE_AUDIO true else c.

End Controls.

(** ** FIC processor (fic_processor.cpp) *)

Module FIC.

Local Open Scope string_scope.
Local Open Scope list_scope.
Local Open Scope Z_scope.

Record FIG_Header_Type_0 := { cn : Z; oe : Z; pd : Z }.

(** The FIG 0/x handlers of [FIC_Processor] other than 0/0 and 0/10, which
    are embedded below.  A call of one of them is recorded as a
    [Handler_Call] event with the arguments of the call. *)
Inductive Handler :=
| Type_0_Ext_1 | Type_0_Ext_14 | Type_0_Ext_2 | Type_0_Ext_3
| Type_0_Ext_4 | Type_0_Ext_8 | Type_0_Ext_13 | Type_0_Ext_7
| Type_0_Ext_6 | Type_0_Ext_9 | Type_0_Ext_17 | Type_0_Ext_21
| Type_0_Ext_24.

(** What the processor does to the outside: the parsed fields it reports
    ([LOG_MESSAGE], format string and arguments), the errors it reports
    ([LOG_ERROR]), the handler calls that are not embedded, and its calls
    to the Viterbi decoder and the scrambler, with their arguments. *)
Inductive Event :=
| LOG_MESSAGE (fmt : string) (args : list Z)
| LOG_ERROR (fmt : string) (args : list Z)
| Handler_Call (h : Handler) (header : FIG_Header_Type_0)
    (buf : list Z) (N : Z) (cif_index : Z)
| Call_vitdec_Reset
| Call_vitdec_Decode (encoded_bits : list Z) (nb_encoded_bits : Z)
    (puncture_code : list Z) (nb_puncture_code_bits : Z)
    (decoded_bits : list Z) (nb_decoded_bits : Z)
    (nb_output_bits : Z) (is_end : bool)
| Call_vitdec_GetPathError
| Call_scrambler_Reset
| Call_scrambler_Process.

Record EnsembleIdentifier := { country_id : Z; ensemble_reference : Z }.

(** [EnsembleIdentifier::ProcessBuffer] *)
Definition ProcessBuffer (buf : list Z) : EnsembleIdentifier :=
  {| country_id := field (rd buf 0) 0xF0 4;
     ensemble_reference :=
       Z.lor (uint16 (Z.shiftl (uint16 (Z.land (rd buf 0) 0x0F)) 8))
             (field (rd buf 1) 0xFF 0) |}.

(** [FIC_Processor::ProcessFIG_Type_0_Ext_0]: ensemble information *)
Definition ProcessFIG_Type_0_Ext_0
  (header : FIG_Header_Type_0) (buf : list Z) (N : Z) (cif_index : Z)
  : list Event :=
  let nb_field_bytes := 4 in
  if negb (N =? nb_field_bytes) then
    [LOG_ERROR "[%d] fig 0/0 Length doesn't match expectations (%d/%d)\n"
       [cif_index; nb_field_bytes; N]]
  else
    let eid := ProcessBuffer buf in
    let change_flags := field (rd buf 2) 0xC0 6 in
    let alarm_flag := field (rd buf 2) 0x20 5 in
    let cif_upper := field (rd buf 2) 0x1F 0 in
    let cif_lower := field (rd buf 3) 0xFF 0 in
    let occurance_change := 0x00 in
    [LOG_MESSAGE
       "[%d] fig 0/0 country_id=%u ensemble_ref=%u change=%u alarm=%u cif=%u|%u\n"
       [cif_index; country_id eid; ensemble_reference eid;
        change_flags; alarm_flag; cif_upper; cif_lower]].

(** [FIC_Processor::ProcessFIG_Type_0_Ext_10]: date and time *)
Definition ProcessFIG_Type_0_Ext_10
  (header : FIG_Header_Type_0) (buf : list Z) (N : Z) (cif_index : Z)
  : list Event :=
  let nb_min_bytes := 4 in
  if nb_min_bytes >? N then
    [LOG_ERROR
       "[%d] fig 0/10 Insufficient length for minimum configuration (%d/%d)\n"
       [cif_index; nb_min_bytes; N]]
  else
    let rfu0 := field (rd buf 0) 0x80 7 in
    let MJD :=
      Z.lor (Z.lor (Z.shiftl (Z.land (rd buf 0) 0x7F) 10)
                   (Z.shiftl (Z.land (rd buf 1) 0xFF) 2))
            (field (rd buf 2) 0xC0 0) in
    let LSI := field (rd buf 2) 0x20 5 in
    let Rfa0 := field (rd buf 2) 0x10 4 in
    let UTC := field (rd buf 2) 0x08 3 in
    let nb_actual_bytes := if truthy UTC then 6 else 4 in
    if nb_actual_bytes >? N then
      [LOG_ERROR
         "[%d] fig 0/10 Insufficient length for long form UTC (%d/%d)\n"
         [cif_index; nb_actual_bytes; N]]
    else
      let hours :=
        uint8 (Z.lor (Z.shiftl (Z.land (rd buf 2) 0x07) 2)
                     (field (rd buf 3) 0xC0 6)) in
      let minutes := field (rd buf 3) 0x3F 0 in
      let seconds := if truthy UTC then field (rd buf 4) 0xFC 2 else 0 in
      let milliseconds :=
        if truthy UTC
        then Z.lor (uint16 (Z.shiftl (uint16 (Z.land (rd buf 4) 0x03)) 8))
                   (field (rd buf 5) 0xFF 0)
        else 0 in
      [LOG_MESSAGE
         "[%d] fig 0/10 rfu0=%u MJD=%u LSI=%u Rfa0=%u UTC=%u time=%02u:%02u:%02u.%03u\n"
         [cif_index; rfu0; MJD; LSI; Rfa0; UTC;
          hours; minutes; seconds; milliseconds]].

(** [FIC_Processor::ProcessFIG_Type_0]: [switch (extension)].  [N] is a
    [uint8_t], so is [nb_field_bytes = N-1]. *)
Definition ProcessFIG_Type_0 (buf : list Z) (N : Z) (cif_index : Z)
  : list Event :=
  let descriptor := rd buf 0 in
  let header :=
    {| cn := field descriptor 0x80 7;
       oe := field descriptor 0x40 6;
       pd := field descriptor 0x20 5 |} in
  let extension := field descriptor 0x1F 0 in
  let field_buf := ptr buf 1 in
  let nb_field_bytes := uint8 (N - 1) in
  let call h := [Handler_Call h header field_buf nb_field_bytes cif_index] in
  match extension with
  | 1 => call Type_0_Ext_1
  | 14 => call Type_0_Ext_14
  | 2 => call Type_0_Ext_2
  | 3 => call Type_0_Ext_3
  | 4 => call Type_0_Ext_4
  | 8 => call Type_0_Ext_8
  | 13 => call Type_0_Ext_13
  | 0 => ProcessFIG_Type_0_Ext_0 header field_buf nb_field_bytes cif_index
  | 7 => call Type_0_Ext_7
  | 6 => call Type_0_Ext_6
  | 10 => ProcessFIG_Type_0_Ext_10 header field_buf nb_field_bytes cif_index
  | 9 => call Type_0_Ext_9
  | 17 => call Type_0_Ext_17
  | 21 => call Type_0_Ext_21
  | 24 => call Type_0_Ext_24
  | _ => []
  end.

(** The extensions that the [switch] of [ProcessFIG_Type_0] has a [case]
    for. *)
Definition type_0_extensions : list Z :=
  [1; 14; 2; 3; 4; 8; 13; 0; 7; 6; 10; 9; 17; 21; 24].

(** [ProcessFIG_Type_1], [ProcessFIG_Type_2] and [ProcessFIG_Type_6] split
    the descriptor byte into local constants and report nothing (their
    [LOG_MESSAGE] lines are commented out). *)
Definition ProcessFIG_Type_1 (buf : list Z) (N : Z) (cif_index : Z)
  : list Event :=
  let descriptor := rd buf 0 in
  let charset := field descriptor 0xF0 4 in
  let rfu := field descriptor 0x08 3 in
  let extension := field descriptor 0x07 0 in
  [].

Definition ProcessFIG_Type_2 (buf : list Z) (N : Z) (cif_index : Z)
  : list Event :=
  let descriptor := rd buf 0 in
  let toggle_flag := field descriptor 0x80 7 in
  let segment_index := field descriptor 0x70 4 in
  let rfu := field descriptor 0x08 3 in
  let extension := field descriptor 0x07 0 in
  [].

Definition ProcessFIG_Type_6 (buf : list Z) (N : Z) (cif_index : Z)
  : list Event :=
  let descriptor := rd buf 0 in
  let rfu := field descriptor 0x80 7 in
  let cn := field descriptor 0x40 6 in
  let oe := field descriptor 0x20 5 in
  let pd := field descriptor 0x10 4 in
  let lef := field descriptor 0x08 3 in
  let short_CA_sys_id := field descriptor 0x07 0 in
  [].

(** The FIG header byte [type:3 | length:5]. *)
Definition fig_type_of (header : Z) : Z := field header 0xE0 5.
Definition fig_data_length_of (header : Z) : Z := field header 0x1F 0.

(** [FIC_Processor::ProcessFIG]: the scan of the 30 payload bytes, from
    [curr_byte] on.  The loop terminates since every round advances
    [curr_byte] by [fig_length_bytes >= 1]. *)
Equations? ProcessFIG_loop (buf : list Z) (cif_index : Z) (curr_byte : Z)
  : list Event by wf (Z.to_nat (30 - curr_byte)) lt :=
ProcessFIG_loop buf cif_index curr_byte with Z_lt_dec curr_byte 30 => {
  | right _ := [];
  | left _ :=
    let nb_remain_bytes := 30 - curr_byte in
    let header := rd buf curr_byte in
    if header =? 0xFF then [] else
    let fig_type := fig_type_of header in
    let fig_data_length_bytes := fig_data_length_of header in
    let fig_length_bytes := uint8 (fig_data_length_bytes + 1) in
    if fig_length_bytes >? nb_remain_bytes then
      [LOG_ERROR "[%d] fig specified length overflows buffer (%d/%d)\n"
         [cif_index; fig_length_bytes; nb_remain_bytes]]
    else
      let fig_buf := ptr buf (curr_byte + 1) in
      let next_byte := curr_byte + fig_length_bytes in
      match fig_type with
      | 0 => ProcessFIG_Type_0 fig_buf fig_data_length_bytes cif_index
             ++ ProcessFIG_loop buf cif_index next_byte
      | 1 => ProcessFIG_Type_1 fig_buf fig_data_length_bytes cif_index
             ++ ProcessFIG_loop buf cif_index next_byte
      | 2 => ProcessFIG_Type_2 fig_buf fig_data_length_bytes cif_index
             ++ ProcessFIG_loop buf cif_index next_byte
      | 6 => ProcessFIG_Type_6 fig_buf fig_data_length_bytes cif_index
             ++ ProcessFIG_loop buf cif_index next_byte
      | 7 => []
      | _ => [LOG_ERROR "Invalid fig type (%d)\n" [fig_type]]
      end }.
Proof.
  all: assert (H : 0 <= fig_data_length_of (rd buf curr_byte) < 32)
    by (unfold fig_data_length_of, field; rewrite Z.shiftr_0_r;
        change 0x1F with (Z.ones 5); rewrite Z.land_ones by lia;
        apply Z.mod_pos_bound; reflexivity).
  all: subst next_byte fig_length_bytes fig_data_length_bytes header.
  all: unfold uint8; rewrite Z.mod_small by lia; lia.
Qed.

Definition ProcessFIG (buf : list Z) (cif_index : Z) : list Event :=
  ProcessFIG_loop buf cif_index 0.

(** *** CRC-16 of the FIB *)

Definition crc16_poly : Z := 0x1021.

(** Modelled from the spec: [CRC::Calculate] of CRC.h, which is not among the
    sources.  The constructor of [FIC_Processor] builds its table from
    [{crc16_poly, 0xFFFF, 0x0000, false, false}]: polynomial 0x1021, initial
    value 0xFFFF, final XOR 0x0000, no reflection of input or output.  The
    remainder is a [uint16_t], updated most significant bit first. *)
Definition crc16_shift (r : Z) : Z :=
  if Z.testbit r 15
  then Z.lxor (uint16 (Z.shiftl r 1)) crc16_poly
  else uint16 (Z.shiftl r 1).

Definition crc16_update (r b : Z) : Z :=
  Nat.iter 8 crc16_shift (Z.lxor r (Z.shiftl b 8)).

Definition CRC_Calculate (data : list Z) (size : Z) : Z :=
  Z.lxor (fold_left crc16_update (firstn (Z.to_nat size) data) 0xFFFF) 0x0000.

(** The body of the [for] loop over the three FIBs in [ProcessFIBGroup]:
    [fib_buf] points at the FIB inside [decoded_bytes]. *)
Definition ProcessFIB (fib_buf : list Z) (cif_index : Z) : list Event :=
  let nb_data_bytes := 30 in
  let crc16_rx := 0 in
  let crc16_rx :=
    uint16 (Z.lor crc16_rx (Z.shiftl (uint16 (rd fib_buf nb_data_bytes)) 8)) in
  let crc16_rx := uint16 (Z.lor crc16_rx (rd fib_buf (nb_data_bytes + 1))) in
  let crc16_rx := uint16 (Z.lxor crc16_rx 0xFFFF) in
  let crc16_pred := CRC_Calculate fib_buf nb_data_bytes in
  let is_valid := crc16_rx =? crc16_pred in
  if is_valid then ProcessFIG fib_buf cif_index else [].

(** The canonical CRC-16 of the specification: polynomial 0x1021, initial
    value 0xFFFF, XOR-out 0xFFFF. *)
Definition crc16_xorout (data : list Z) : Z :=
  Z.lxor (fold_left crc16_update data 0xFFFF) 0xFFFF.

(** A FIB is valid when the CRC-16 of its first 30 bytes is the number
    that its last two bytes spell, high byte first. *)
Definition fib_valid (fib : list Z) : bool :=
  crc16_xorout (firstn 30 fib) =? 256 * rd fib 30 + rd fib 31.

(** *** The FIB group *)

Record DecodeResult :=
  { nb_encoded_bits : Z; nb_puncture_bits : Z; nb_decoded_bits : Z }.

Section FIBGroup.

(** viterbi_decoder.h, additive_scrambler.h and puncture_codes.h are not
    among the sources: the decoder, the scrambler and the puncture tables are
    parameters.  [vitdec_Decode] takes the arguments of
    [ViterbiDecoder::Decode] in their order and returns, with the new
    decoder and the [DecodeResult], the contents of the output region
    [decoded_bits] after the call.  [scrambler_Process] returns the next
    byte of the scrambling sequence. *)
Context {Trellis ViterbiDecoder AdditiveScrambler : Type}.
Variable Trellis_new : list Z -> Z -> Z -> Trellis.
Variable ViterbiDecoder_new : Trellis -> Z -> ViterbiDecoder.
Variable vitdec_Reset : ViterbiDecoder -> ViterbiDecoder.
Variable vitdec_Decode :
  ViterbiDecoder -> list Z -> Z -> list Z -> Z -> list Z -> Z -> Z -> bool ->
  ViterbiDecoder * DecodeResult * list Z.
Variable vitdec_GetPathError : ViterbiDecoder -> Z.
Variable AdditiveScrambler_new : AdditiveScrambler.
Variable scrambler_SetSyncword : AdditiveScrambler -> Z -> AdditiveScrambler.
Variable scrambler_Reset : AdditiveScrambler -> AdditiveScrambler.
Variable scrambler_Process : AdditiveScrambler -> AdditiveScrambler * Z.
Variables PI_16 PI_15 PI_X : list Z.

(** The members of [FIC_Processor] that [ProcessFIBGroup] uses, and its
    function-static scratch array [decoded_bits], which keeps its contents
    from one call to the next.  ([encoded_bits] and [decoded_bytes] are
    static as well, but every call overwrites them in full.) *)
Record FIC_Processor := {
  vitdec : ViterbiDecoder;
  scrambler : AdditiveScrambler;
  static_decoded_bits : list Z }.

(** [FIC_Processor::FIC_Processor]; [decoded_bits] is what the scratch
    array holds before the first call. *)
Definition FIC_Processor_new (decoded_bits : list Z) : FIC_Processor :=
  let L := 4 in
  let K := 7 in
  let traceback_length := 15 in
  let CONV_CODES := [0x6D; 0x4F; 0x53; 0x6D] in
    (* 0b1101101, 0b1001111, 0b1010011, 0b1101101 *)
  let trellis := Trellis_new CONV_CODES L K in
  {| vitdec := ViterbiDecoder_new trellis traceback_length;
     scrambler := scrambler_SetSyncword AdditiveScrambler_new 0xFFFF;
     static_decoded_bits := decoded_bits |}.

(** [encoded_bits[8*i + j] = (b >> j) & 0b1], for [i < 288], [j < 8] *)
Definition unpack_bits (encoded_bytes : list Z) : list Z :=
  flat_map (fun i =>
    let b := rd encoded_bytes i in
    map (fun j => Z.land (Z.shiftr b j) 1) (Zseq 8)) (Zseq 288).

(** [b = 0x00; b |= (decoded_bits[8*i + j] << (7-j))], for [j < 8] *)
Definition pack_byte (decoded_bits : list Z) (i : Z) : Z :=
  fold_left (fun b j =>
    uint8 (Z.lor b (Z.shiftl (rd decoded_bits (8 * i + j)) (7 - j))))
    (Zseq 8) 0x00.

Definition pack_bytes (decoded_bits : list Z) (nb_decoded_bytes : nat)
  : list Z :=
  map (pack_byte decoded_bits) (Zseq nb_decoded_bytes).

(** [uint8_t b = scrambler->Process(); decoded_bytes[i] ^= b], for each
    byte in turn *)
Fixpoint descramble (s : AdditiveScrambler) (decoded_bytes : list Z)
  : AdditiveScrambler * list Z * list Event :=
  match decoded_bytes with
  | [] => (s, [], [])
  | x :: rest =>
    let '(s, b) := scrambler_Process s in
    let '(s, rest, ev) := descramble s rest in
    (s, uint8 (Z.lxor x (uint8 b)) :: rest, Call_scrambler_Process :: ev)
  end.

(** The first [n] bytes of the scrambling sequence. *)
Fixpoint scrambler_sequence (s : AdditiveScrambler) (n : nat) : list Z :=
  match n with
  | O => []
  | S n => let '(s, b) := scrambler_Process s in b :: scrambler_sequence s n
  end.

(** One call of [vitdec->Decode] in [ProcessFIBGroup], on the state
    [(decoder, decoded_bits, curr_encoded_bit, curr_puncture_bit,
    curr_decoded_bit)], followed by the three [+=] on the counters. *)
Definition decode_run (encoded_bits : list Z)
  (puncture_code : list Z) (nb_puncture_code_bits : Z)
  (nb_output_bits : Z) (is_end : bool)
  (st : ViterbiDecoder * list Z * Z * Z * Z)
  : (ViterbiDecoder * list Z * Z * Z * Z) * list Event :=
  let '(v, decoded_bits, curr_encoded_bit, curr_puncture_bit,
        curr_decoded_bit) := st in
  let nb_encoded_bits_total := 288 * 8 in
  let nb_decoded_bits_total := nb_encoded_bits_total / 3 in
  let enc := ptr encoded_bits curr_encoded_bit in
  let dec := ptr decoded_bits curr_decoded_bit in
  let '(v, res, dec') :=
    vitdec_Decode v
      enc (nb_encoded_bits_total - curr_encoded_bit)
      puncture_code nb_puncture_code_bits
      dec (nb_decoded_bits_total - curr_decoded_bit)
      nb_output_bits is_end in
  let decoded_bits :=
    firstn (Z.to_nat curr_decoded_bit) decoded_bits ++ dec' in
  ((v, decoded_bits,
    curr_encoded_bit + nb_encoded_bits res,
    curr_puncture_bit + nb_puncture_bits res,
    curr_decoded_bit + nb_decoded_bits res),
   [Call_vitdec_Decode
      enc (nb_encoded_bits_total - curr_encoded_bit)
      puncture_code nb_puncture_code_bits
      dec (nb_decoded_bits_total - curr_decoded_bit)
      nb_output_bits is_end]).

(** [FIC_Processor::ProcessFIBGroup] *)
Definition ProcessFIBGroup (p : FIC_Processor)
  (encoded_bytes : list Z) (cif_index : Z)
  : FIC_Processor * list Event :=
  let nb_encoded_bytes := 288 in
  let nb_encoded_bits := nb_encoded_bytes * 8 in
  let encoded_bits := unpack_bits encoded_bytes in
  let nb_decoded_bits := nb_encoded_bits / 3 in
  let nb_decoded_bytes := nb_decoded_bits / 8 in
  (* viterbi decoding *)
  let v := vitdec_Reset (vitdec p) in
  let st := (v, static_decoded_bits p, 0, 0, 0) in
  let '(st, ev1) := decode_run encoded_bits PI_16 32 (128 * 21) false st in
  let '(st, ev2) := decode_run encoded_bits PI_15 32 (128 * 3) false st in
  let '(st, ev3) := decode_run encoded_bits PI_X 24 24 true st in
  let '(v, decoded_bits, _, _, _) := st in
  let error := vitdec_GetPathError v in
  (* pack into bytes *)
  let decoded_bytes := pack_bytes decoded_bits (Z.to_nat nb_decoded_bytes) in
  (* descrambler *)
  let s := scrambler_Reset (scrambler p) in
  let '(s, decoded_bytes, ev_scr) := descramble s decoded_bytes in
  (* crc16 check *)
  let nb_fibs := 3 in
  let nb_fib_bytes := nb_decoded_bytes / nb_fibs in
  let ev_fib :=
    flat_map (fun i => ProcessFIB (ptr decoded_bytes (i * nb_fib_bytes))
                                  cif_index)
             (Zseq 3) in
  ({| vitdec := v; scrambler := s; static_decoded_bits := decoded_bits |},
   [Call_vitdec_Reset] ++ ev1 ++ ev2 ++ ev3 ++ [Call_vitdec_GetPathError]
   ++ [Call_scrambler_Reset] ++ ev_scr ++ ev_fib).

(** The processor as the program has it before a call of
    [ProcessFIBGroup]: built by the constructor, then handed the groups
    [groups], each with its [cif_index], oldest first. *)
Definition FIC_Processor_after (decoded_bits : list Z)
  (groups : list (list Z * Z)) : FIC_Processor :=
  fold_left
    (fun p group => fst (ProcessFIBGroup p (fst group) (snd group)))
    groups (FIC_Processor_new decoded_bits).

End FIBGroup.

End FIC.

(** ** Depuncturing (dab_viterbi_decoder.cpp, [DAB_Viterbi_Decoder::update]) *)

Module Depuncture.

(** Modelled from the spec: [DAB_Viterbi_Decoder::code_rate] of the missing
    dab_viterbi_decoder.h.  The mother code has rate 1/4:
    [code_polynomial[R] = { 109, 79, 83, 109 }]. *)
Definition code_rate : Z := 4.

Section Update.

(** The macros [SOFT_DECISION_VITERBI_LOW] and [SOFT_DECISION_VITERBI_HIGH]
    are defined in a header that is not among the sources. *)
Variables SOFT_DECISION_VITERBI_LOW SOFT_DECISION_VITERBI_HIGH : Z.

(** Modelled from the spec: the macro [SOFT_DECISION_VITERBI_PUNCTURED] of
    the same missing header, the neutral symbol midway between [SOFT_LOW]
    and [SOFT_HIGH]. *)
Definition SOFT_DECISION_VITERBI_PUNCTURED : Z :=
  (SOFT_DECISION_VITERBI_LOW + SOFT_DECISION_VITERBI_HIGH) / 2.

Definition soft_decision_unpunctured : Z :=
  to_int16 SOFT_DECISION_VITERBI_PUNCTURED.

(** The ISA kernel selected at compile time ([ExternalDecoder]) lives in
    the viterbi/ headers, which are not among the sources.  [decoder_update d
    symbols n] is [d->update(symbols, n)]. *)
Context {ExternalDecoder : Type}.
Variable decoder_update : ExternalDecoder -> list Z -> Z -> ExternalDecoder.

Record DAB_Viterbi_Decoder := {
  depunctured_symbols : list Z;
  decoder : ExternalDecoder }.

(** How the [for] loop of [update] ends: on a failed [assert], on the
    early [return 0], or by running to [requested_output_symbols]. *)
Inductive LoopResult :=
| Loop_assert_failed
| Loop_return (ret : Z) (depunctured : list Z)
| Loop_done (depunctured : list Z)
    (index_punctured_symbol index_puncture_code index_output_symbol : Z).

(** The loop, [n] rounds from [i] on.  [assertions] says whether [assert]
    is compiled in (no NDEBUG).  With an empty [puncture_code] the source
    divides by zero; here [x mod 0 = x]. *)
Fixpoint update_loop (assertions : bool)
  (punctured_symbols puncture_code : list Z) (n : nat) (i : Z)
  (depunctured : list Z)
  (index_punctured_symbol index_puncture_code index_output_symbol : Z)
  : LoopResult :=
  match n with
  | O => Loop_done depunctured
           index_punctured_symbol index_puncture_code index_output_symbol
  | S n =>
    let total_symbols := Z.of_nat (length punctured_symbols) in
    let is_punctured := truthy (rd puncture_code index_puncture_code) in
    let next_code :=
      (index_puncture_code + 1) mod Z.of_nat (length puncture_code) in
    if is_punctured then
      if assertions && negb (index_punctured_symbol <? total_symbols)
      then Loop_assert_failed
      else if index_punctured_symbol >=? total_symbols
      then Loop_return 0 depunctured
      else
        let v := to_int16 (rd punctured_symbols index_punctured_symbol) in
        update_loop assertions punctured_symbols puncture_code n (i + 1)
          (<[Z.to_nat i := v]> depunctured)
          (index_punctured_symbol + 1) next_code (index_output_symbol + 1)
    else
      update_loop assertions punctured_symbols puncture_code n (i + 1)
        (<[Z.to_nat i := soft_decision_unpunctured]> depunctured)
        index_punctured_symbol next_code (index_output_symbol + 1)
  end.

Inductive Outcome :=
| Assert_failed
| Return (ret : Z) (d : DAB_Viterbi_Decoder).

(** [DAB_Viterbi_Decoder::update] *)
Definition update (assertions : bool) (d : DAB_Viterbi_Decoder)
  (punctured_symbols puncture_code : list Z) (requested_output_symbols : Z)
  : Outcome :=
  if assertions && negb (requested_output_symbols mod code_rate =? 0)
  then Assert_failed
  else
    let depunctured :=
      if requested_output_symbols >? Z.of_nat (length (depunctured_symbols d))
      then resize (Z.to_nat requested_output_symbols) 0 (depunctured_symbols d)
      else depunctured_symbols d in
    match update_loop assertions punctured_symbols puncture_code
            (Z.to_nat requested_output_symbols) 0 depunctured 0 0 0 with
    | Loop_assert_failed => Assert_failed
    | Loop_return ret depunctured =>
      Return ret {| depunctured_symbols := depunctured;
                    decoder := decoder d |}
    | Loop_done depunctured index_punctured_symbol _ _ =>
      Return index_punctured_symbol
        {| depunctured_symbols := depunctured;
           decoder := decoder_update (decoder d) depunctured
                        requested_output_symbols |}
    end.

(** *** What the specification says [update] does *)

(** The cyclic puncture flags of the [n] output positions from [i] on,
    and of the first [n] output positions. *)
Definition window_from (puncture_code : list Z) (i n : nat) : list bool :=
  map (fun j => truthy (rd puncture_code
                          (Z.of_nat j mod Z.of_nat (length puncture_code))))
      (seq i n).

Definition puncture_window (puncture_code : list Z) (n : nat) : list bool :=
  window_from puncture_code 0 n.

(** One input symbol is consumed where the flag is set, the neutral symbol
    is inserted where it is not. *)
Fixpoint depuncture (flags : list bool) (symbols : list Z) : list Z :=
  match flags with
  | [] => []
  | true :: flags =>
    match symbols with
    | s :: symbols => to_int16 s :: depuncture flags symbols
    | [] => []
    end
  | false :: flags => soft_decision_unpunctured :: depuncture flags symbols
  end.

Definition count_transmitted (flags : list bool) : nat :=
  List.length (List.filter (fun b : bool => b) flags).

End Update.

End Depuncture.

(** ** Channel listeners (basic_dab_plus_channel.cpp, [SetupCallbacks]) *)

Module Channel.

Local Open Scope string_scope.
Local Open Scope list_scope.
Local Open Scope Z_scope.

(** The fields of [SuperFrameHeader] that the listeners read. *)
Record SuperFrameHeader := {
  sampling_rate : Z;
  PS_flag : bool;
  SBR_flag : bool;
  is_stereo : bool }.

(** [AAC_Audio_Decoder::Params] *)
Record Params := {
  sampling_frequency : Z;
  is_PS : bool;
  is_SBR : bool;
  params_is_stereo : bool }.

Definition Params_eqb (a b : Params) : bool :=
  (sampling_frequency a =? sampling_frequency b)
  && Bool.eqb (is_PS a) (is_PS b)
  && Bool.eqb (is_SBR a) (is_SBR b)
  && Bool.eqb (params_is_stereo a) (params_is_stereo b).

(** The result of [AAC_Audio_Decoder::DecodeFrame] *)
Record DecodeFrameResult := {
  is_error : bool;
  error_code : Z;
  audio_buf : list Z }.

Record BasicAudioParams := {
  frequency : Z;
  audio_is_stereo : bool;
  bytes_per_sample : Z }.

(** What the listeners send out. *)
Inductive Output :=
| Notify_audio_data (params : BasicAudioParams) (buf : list Z)
| LOG_ERROR (fmt : string) (args : list Z).

(** The events of the [AAC_Frame_Processor] that the channel listens to,
    with the arguments of the callbacks. *)
Inductive FrameEvent :=
| OnSuperFrameHeader (header : SuperFrameHeader)
| OnAccessUnit (au_index nb_aus : Z) (buf : list Z)
| OnFirecodeError (frame_index crc_got crc_calc : Z)
| OnRSError (au_index total_aus : Z)
| OnAccessUnitCRCError (au_index nb_aus crc_got crc_calc : Z).

Section Listeners.

(** The AAC decoders are external libraries. *)
Context {AAC_Audio_Decoder AAC_Data_Decoder : Type}.
Variable AAC_Audio_Decoder_new : Params -> AAC_Audio_Decoder.
Variable GetParams : AAC_Audio_Decoder -> Params.
Variable DecodeFrame :
  AAC_Audio_Decoder -> list Z -> AAC_Audio_Decoder * DecodeFrameResult.
Variable ProcessAccessUnit : AAC_Data_Decoder -> list Z -> AAC_Data_Decoder.

(** The members of [Basic_DAB_Plus_Channel] that the listeners of the
    frame processor read or write.  [m_aac_audio_decoder] is [NULL] until
    the first superframe header. *)
Record Basic_DAB_Plus_Channel := {
  m_controls : Controls.Basic_DAB_Plus_Controls;
  m_super_frame_header : SuperFrameHeader;
  m_aac_audio_decoder : option AAC_Audio_Decoder;
  m_aac_data_decoder : AAC_Data_Decoder;
  m_is_codec_error : bool;
  m_is_firecode_error : bool;
  m_is_rs_error : bool;
  m_is_au_error : bool }.

Abbreviation Channel := Basic_DAB_Plus_Channel.

(** First listener of [OnSuperFrameHeader]: keep the header, replace the
    audio decoder when its parameters change. *)
Definition on_header_decoder (c : Channel) (header : SuperFrameHeader)
  : Channel * list Output :=
  let audio_params :=
    {| sampling_frequency := sampling_rate header;
       is_PS := PS_flag header;
       is_SBR := SBR_flag header;
       params_is_stereo := is_stereo header |} in
  let replace_decoder :=
    match m_aac_audio_decoder c with
    | None => true
    | Some d => negb (Params_eqb (GetParams d) audio_params)
    end in
  ({| m_controls := m_controls c;
      m_super_frame_header := header;
      m_aac_audio_decoder :=
        if replace_decoder then Some (AAC_Audio_Decoder_new audio_params)
        else m_aac_audio_decoder c;
      m_aac_data_decoder := m_aac_data_decoder c;
      m_is_codec_error := m_is_codec_error c;
      m_is_firecode_error := m_is_firecode_error c;
      m_is_rs_error := m_is_rs_error c;
      m_is_au_error := m_is_au_error c |}, []).

(** First listener of [OnAccessUnit]: decode audio. *)
Definition on_access_unit_audio (c : Channel) (au_index nb_aus : Z)
  (buf : list Z) : Channel * list Output :=
  if negb (Controls.GetIsDecodeAudio (m_controls c)) then (c, []) else
  match m_aac_audio_decoder c with
  | None => (c, [])
  | Some d =>
    let '(d, res) := DecodeFrame d buf in
    let codec_error :=
      if au_index =? 0 then is_error res else m_is_codec_error c in
    let with_codec_error (e : bool) :=
      {| m_controls := m_controls c;
         m_super_frame_header := m_super_frame_header c;
         m_aac_audio_decoder := Some d;
         m_aac_data_decoder := m_aac_data_decoder c;
         m_is_codec_error := e;
         m_is_firecode_error := m_is_firecode_error c;
         m_is_rs_error := m_is_rs_error c;
         m_is_au_error := m_is_au_error c |} in
    if is_error res then
      (with_codec_error true,
       [LOG_ERROR "[aac-audio-decoder] error={} au_index={}/{}"
          [error_code res; au_index; nb_aus]])
    else
      let audio_params := GetParams d in
      let params :=
        {| frequency := sampling_frequency audio_params;
           audio_is_stereo := true;
           bytes_per_sample := 2 |} in
      (with_codec_error codec_error,
       [Notify_audio_data params (audio_buf res)])
  end.

(** Second listener of [OnAccessUnit]: decode data.  (The PAD listeners
    that the data decoder may fire in turn write [m_dynamic_label] and
    notify observers; they are outside this model.) *)
Definition on_access_unit_data (c : Channel) (au_index nb_aus : Z)
  (buf : list Z) : Channel * list Output :=
  if negb (Controls.GetIsDecodeData (m_controls c)) then (c, []) else
  ({| m_controls := m_controls c;
      m_super_frame_header := m_super_frame_header c;
      m_aac_audio_decoder := m_aac_audio_decoder c;
      m_aac_data_decoder := ProcessAccessUnit (m_aac_data_decoder c) buf;
      m_is_codec_error := m_is_codec_error c;
      m_is_firecode_error := m_is_firecode_error c;
      m_is_rs_error := m_is_rs_error c;
      m_is_au_error := m_is_au_error c |}, []).

(** The error listeners. *)
Definition set_error_flags (c : Channel) (firecode rs au : bool) : Channel :=
  {| m_controls := m_controls c;
     m_super_frame_header := m_super_frame_header c;
     m_aac_audio_decoder := m_aac_audio_decoder c;
     m_aac_data_decoder := m_aac_data_decoder c;
     m_is_codec_error := m_is_codec_error c;
     m_is_firecode_error := firecode;
     m_is_rs_error := rs;
     m_is_au_error := au |}.

(** [OnFirecodeError]: [m_is_firecode_error = true] *)
Definition on_firecode_error (c : Channel) : Channel :=
  set_error_flags c true (m_is_rs_error c) (m_is_au_error c).

(** [OnRSError]: [m_is_rs_error = true] *)
Definition on_rs_error (c : Channel) : Channel :=
  set_error_flags c (m_is_firecode_error c) true (m_is_au_error c).

(** Second listener of [OnSuperFrameHeader]:
    [m_is_firecode_error = false; m_is_rs_error = false] *)
Definition on_header_reset (c : Channel) : Channel :=
  set_error_flags c false false (m_is_au_error c).

(** [OnAccessUnitCRCError]: [m_is_au_error = true] *)
Definition on_au_crc_error (c : Channel) : Channel :=
  set_error_flags c (m_is_firecode_error c) (m_is_rs_error c) true.

(** Third listener of [OnAccessUnit]:
    [if (au_index == 0) m_is_au_error = false] *)
Definition on_access_unit_reset (c : Channel) (au_index : Z) : Channel :=
  if au_index =? 0
  then set_error_flags c (m_is_firecode_error c) (m_is_rs_error c) false
  else c.

(** An event runs the listeners attached to it, in the order in which
    [SetupCallbacks] attached them. *)
Definition Notify (c : Channel) (e : FrameEvent) : Channel * list Output :=
  match e with
  | OnSuperFrameHeader header =>
    let '(c, out) := on_header_decoder c header in
    (on_header_reset c, out)
  | OnAccessUnit au_index nb_aus buf =>
    let '(c, out1) := on_access_unit_audio c au_index nb_aus buf in
    let '(c, out2) := on_access_unit_data c au_index nb_aus buf in
    (on_access_unit_reset c au_index, out1 ++ out2)
  | OnFirecodeError _ _ _ => (on_firecode_error c, [])
  | OnRSError _ _ => (on_rs_error c, [])
  | OnAccessUnitCRCError _ _ _ _ => (on_au_crc_error c, [])
  end.

(** A sequence of events, in order. *)
Fixpoint run (c : Channel) (events : list FrameEvent)
  : Channel * list Output :=
  match events with
  | [] => (c, [])
  | e :: events =>
    let '(c, out) := Notify c e in
    let '(c, out') := run c events in
    (c, out ++ out')
  end.

End Listeners.

(** *** The reset discipline, event by event *)

Definition is_header (e : FrameEvent) : bool :=
  match e with OnSuperFrameHeader _ => true | _ => false end.

Definition is_first_access_unit (e : FrameEvent) : bool :=
  match e with OnAccessUnit au_index _ _ => au_index =? 0 | _ => false end.

Definition is_firecode_error (e : FrameEvent) : bool :=
  match e with OnFirecodeError _ _ _ => true | _ => false end.

Definition is_rs_error (e : FrameEvent) : bool :=
  match e with OnRSError _ _ => true | _ => false end.

Definition is_au_crc_error (e : FrameEvent) : bool :=
  match e with OnAccessUnitCRCError _ _ _ _ => true | _ => false end.

(** A flag that the [clears] events clear and the [sets] events set, after
    one event and after a sequence of events: the last of them decides. *)
Definition flag_step (sets clears : FrameEvent -> bool) (b : bool)
  (e : FrameEvent) : bool :=
  if clears e then false else if sets e then true else b.

Definition flag_after (sets clears : FrameEvent -> bool) (b : bool)
  (events : list FrameEvent) : bool :=
  fold_left (flag_step sets clears) events b.

(** Stand-ins for the external decoders, to run the listeners on concrete
    events. *)
Definition no_params : Params :=
  {| sampling_frequency := 0; is_PS := false; is_SBR := false;
     params_is_stereo := false |}.

Definition idle_channel : @Basic_DAB_Plus_Channel unit unit :=
  {| m_controls := {| Controls.flags := 0 |};
     m_super_frame_header :=
       {| sampling_rate := 0; PS_flag := false; SBR_flag := false;
          is_stereo := false |};
     m_aac_audio_decoder := None;
     m_aac_data_decoder := tt;
     m_is_codec_error := false;
     m_is_firecode_error := false;
     m_is_rs_error := false;
     m_is_au_error := false |}.

Definition run_idle (events : list FrameEvent)
  : @Basic_DAB_Plus_Channel unit unit :=
  fst (run (fun _ => tt) (fun _ => no_params)
           (fun d _ => (d, {| is_error := false; error_code := 0;
                              audio_buf := [] |}))
           (fun d _ => d) idle_channel events).

End Channel.

(** ** MOT segment assembler (MOT_assembler.h) *)

Module MOT.

(** [struct Segment]; its constructor sets both members to 0.  A [size_t]
    is a [nat] here: no quantity of the assembler wraps around. *)
Record Segment := { unordered_index : nat; length : nat }.

Definition Segment_new : Segment := {| unordered_index := 0; length := 0 |}.

(** Modelled from the spec: the state of a [MOT_Assembler].  The first five
    fields are the data members of the class declaration.
    [received_indices] is not a member: it lists the indices that
    [AddSegment] was called with, latest first.  The spec's completion test
    counts the indices that "have been received", and the declaration shows
    no member that tells a segment that was received from one that was
    not. *)
Record MOT_Assembler := {
  m_unordered_buffer : list Z;
  m_ordered_buffer : list Z;
  m_segments : list Segment;
  m_total_segments : nat;
  m_curr_unordered_index : nat;
  received_indices : list nat }.

(** A newly built assembler: empty vectors and the in-class initialisers
    [m_total_segments = 0] and [m_curr_unordered_index = 0]. *)
Definition MOT_Assembler_new : MOT_Assembler :=
  {| m_unordered_buffer := [];
     m_ordered_buffer := [];
     m_segments := [];
     m_total_segments := 0;
     m_curr_unordered_index := 0;
     received_indices := [] |}.

(** [tcb::span<uint8_t> GetData() { return m_ordered_buffer; }] *)
Definition GetData (a : MOT_Assembler) : list Z := m_ordered_buffer a.

(** Modelled from the spec: [MOT_Assembler::SetTotalSegments], whose body
    (MOT_assembler.cpp) is not among the sources.  It sets the number [N] of
    segments to wait for; the segment table gets [N] entries. *)
Definition SetTotalSegments (a : MOT_Assembler) (N : nat) : MOT_Assembler :=
  {| m_unordered_buffer := m_unordered_buffer a;
     m_ordered_buffer := m_ordered_buffer a;
     m_segments := resize N Segment_new (m_segments a);
     m_total_segments := N;
     m_curr_unordered_index := m_curr_unordered_index a;
     received_indices := received_indices a |}.

Section AddSegment.

(** Neither the declaration nor the spec says what [bool] [AddSegment]
    returns: it is a parameter. *)
Variable AddSegment_result : MOT_Assembler -> nat -> list Z -> nat -> bool.

(** Modelled from the spec: [MOT_Assembler::AddSegment], whose body is not
    among the sources: it "stores bytes at [unordered_index] and records the
    segment's length+position".  The [N] bytes at [buf] are appended to the
    unordered buffer at [m_curr_unordered_index]; the table, grown when
    [index] is beyond it, records that position and [N] at [index]; and
    [index] has been received. *)
Definition AddSegment (a : MOT_Assembler) (index : nat) (buf : list Z)
  (N : nat) : bool * MOT_Assembler :=
  let segments :=
    if Nat.leb (List.length (m_segments a)) index
    then resize (S index) Segment_new (m_segments a)
    else m_segments a in
  let segment :=
    {| unordered_index := m_curr_unordered_index a; length := N |} in
  (AddSegment_result a index buf N,
   {| m_unordered_buffer :=
        firstn (m_curr_unordered_index a) (m_unordered_buffer a)
        ++ firstn N buf;
      m_ordered_buffer := m_ordered_buffer a;
      m_segments := <[index := segment]> segments;
      m_total_segments := m_total_segments a;
      m_curr_unordered_index := m_curr_unordered_index a + N;
      received_indices := index :: received_indices a |}).

(** [AddSegment] for each [(index, bytes)] of a list, in order. *)
Definition AddSegments (a : MOT_Assembler) (arrivals : list (nat * list Z))
  : MOT_Assembler :=
  fold_left (fun a seg => snd (AddSegment a (fst seg) (snd seg)
                                 (List.length (snd seg))))
            arrivals a.

End AddSegment.

(** Modelled from the spec: [MOT_Assembler::ReconstructOrderedBuffer],
    whose body is not among the sources: "reconstructs the ordered buffer by
    copying segments in index order". *)
Definition segment_bytes (unordered_buffer : list Z) (s : Segment) : list Z :=
  firstn (length s) (skipn (unordered_index s) unordered_buffer).

Definition ReconstructOrderedBuffer (a : MOT_Assembler) : MOT_Assembler :=
  {| m_unordered_buffer := m_unordered_buffer a;
     m_ordered_buffer :=
       flat_map (segment_bytes (m_unordered_buffer a))
                (firstn (m_total_segments a) (m_segments a));
     m_segments := m_segments a;
     m_total_segments := m_total_segments a;
     m_curr_unordered_index := m_curr_unordered_index a;
     received_indices := received_indices a |}.

(** Modelled from the spec: the number of distinct indices in [[0,N)] that
    have been received, which [CheckComplete] compares with [N]. *)
Definition nb_received (a : MOT_Assembler) (N : nat) : nat :=
  List.length
    (List.filter (fun i => existsb (Nat.eqb i) (received_indices a))
       (seq 0 N)).

(** Modelled from the spec: [MOT_Assembler::CheckComplete], whose body is
    not among the sources: it "returns true when [N] distinct indices in
    [[0,N)] have been received", [N] being the total that
    [SetTotalSegments] set.  The method is not [const]: on completion it
    rebuilds the ordered buffer, which [GetData] (above, from the header)
    only hands out. *)
Definition CheckComplete (a : MOT_Assembler) : bool * MOT_Assembler :=
  if Nat.eqb (nb_received a (m_total_segments a)) (m_total_segments a)
  then (true, ReconstructOrderedBuffer a)
  else (false, a).

(** What holds of the assembler once the segments with the indices in
    [done], out of the [N] segments [segments] of an object, have arrived:
    they are the indices received, and their table entries point at their
    bytes in the unordered buffer. *)
Definition assembling (segments : list (list Z)) (N : nat)
  (done : list nat) (a : MOT_Assembler) : Prop :=
  List.length (m_segments a) = N
  /\ m_total_segments a = N
  /\ m_curr_unordered_index a = List.length (m_unordered_buffer a)
  /\ received_indices a = done
  /\ forall i, (i < N)%nat -> In i done ->
       let s := nth i (m_segments a) Segment_new in
       segment_bytes (m_unordered_buffer a) s = nth i segments []
       /\ (unordered_index s + length s
           <= List.length (m_unordered_buffer a))%nat.

End MOT.

(** ** Sequences of control operations *)

Module ControlOps.
Import Controls.

(** The mutating operations of [Basic_DAB_Plus_Controls]. *)
Inductive Op :=
| Op_RunAll
| Op_StopAll
| Op_SetIsDecodeAudio (v : bool)
| Op_SetIsDecodeData (v : bool)
| Op_SetIsPlayAudio (v : bool).

Definition apply (c : Basic_DAB_Plus_Controls) (o : Op)
  : Basic_DAB_Plus_Controls :=
  match o with
  | Op_RunAll => RunAll c
  | Op_StopAll => StopAll c
  | Op_SetIsDecodeAudio v => SetIsDecodeAudio c v
  | Op_SetIsDecodeData v => SetIsDecodeData c v
  | Op_SetIsPlayAudio v => SetIsPlayAudio c v
  end.

(** The operations of a list, in order. *)
Definition apply_all (c : Basic_DAB_Plus_Controls) (ops : list Op)
  : Basic_DAB_Plus_Controls :=
  fold_left apply ops c.

(** Playing audio implies decoding it. *)
Definition play_implies_decode (c : Basic_DAB_Plus_Controls) : Prop :=
  GetIsPlayAudio c = true -> GetIsDecodeAudio c = true.

(** No bit of [flags] but the three control bits is set. *)
Definition only_control_bits (c : Basic_DAB_Plus_Controls) : Prop :=
  0 <= flags c < 256 /\ Z.land (flags c) 0x1F = 0.

End ControlOps.

(** ** Identifiers and further FIG 0 handlers (fic_processor.cpp) *)

Module FIGFields.
Import FIC.

Local Open Scope string_scope.
Local Open Scope list_scope.
Local Open Scope Z_scope.

(** [struct ServiceIdentifier] *)
Record ServiceIdentifier := {
  sid_country_id : Z;
  service_reference : Z;
  ecc : Z }.

(** [ServiceIdentifier::ProcessShortForm]: the 2 byte form *)
Definition ProcessShortForm (b : list Z) : ServiceIdentifier :=
  {| sid_country_id := field (rd b 0) 0xF0 4;
     service_reference :=
       Z.lor (Z.shiftl (uint16 (Z.land (rd b 0) 0x0F)) 8)
             (field (rd b 1) 0xFF 0);
     ecc := 0 |}.

(** [ServiceIdentifier::ProcessLongForm]: the 4 byte form *)
Definition ProcessLongForm (b : list Z) : ServiceIdentifier :=
  {| ecc := field (rd b 0) 0xFF 0;
     sid_country_id := field (rd b 1) 0xF0 4;
     service_reference :=
       Z.lor (Z.lor (Z.shiftl (Z.land (rd b 1) 0x0F) 16)
                    (Z.shiftl (Z.land (rd b 2) 0xFF) 8))
             (Z.shiftl (Z.land (rd b 3) 0xFF) 0) |}.

(** [EnsembleIdentifier::ProcessU16] *)
Definition ProcessU16 (data : Z) : EnsembleIdentifier :=
  {| country_id := uint8 (field data 0xF000 12);
     ensemble_reference := uint16 (field data 0x0FFF 0) |}.

(** [FIC_Processor::ProcessFIG_Type_0_Ext_14]: FEC scheme of packet mode
    subchannels, one byte each *)
Definition ProcessFIG_Type_0_Ext_14
  (header : FIG_Header_Type_0) (buf : list Z) (N : Z) (cif_index : Z)
  : list Event :=
  map (fun i =>
    let v := rd buf i in
    let subchannel_id := field v 0xFC 2 in
    let fec := field v 0x03 0 in
    LOG_MESSAGE "[%d] fig 0/14 i=%d/%d id=%-2d fec=%d\n"
      [cif_index; i; N; subchannel_id; fec])
    (Zseq (Z.to_nat N)).

(** [FIC_Processor::ProcessFIG_Type_0_Ext_7]: configuration information *)
Definition ProcessFIG_Type_0_Ext_7
  (header : FIG_Header_Type_0) (buf : list Z) (N : Z) (cif_index : Z)
  : list Event :=
  let nb_data_bytes := 2 in
  if negb (N =? nb_data_bytes) then
    [LOG_ERROR "[%d] fig 0/7 Length doesn't match expectations (%d/%d)\n"
       [cif_index; N; nb_data_bytes]]
  else
    let nb_services := field (rd buf 0) 0xFC 2 in
    let reconfiguration_count :=
      Z.lor (Z.shiftl (uint16 (Z.land (rd buf 0) 0x03)) 8)
            (field (rd buf 1) 0xFF 0) in
    [LOG_MESSAGE "[%d] fig 0/7 total_services=%u reconfiguration_count=%u\n"
       [cif_index; nb_services; reconfiguration_count]].

(** [FIC_Processor::ProcessFIG_Type_0_Ext_3]: service components in packet
    mode, 7 bytes each *)
Definition ProcessFIG_Type_0_Ext_3
  (header : FIG_Header_Type_0) (buf : list Z) (N : Z) (cif_index : Z)
  : list Event :=
  let nb_component_bytes := 7 in
  if negb (N mod nb_component_bytes =? 0) then
    [LOG_ERROR "[%d] fig 0/3 Field must be a multiple of %d bytes\n"
       [cif_index; nb_component_bytes]]
  else
    let nb_components := N / nb_component_bytes in
    map (fun i =>
      let b := ptr buf (i * nb_component_bytes) in
      let scid :=
        Z.lor (Z.shiftl (uint16 (Z.land (rd b 0) 0xFF)) 4)
              (field (rd b 1) 0xF0 4) in
      let rfa := field (rd b 1) 0x0E 1 in
      let caorg_flag := field (rd b 1) 0x01 0 in
      let dg_flag := field (rd b 2) 0x80 7 in
      let rfu := field (rd b 2) 0x40 6 in
      let DSCTy := field (rd b 2) 0x3F 0 in
      let subchannel_id := field (rd b 3) 0xFC 2 in
      let packet_address :=
        Z.lor (Z.shiftl (uint16 (Z.land (rd b 3) 0x03)) 8)
              (field (rd b 4) 0xFF 0) in
      let CAOrg :=
        Z.lor (Z.shiftl (uint16 (Z.land (rd b 5) 0xFF)) 8)
              (field (rd b 6) 0xFF 0) in
      LOG_MESSAGE
        "[%d] fig 0/3 i=%d/%d scid=%u rfa=%u caorg=%u dg=%u rfu=%u DSCTy=%u subchannel_id=%u packet_address=%u CAOrg=%u\n"
        [cif_index; i; nb_components; scid; rfa; caorg_flag; dg_flag; rfu;
         DSCTy; subchannel_id; packet_address; CAOrg])
      (Zseq (Z.to_nat nb_components)).

(** [FIC_Processor::ProcessFIG_Type_0_Ext_4]: service components in stream
    mode with conditional access, 3 bytes each *)
Definition ProcessFIG_Type_0_Ext_4
  (header : FIG_Header_Type_0) (buf : list Z) (N : Z) (cif_index : Z)
  : list Event :=
  let nb_component_bytes := 3 in
  if negb (N mod nb_component_bytes =? 0) then
    [LOG_ERROR "[%d] fig 0/4 Field must be a multiple of %d bytes\n"
       [cif_index; nb_component_bytes]]
  else
    let nb_components := N / nb_component_bytes in
    map (fun i =>
      let b := ptr buf (i * nb_component_bytes) in
      let rfa := field (rd b 0) 0x80 7 in
      let rfu := field (rd b 0) 0x40 6 in
      let subchannel_id := field (rd b 0) 0x3F 0 in
      let CAOrg :=
        Z.lor (Z.shiftl (uint16 (Z.land (rd b 1) 0xFF)) 8)
              (field (rd b 2) 0xFF 0) in
      LOG_MESSAGE "[%d] fig 0/4 i=%d/%d rfa=%u rfu=%u subchannel_id=%u CAOrg=%u\n"
        [cif_index; i; nb_components; rfa; rfu; subchannel_id; CAOrg])
      (Zseq (Z.to_nat nb_components)).

(** [FIC_Processor::ProcessFIG_Type_0_Ext_1]: subchannels in stream mode,
    3 bytes (short form) or 4 bytes (long form) each.  The loop, from
    [curr_byte] on; [nb_remain] is a [uint8_t]. *)
Equations? ProcessFIG_Type_0_Ext_1_loop
  (buf : list Z) (N : Z) (cif_index : Z) (curr_byte curr_subchannel : Z)
  : list Event by wf (Z.to_nat (N - curr_byte)) lt :=
ProcessFIG_Type_0_Ext_1_loop buf N cif_index curr_byte curr_subchannel
  with Z_lt_dec curr_byte N => {
  | right _ := [];
  | left _ :=
    let data := ptr buf curr_byte in
    let nb_remain := uint8 (N - curr_byte) in
    if nb_remain <? 3 then
      [LOG_ERROR "[%d] fig 0/1 Ended early for some reason (%d)\n"
         [cif_index; curr_byte]]
    else
      let subchannel_id := field (rd data 0) 0xFC 2 in
      let start_address :=
        Z.lor (Z.shiftl (uint16 (Z.land (rd data 0) 0x03)) 8)
              (field (rd data 1) 0xFF 0) in
      let is_long_form := field (rd data 2) 0x80 7 in
      let nb_data_bytes := if truthy is_long_form then 4 else 3 in
      if nb_data_bytes >? nb_remain then
        [LOG_ERROR
           "[%d] fig 0/1 Long field cannot fit in remaining length\n"
           [cif_index]]
      else
        (if negb (truthy is_long_form) then
           let table_switch := field (rd data 2) 0x40 6 in
           let table_index := field (rd data 2) 0x3F 0 in
           [LOG_MESSAGE
              "[%d] fig 0/1 i=%d subchannel_id=%-2d start_addr=%03d long=%d table_switch=%d table_index=%d\n"
              [cif_index; curr_subchannel; subchannel_id; start_address;
               is_long_form; table_switch; table_index]]
         else
           let option := field (rd data 2) 0x70 4 in
           let prot_level := field (rd data 2) 0x0C 2 in
           let subchannel_size :=
             Z.lor (Z.shiftl (uint16 (Z.land (rd data 2) 0x03)) 8)
                   (field (rd data 3) 0xFF 0) in
           [LOG_MESSAGE
              "[%d] fig 0/1 i=%d subchannel_id=%-2d start_addr=%03d long=%d option=%d prot_level=%d subchannel_size=%d\n"
              [cif_index; curr_subchannel; subchannel_id; start_address;
               is_long_form; option; prot_level; subchannel_size]])
        ++ ProcessFIG_Type_0_Ext_1_loop buf N cif_index
             (curr_byte + nb_data_bytes) (curr_subchannel + 1) }.
Proof.
  all: subst nb_data_bytes; destruct (truthy is_long_form); lia.
Qed.

Definition ProcessFIG_Type_0_Ext_1
  (header : FIG_Header_Type_0) (buf : list Z) (N : Z) (cif_index : Z)
  : list Event :=
  ProcessFIG_Type_0_Ext_1_loop buf N cif_index 0 0.

End FIGFields.

(** ** The transmitted layout of FIGs

    The byte layouts that the handlers of [FIC_Processor] take apart, written
    in the other direction: from field values to bytes.  They serve to state
    that a handler reads back what was put in. *)

Module FIGCoding.
Import FIC FIGFields.

Local Open Scope string_scope.
Local Open Scope list_scope.
Local Open Scope Z_scope.

(** A FIG: the header byte [type:3 | length:5], then the data bytes. *)
Record FIG := { fig_type : Z; fig_data : list Z }.

Definition encode_FIG (f : FIG) : list Z :=
  (fig_type f * 32 + Z.of_nat (List.length (fig_data f))) :: fig_data f.

Definition encode_FIGs (figs : list FIG) : list Z := flat_map encode_FIG figs.

(** What [ProcessFIG] calls for a FIG of a type that has a handler. *)
Definition ProcessFIG_Type (fig_type : Z) (buf : list Z) (N cif_index : Z)
  : list Event :=
  match fig_type with
  | 0 => ProcessFIG_Type_0 buf N cif_index
  | 1 => ProcessFIG_Type_1 buf N cif_index
  | 2 => ProcessFIG_Type_2 buf N cif_index
  | 6 => ProcessFIG_Type_6 buf N cif_index
  | _ => []
  end.

(** The handlers' output FIG by FIG; each handler is given a pointer into
    the payload, so it sees the bytes [tail] that follow its FIG. *)
Fixpoint FIGs_output (figs : list FIG) (tail : list Z) (cif_index : Z)
  : list Event :=
  match figs with
  | [] => []
  | f :: figs =>
    ProcessFIG_Type (fig_type f) (fig_data f ++ encode_FIGs figs ++ tail)
      (Z.of_nat (List.length (fig_data f))) cif_index
    ++ FIGs_output figs tail cif_index
  end.

(** The extension that the [switch] of [ProcessFIG_Type_0] calls the
    handler for. *)
Definition handler_extension (h : Handler) : Z :=
  match h with
  | Type_0_Ext_1 => 1 | Type_0_Ext_14 => 14 | Type_0_Ext_2 => 2
  | Type_0_Ext_3 => 3 | Type_0_Ext_4 => 4 | Type_0_Ext_8 => 8
  | Type_0_Ext_13 => 13 | Type_0_Ext_7 => 7 | Type_0_Ext_6 => 6
  | Type_0_Ext_9 => 9 | Type_0_Ext_17 => 17 | Type_0_Ext_21 => 21
  | Type_0_Ext_24 => 24
  end.

(** The places in the payload [buf] where the scan of [ProcessFIG] reads a
    FIG header: byte 0, and the byte after a FIG that has a handler and lies
    inside the payload. *)
Inductive fig_start (buf : list Z) : Z -> Prop :=
| fig_start_first : fig_start buf 0
| fig_start_next (curr_byte : Z) :
    fig_start buf curr_byte ->
    rd buf curr_byte <> 0xFF ->
    In (fig_type_of (rd buf curr_byte)) [0; 1; 2; 6] ->
    curr_byte + 1 + fig_data_length_of (rd buf curr_byte) <= 30 ->
    fig_start buf (curr_byte + 1 + fig_data_length_of (rd buf curr_byte)).

(** What a [Handler_Call] made during the scan of the payload [buf] can be:
    the call for a type 0 FIG whose header the scan reads at [curr_byte],
    of the handler of the extension in the FIG's descriptor byte, with the
    flags of that byte. *)
Definition scan_call_of (buf : list Z) (cif_index : Z) (ev : Event) : Prop :=
  match ev with
  | Handler_Call h header field_buf N c =>
    exists curr_byte,
      let len := fig_data_length_of (rd buf curr_byte) in
      let descriptor := rd buf (curr_byte + 1) in
      fig_start buf curr_byte
      /\ 0 <= curr_byte /\ curr_byte + 1 + len <= 30
      /\ rd buf curr_byte <> 0xFF
      /\ fig_type_of (rd buf curr_byte) = 0
      /\ handler_extension h = field descriptor 0x1F 0
      /\ header = {| cn := field descriptor 0x80 7;
                     oe := field descriptor 0x40 6;
                     pd := field descriptor 0x20 5 |}
      /\ field_buf = ptr buf (curr_byte + 2)
      /\ c = cif_index
      /\ N = (if len =? 0 then 255 else len - 1)
  | _ => True
  end.

(** FIG 0/14: one byte [SubChId:6 | FEC:2] per subchannel. *)
Record FEC_Scheme := { fec_subchannel_id : Z; fec_scheme : Z }.

Definition FEC_Scheme_ok (e : FEC_Scheme) : Prop :=
  0 <= fec_subchannel_id e < 64 /\ 0 <= fec_scheme e < 4.

Definition encode_FEC_Scheme (e : FEC_Scheme) : Z :=
  fec_subchannel_id e * 4 + fec_scheme e.

(** FIG 0/7: [Services:6 | Count:10]. *)
Definition encode_Configuration (nb_services reconfiguration_count : Z)
  : list Z :=
  [nb_services * 4 + reconfiguration_count / 256;
   reconfiguration_count mod 256].

(** FIG 0/4: [Rfa:1 | Rfu:1 | SubChId:6 | CAOrg:16] per component. *)
Record Stream_CA := {
  ca_rfa : Z; ca_rfu : Z; ca_subchannel_id : Z; ca_CAOrg : Z }.

Definition Stream_CA_ok (e : Stream_CA) : Prop :=
  0 <= ca_rfa e < 2 /\ 0 <= ca_rfu e < 2
  /\ 0 <= ca_subchannel_id e < 64 /\ 0 <= ca_CAOrg e < 65536.

Definition encode_Stream_CA (e : Stream_CA) : list Z :=
  [ca_rfa e * 128 + ca_rfu e * 64 + ca_subchannel_id e;
   ca_CAOrg e / 256; ca_CAOrg e mod 256].

Definition report_Stream_CA (cif_index i n : Z) (e : Stream_CA) : Event :=
  LOG_MESSAGE "[%d] fig 0/4 i=%d/%d rfa=%u rfu=%u subchannel_id=%u CAOrg=%u\n"
    [cif_index; i; n; ca_rfa e; ca_rfu e; ca_subchannel_id e; ca_CAOrg e].

(** FIG 0/3: [SCId:12 | Rfa:3 | CAOrg flag:1 | DG:1 | Rfu:1 | DSCTy:6 |
    SubChId:6 | Packet address:10 | CAOrg:16] per component. *)
Record Packet_Component := {
  pc_scid : Z; pc_rfa : Z; pc_caorg_flag : Z; pc_dg_flag : Z; pc_rfu : Z;
  pc_DSCTy : Z; pc_subchannel_id : Z; pc_packet_address : Z; pc_CAOrg : Z }.

Definition Packet_Component_ok (e : Packet_Component) : Prop :=
  0 <= pc_scid e < 4096 /\ 0 <= pc_rfa e < 8 /\ 0 <= pc_caorg_flag e < 2
  /\ 0 <= pc_dg_flag e < 2 /\ 0 <= pc_rfu e < 2 /\ 0 <= pc_DSCTy e < 64
  /\ 0 <= pc_subchannel_id e < 64 /\ 0 <= pc_packet_address e < 1024
  /\ 0 <= pc_CAOrg e < 65536.

Definition encode_Packet_Component (e : Packet_Component) : list Z :=
  [pc_scid e / 16;
   (pc_scid e mod 16) * 16 + pc_rfa e * 2 + pc_caorg_flag e;
   pc_dg_flag e * 128 + pc_rfu e * 64 + pc_DSCTy e;
   pc_subchannel_id e * 4 + pc_packet_address e / 256;
   pc_packet_address e mod 256;
   pc_CAOrg e / 256; pc_CAOrg e mod 256].

Definition report_Packet_Component (cif_index i n : Z) (e : Packet_Component)
  : Event :=
  LOG_MESSAGE
    "[%d] fig 0/3 i=%d/%d scid=%u rfa=%u caorg=%u dg=%u rfu=%u DSCTy=%u subchannel_id=%u packet_address=%u CAOrg=%u\n"
    [cif_index; i; n; pc_scid e; pc_rfa e; pc_caorg_flag e; pc_dg_flag e;
     pc_rfu e; pc_DSCTy e; pc_subchannel_id e; pc_packet_address e;
     pc_CAOrg e].

(** FIG 0/1: [SubChId:6 | Start address:10], then the short form
    [0 | Table switch:1 | Table index:6] or the long form
    [1 | Option:3 | Protection level:2 | Size:10]. *)
Inductive Protection :=
| Short_form (table_switch table_index : Z)
| Long_form (option prot_level subchannel_size : Z).

Record Subchannel := {
  sub_id : Z; sub_start_address : Z; sub_protection : Protection }.

Definition Subchannel_ok (s : Subchannel) : Prop :=
  0 <= sub_id s < 64 /\ 0 <= sub_start_address s < 1024
  /\ match sub_protection s with
     | Short_form table_switch table_index =>
       0 <= table_switch < 2 /\ 0 <= table_index < 64
     | Long_form option prot_level subchannel_size =>
       0 <= option < 8 /\ 0 <= prot_level < 4 /\ 0 <= subchannel_size < 1024
     end.

Definition encode_Subchannel (s : Subchannel) : list Z :=
  [sub_id s * 4 + sub_start_address s / 256; sub_start_address s mod 256]
  ++ match sub_protection s with
     | Short_form table_switch table_index =>
       [table_switch * 64 + table_index]
     | Long_form option prot_level subchannel_size =>
       [128 + option * 16 + prot_level * 4 + subchannel_size / 256;
        subchannel_size mod 256]
     end.

Definition report_Subchannel (cif_index i : Z) (s : Subchannel) : Event :=
  match sub_protection s with
  | Short_form table_switch table_index =>
    LOG_MESSAGE
      "[%d] fig 0/1 i=%d subchannel_id=%-2d start_addr=%03d long=%d table_switch=%d table_index=%d\n"
      [cif_index; i; sub_id s; sub_start_address s; 0;
       table_switch; table_index]
  | Long_form option prot_level subchannel_size =>
    LOG_MESSAGE
      "[%d] fig 0/1 i=%d subchannel_id=%-2d start_addr=%03d long=%d option=%d prot_level=%d subchannel_size=%d\n"
      [cif_index; i; sub_id s; sub_start_address s; 1;
       option; prot_level; subchannel_size]
  end.

End FIGCoding.

(** ** Transmission errors in a FIB *)

Module FIBErrors.
Import FIC.

Local Open Scope list_scope.
Local Open Scope Z_scope.

(** The bytes of [a], each XORed with the byte of [b] at its position:
    the FIB [a] as received when [b] holds the bits that were inverted on
    the way. *)
Definition xor_bytes (a b : list Z) : list Z := zip_with Z.lxor a b.

(** The FIB with bit [k] (0 is the least significant) of byte [i]
    inverted. *)
Definition flip_bit (fib : list Z) (i k : nat) : list Z :=
  alter (fun b => Z.lxor b (2 ^ Z.of_nat k)) i fib.

(** The 32 bytes in which only bit [k] of byte [i] is set. *)
Definition bit_error (i k : nat) : list Z :=
  <[i := 2 ^ Z.of_nat k]> (replicate 32 0).

(** What the check of [ProcessFIB] compares, as one number: the CRC-16 of
    the 30 data bytes XORed with the number the last two bytes spell; it
    is 0 exactly for a valid FIB. *)
Definition residue (fib : list Z) : Z :=
  Z.lxor (crc16_xorout (firstn 30 fib)) (256 * rd fib 30 + rd fib 31).

(** The same for a pattern of inverted bits, with the initial value 0 and
    no final XOR. *)
Definition syndrome (e : list Z) : Z :=
  Z.lxor (fold_left crc16_update (firstn 30 e) 0)
         (256 * rd e 30 + rd e 31).

End FIBErrors.

(** ** Decoder configuration (dab_viterbi_decoder.cpp,
    [create_decoder_config]) *)

Module ViterbiConfig.

(** [ViterbiDecoder_Config<uint16_t>] *)
Record ViterbiDecoder_Config := {
  soft_decision_max_error : Z;
  initial_start_error : Z;
  initial_non_start_error : Z;
  renormalisation_threshold : Z }.

(** [create_decoder_config], for the values of the macros
    [SOFT_DECISION_VITERBI_LOW] and [SOFT_DECISION_VITERBI_HIGH]; the
    arithmetic is on [uint16_t]. *)
Definition create_decoder_config
  (SOFT_DECISION_VITERBI_LOW SOFT_DECISION_VITERBI_HIGH : Z)
  : ViterbiDecoder_Config :=
  let soft_decision_low := to_int16 SOFT_DECISION_VITERBI_LOW in
  let soft_decision_high := to_int16 SOFT_DECISION_VITERBI_HIGH in
  let max_error :=
    uint16 (uint16 (soft_decision_high - soft_decision_low)
            * uint16 Depuncture.code_rate) in
  let error_margin := uint16 (max_error * uint16 5) in
  let initial_start_error := 0 in
  {| soft_decision_max_error := max_error;
     initial_start_error := initial_start_error;
     initial_non_start_error := uint16 (initial_start_error + error_margin);
     renormalisation_threshold := uint16 (65535 - error_margin) |}.

End ViterbiConfig.

(** ** Texture keys (simple_view_controller.h) *)

Module ViewKeys.

(** [SimpleViewController::GetKey]; the result is a [uint32_t]. *)
Definition GetKey (subchannel_id transport_id : Z) : Z :=
  Z.lor (Z.shiftl subchannel_id 16) transport_id mod 2 ^ 32.

End ViewKeys.

(** ** FIG 0/2 and FIG 0/8: services and their components
    (fic_processor.cpp) *)

Module FIGServices.
Import FIC FIGFields.

Local Open Scope string_scope.
Local Open Scope list_scope.
Local Open Scope Z_scope.

(** The [for] loop over the service components of one service in
    [ProcessFIG_Type_0_Ext_2], for the values [indices] of its counter.  The
    flag of the result says that the loop left the handler through the
    [return] of [default:]. *)
Fixpoint ProcessFIG_Type_0_Ext_2_components
  (header : FIG_Header_Type_0) (sid : ServiceIdentifier)
  (cif_index curr_service nb_service_components : Z)
  (components_buf : list Z) (indices : list Z) : list Event * bool :=
  match indices with
  | [] => ([], false)
  | i :: indices =>
    let nb_service_component_bytes := 2 in
    let b := ptr components_buf (i * nb_service_component_bytes) in
    let b0 := rd b 0 in
    let b1 := rd b 1 in
    let tmid := field b0 0xC0 6 in
    let continue (ev : Event) :=
      let '(out, returned) :=
        ProcessFIG_Type_0_Ext_2_components header sid cif_index curr_service
          nb_service_components components_buf indices in
      (ev :: out, returned) in
    match tmid with
    | 0 =>
      let ASTCy := field b0 0x3F 0 in
      let subchannel_id := field b1 0xFC 2 in
      let is_primary := field b1 0x02 1 in
      let ca_flag := field b1 0x01 0 in
      continue (LOG_MESSAGE
        "[%d] fig 0/2 pd=%u country_id=%-2u service_ref=%-4u ecc=%u i=%d-%d/%d tmid=%u ASTCy=%u subchannel_id=%-2u ps=%u ca=%u\n"
        [cif_index; pd header;
         sid_country_id sid; service_reference sid; ecc sid;
         curr_service; i; nb_service_components;
         tmid; ASTCy; subchannel_id; is_primary; ca_flag])
    | 1 =>
      let DSCTy := field b0 0x3F 0 in
      let subchannel_id := field b1 0xFC 2 in
      let is_primary := field b1 0x02 1 in
      let ca_flag := field b1 0x01 0 in
      continue (LOG_MESSAGE
        "[%d] fig 0/2 pd=%u country_id=%-2u service_ref=%-4u ecc=%u i=%d-%d/%d tmid=%u DSTCy=%u subchannel_id=%-2u ps=%u ca=%u\n"
        [cif_index; pd header;
         sid_country_id sid; service_reference sid; ecc sid;
         curr_service; i; nb_service_components;
         tmid; DSCTy; subchannel_id; is_primary; ca_flag])
    | 3 =>
      let scid :=
        Z.lor (Z.shiftl (uint16 (Z.land b0 0x3F)) 6) (field b1 0xFC 2) in
      let is_primary := field b1 0x02 1 in
      let ca_flag := field b1 0x01 0 in
      continue (LOG_MESSAGE
        "[%d] fig 0/2 pd=%u country_id=%-2u service_ref=%-4u ecc=%u i=%d-%d/%d tmid=%u scid=%u ps=%u ca=%u\n"
        [cif_index; pd header;
         sid_country_id sid; service_reference sid; ecc sid;
         curr_service; i; nb_service_components;
         tmid; scid; is_primary; ca_flag])
    | _ =>
      ([LOG_ERROR "[%d] fig 0/2 reserved tmid=%d\n" [cif_index; tmid]], true)
    end
  end.

(** [FIC_Processor::ProcessFIG_Type_0_Ext_2]: the [while] loop over the
    services, from [curr_index] on. *)
Equations? ProcessFIG_Type_0_Ext_2_loop
  (header : FIG_Header_Type_0) (buf : list Z) (N : Z) (cif_index : Z)
  (curr_index curr_service : Z)
  : list Event by wf (Z.to_nat (N - curr_index)) lt :=
ProcessFIG_Type_0_Ext_2_loop header buf N cif_index curr_index curr_service
  with Z_lt_dec curr_index N => {
  | right _ := [];
  | left _ :=
    let nb_service_id_bytes := if truthy (pd header) then 4 else 2 in
    let nb_header_bytes := nb_service_id_bytes + 1 in
    let service_buf := ptr buf curr_index in
    let nb_remain_bytes := N - curr_index in
    if nb_header_bytes >? nb_remain_bytes then
      [LOG_ERROR
         "[%d] fig 0/2 Message not long enough header field for service data\n"
         [cif_index]]
    else
      let sid :=
        if negb (truthy (pd header)) then ProcessShortForm service_buf
        else ProcessLongForm service_buf in
      let descriptor := rd service_buf nb_service_id_bytes in
      let rfa := field descriptor 0x80 7 in
      let caid := field descriptor 0x70 4 in
      let nb_service_components := field descriptor 0x0F 0 in
      let nb_service_component_bytes := 2 in
      let nb_length_bytes :=
        nb_service_component_bytes * nb_service_components
        + nb_header_bytes in
      if nb_length_bytes >? nb_remain_bytes then
        [LOG_ERROR
           "[%d] fig 0/2 Message not long enough for service components\n"
           [cif_index]]
      else
        let components_buf := ptr service_buf nb_header_bytes in
        let components :=
          ProcessFIG_Type_0_Ext_2_components header sid cif_index
            curr_service nb_service_components components_buf
            (Zseq (Z.to_nat nb_service_components)) in
        if snd components then fst components
        else
          fst components
          ++ ProcessFIG_Type_0_Ext_2_loop header buf N cif_index
               (curr_index + nb_length_bytes) (curr_service + 1) }.
Proof.
  assert (H : 0 <= nb_service_components < 16)
    by (subst nb_service_components; unfold field; rewrite Z.shiftr_0_r;
        change 0x0F with (Z.ones 4); rewrite Z.land_ones by lia;
        apply Z.mod_pos_bound; reflexivity).
  subst nb_length_bytes nb_header_bytes nb_service_id_bytes
    nb_service_component_bytes.
  destruct (truthy (pd header)); lia.
Qed.

Definition ProcessFIG_Type_0_Ext_2
  (header : FIG_Header_Type_0) (buf : list Z) (N : Z) (cif_index : Z)
  : list Event :=
  ProcessFIG_Type_0_Ext_2_loop header buf N cif_index 0 0.

(** [FIC_Processor::ProcessFIG_Type_0_Ext_8]: the [while] loop over the
    services, from [curr_index] on.  [nb_length_bytes] is a [uint8_t]. *)
Equations? ProcessFIG_Type_0_Ext_8_loop
  (header : FIG_Header_Type_0) (buf : list Z) (N : Z) (cif_index : Z)
  (curr_index curr_service : Z)
  : list Event by wf (Z.to_nat (N - curr_index)) lt :=
ProcessFIG_Type_0_Ext_8_loop header buf N cif_index curr_index curr_service
  with Z_lt_dec curr_index N => {
  | right _ := [];
  | left _ :=
    let nb_service_id_bytes := if truthy (pd header) then 4 else 2 in
    let nb_header_bytes := nb_service_id_bytes + 1 in
    let service_buf := ptr buf curr_index in
    let nb_remain_bytes := N - curr_index in
    if nb_header_bytes + 1 >? nb_remain_bytes then
      [LOG_ERROR
         "[%d] fig 0/8 Message not long enough for header field (%d)\n"
         [cif_index; nb_remain_bytes]]
    else
      let sid :=
        if negb (truthy (pd header)) then ProcessShortForm service_buf
        else ProcessLongForm service_buf in
      let descriptor := rd service_buf nb_service_id_bytes in
      let ext_flag := field descriptor 0x80 7 in
      let rfa0 := field descriptor 0x70 4 in
      let SCIdS := field descriptor 0x0F 0 in
      let data_buf := ptr service_buf (nb_service_id_bytes + 1) in
      let ls_flag := field (rd data_buf 0) 0x80 7 in
      let nb_data_bytes := if truthy ls_flag then 2 else 1 in
      let nb_rfa_byte := if truthy ext_flag then 1 else 0 in
      let nb_length_bytes :=
        uint8 (nb_header_bytes + nb_data_bytes + nb_rfa_byte) in
      if nb_length_bytes >? nb_remain_bytes then
        [LOG_ERROR
           "[%d] fig 0/8 Message not long enough for tail data (%d/%d)\n"
           [cif_index; nb_length_bytes; nb_remain_bytes]]
      else
        let rfa2 :=
          if truthy ext_flag then rd data_buf (nb_data_bytes - 1)
          else 0x00 in
        (if negb (truthy ls_flag) then
           let rfu0 := field (rd data_buf 0) 0x40 6 in
           let subchannel_id := field (rd data_buf 0) 0x3F 0 in
           [LOG_MESSAGE
              "[%d] fig 0/8 pd=%u country_id=%-2u service_ref=%-4u ecc=%u ext=%u rfa0=%u SCIdS=%u is_long=%u rfu0=%u subchannel_id=%-2u rfa2=%u\n"
              [cif_index; pd header;
               sid_country_id sid; service_reference sid; ecc sid;
               ext_flag; rfa0; SCIdS;
               ls_flag; rfu0; subchannel_id; rfa2]]
         else
           let rfa1 := field (rd data_buf 0) 0x70 4 in
           let SCId :=
             Z.lor (Z.shiftl (uint16 (Z.land (rd data_buf 0) 0x0F)) 8)
                   (field (rd data_buf 1) 0xFF 0) in
           [LOG_MESSAGE
              "[%d] fig 0/8 pd=%u country_id=%-2u service_ref=%-4u ecc=%u ext=%u rfa0=%u SCIdS=%u is_long=%u rfa1=%u SCId=%-2u rfa2=%u\n"
              [cif_index; pd header;
               sid_country_id sid; service_reference sid; ecc sid;
               ext_flag; rfa0; SCIdS;
               ls_flag; rfa1; SCId; rfa2]])
        ++ ProcessFIG_Type_0_Ext_8_loop header buf N cif_index
             (curr_index + nb_length_bytes) (curr_service + 1) }.
Proof.
  subst nb_length_bytes nb_header_bytes nb_service_id_bytes nb_data_bytes
    nb_rfa_byte.
  unfold uint8.
  destruct (truthy (pd header)), (truthy ls_flag), (truthy ext_flag);
    rewrite Z.mod_small by lia; lia.
Qed.

Definition ProcessFIG_Type_0_Ext_8
  (header : FIG_Header_Type_0) (buf : list Z) (N : Z) (cif_index : Z)
  : list Event :=
  ProcessFIG_Type_0_Ext_8_loop header buf N cif_index 0 0.

(** *** The transmitted layout *)

(** A service component of FIG 0/2: [TMId:2], then by TMId
    [ASCTy:6 | SubChId:6 | P/S:1 | CA:1] (stream audio, TMId 0),
    [DSCTy:6 | SubChId:6 | P/S:1 | CA:1] (stream data, TMId 1) or
    [SCId:12 | P/S:1 | CA:1] (packet data, TMId 3). *)
Inductive Component :=
| Stream_audio (ASCTy subchannel_id is_primary ca_flag : Z)
| Stream_data (DSCTy subchannel_id is_primary ca_flag : Z)
| Packet_data (scid is_primary ca_flag : Z).

Definition Component_ok (c : Component) : Prop :=
  match c with
  | Stream_audio ty subchannel_id is_primary ca_flag
  | Stream_data ty subchannel_id is_primary ca_flag =>
    0 <= ty < 64 /\ 0 <= subchannel_id < 64
    /\ 0 <= is_primary < 2 /\ 0 <= ca_flag < 2
  | Packet_data scid is_primary ca_flag =>
    0 <= scid < 4096 /\ 0 <= is_primary < 2 /\ 0 <= ca_flag < 2
  end.

Definition encode_Component (c : Component) : list Z :=
  match c with
  | Stream_audio ASCTy subchannel_id is_primary ca_flag =>
    [ASCTy; subchannel_id * 4 + is_primary * 2 + ca_flag]
  | Stream_data DSCTy subchannel_id is_primary ca_flag =>
    [64 + DSCTy; subchannel_id * 4 + is_primary * 2 + ca_flag]
  | Packet_data scid is_primary ca_flag =>
    [192 + scid / 64; (scid mod 64) * 4 + is_primary * 2 + ca_flag]
  end.

(** The identifier of a service as transmitted: 2 bytes
    [Country:4 | Reference:12], or with P/D set 4 bytes
    [ECC:8 | Country:4 | Reference:20]. *)
Definition ServiceIdentifier_ok (long : bool) (sid : ServiceIdentifier)
  : Prop :=
  0 <= sid_country_id sid < 16
  /\ if long
     then 0 <= service_reference sid < 1048576 /\ 0 <= ecc sid < 256
     else 0 <= service_reference sid < 4096 /\ ecc sid = 0.

Definition encode_ServiceIdentifier (long : bool) (sid : ServiceIdentifier)
  : list Z :=
  if long
  then [ecc sid;
        sid_country_id sid * 16 + service_reference sid / 65536;
        (service_reference sid / 256) mod 256;
        service_reference sid mod 256]
  else [sid_country_id sid * 16 + service_reference sid / 256;
        service_reference sid mod 256].

(** A service of FIG 0/2: the identifier, [Rfa:1 | CAId:3 | count:4],
    the components. *)
Record Service := {
  svc_id : ServiceIdentifier;
  svc_rfa : Z;
  svc_caid : Z;
  svc_components : list Component }.

Definition Service_ok (long : bool) (s : Service) : Prop :=
  ServiceIdentifier_ok long (svc_id s)
  /\ 0 <= svc_rfa s < 2 /\ 0 <= svc_caid s < 8
  /\ (List.length (svc_components s) < 16)%nat
  /\ Forall Component_ok (svc_components s).

Definition encode_Service (long : bool) (s : Service) : list Z :=
  encode_ServiceIdentifier long (svc_id s)
  ++ [svc_rfa s * 128 + svc_caid s * 16
      + Z.of_nat (List.length (svc_components s))]
  ++ flat_map encode_Component (svc_components s).

Definition report_Component (header : FIG_Header_Type_0)
  (sid : ServiceIdentifier) (cif_index curr_service i n : Z) (c : Component)
  : Event :=
  match c with
  | Stream_audio ASCTy subchannel_id is_primary ca_flag =>
    LOG_MESSAGE
      "[%d] fig 0/2 pd=%u country_id=%-2u service_ref=%-4u ecc=%u i=%d-%d/%d tmid=%u ASTCy=%u subchannel_id=%-2u ps=%u ca=%u\n"
      [cif_index; pd header;
       sid_country_id sid; service_reference sid; ecc sid;
       curr_service; i; n; 0; ASCTy; subchannel_id; is_primary; ca_flag]
  | Stream_data DSCTy subchannel_id is_primary ca_flag =>
    LOG_MESSAGE
      "[%d] fig 0/2 pd=%u country_id=%-2u service_ref=%-4u ecc=%u i=%d-%d/%d tmid=%u DSTCy=%u subchannel_id=%-2u ps=%u ca=%u\n"
      [cif_index; pd header;
       sid_country_id sid; service_reference sid; ecc sid;
       curr_service; i; n; 1; DSCTy; subchannel_id; is_primary; ca_flag]
  | Packet_data scid is_primary ca_flag =>
    LOG_MESSAGE
      "[%d] fig 0/2 pd=%u country_id=%-2u service_ref=%-4u ecc=%u i=%d-%d/%d tmid=%u scid=%u ps=%u ca=%u\n"
      [cif_index; pd header;
       sid_country_id sid; service_reference sid; ecc sid;
       curr_service; i; n; 3; scid; is_primary; ca_flag]
  end.

Definition report_Service (header : FIG_Header_Type_0)
  (cif_index curr_service : Z) (s : Service) : list Event :=
  imap (fun i c =>
    report_Component header (svc_id s) cif_index curr_service (Z.of_nat i)
      (Z.of_nat (List.length (svc_components s))) c)
    (svc_components s).

(** A service component of FIG 0/8: the identifier of the service,
    [Ext:1 | Rfa:3 | SCIdS:4], then the short form
    [0 | Rfu:1 | SubChId:6] or the long form [1 | Rfa:3 | SCId:12], and
    with Ext set a byte Rfa. *)
Inductive Component_Id :=
| Short_id (rfu0 subchannel_id : Z)
| Long_id (rfa1 SCId : Z).

Record Global_Component := {
  gc_id : ServiceIdentifier;
  gc_rfa0 : Z;
  gc_SCIdS : Z;
  gc_component : Component_Id;
  gc_rfa2 : option Z }.

Definition Global_Component_ok (long : bool) (g : Global_Component) : Prop :=
  ServiceIdentifier_ok long (gc_id g)
  /\ 0 <= gc_rfa0 g < 8 /\ 0 <= gc_SCIdS g < 16
  /\ match gc_component g with
     | Short_id rfu0 subchannel_id => 0 <= rfu0 < 2 /\ 0 <= subchannel_id < 64
     | Long_id rfa1 SCId => 0 <= rfa1 < 8 /\ 0 <= SCId < 4096
     end
  /\ match gc_rfa2 g with
     | Some rfa2 => 0 <= rfa2 < 256
     | None => True
     end.

Definition encode_Component_Id (c : Component_Id) : list Z :=
  match c with
  | Short_id rfu0 subchannel_id => [rfu0 * 64 + subchannel_id]
  | Long_id rfa1 SCId => [128 + rfa1 * 16 + SCId / 256; SCId mod 256]
  end.

Definition encode_Global_Component (long : bool) (g : Global_Component)
  : list Z :=
  encode_ServiceIdentifier long (gc_id g)
  ++ [match gc_rfa2 g with Some _ => 128 | None => 0 end
      + gc_rfa0 g * 16 + gc_SCIdS g]
  ++ encode_Component_Id (gc_component g)
  ++ match gc_rfa2 g with Some rfa2 => [rfa2] | None => [] end.

(** What the handler reports for the component.  As [rfa2] it reports,
    when Ext is set, the byte at [data_buf[nb_data_bytes-1]]: the last
    byte of the short or long form, not the byte Rfa behind it. *)
Definition report_Global_Component (header : FIG_Header_Type_0)
  (cif_index : Z) (g : Global_Component) : Event :=
  let sid := gc_id g in
  let ext_flag := match gc_rfa2 g with Some _ => 1 | None => 0 end in
  match gc_component g with
  | Short_id rfu0 subchannel_id =>
    LOG_MESSAGE
      "[%d] fig 0/8 pd=%u country_id=%-2u service_ref=%-4u ecc=%u ext=%u rfa0=%u SCIdS=%u is_long=%u rfu0=%u subchannel_id=%-2u rfa2=%u\n"
      [cif_index; pd header;
       sid_country_id sid; service_reference sid; ecc sid;
       ext_flag; gc_rfa0 g; gc_SCIdS g;
       0; rfu0; subchannel_id;
       match gc_rfa2 g with
       | Some _ => rfu0 * 64 + subchannel_id
       | None => 0
       end]
  | Long_id rfa1 SCId =>
    LOG_MESSAGE
      "[%d] fig 0/8 pd=%u country_id=%-2u service_ref=%-4u ecc=%u ext=%u rfa0=%u SCIdS=%u is_long=%u rfa1=%u SCId=%-2u rfa2=%u\n"
      [cif_index; pd header;
       sid_country_id sid; service_reference sid; ecc sid;
       ext_flag; gc_rfa0 g; gc_SCIdS g;
       1; rfa1; SCId;
       match gc_rfa2 g with Some _ => SCId mod 256 | None => 0 end]
  end.

End FIGServices.

(** ** One frame of MSC bits (basic_dab_plus_channel.cpp,
    [Basic_DAB_Plus_Channel::Process]) *)

Module ChannelProcess.
Import Channel.

Local Open Scope string_scope.
Local Open Scope list_scope.
Local Open Scope Z_scope.

(** The fields of [DAB_Parameters] that [Process] reads. *)
Record DAB_Parameters := {
  nb_msc_bits : Z;
  nb_cifs : Z;
  nb_cif_bits : Z }.

(** [buf.subspan(offset, count)] *)
Definition subspan (buf : list Z) (offset count : Z) : list Z :=
  firstn (Z.to_nat count) (skipn (Z.to_nat offset) buf).

Section Process.

(** The MSC decoder and the AAC frame processor are external, as the AAC
    decoders are.  [DecodeCIF d cif_buf] is [d->DecodeCIF(cif_buf)] with
    the decoded bytes, [frame_processor_Process p bytes] is
    [p->Process(bytes)] with the events that it fires, in order. *)
Context {AAC_Audio_Decoder AAC_Data_Decoder : Type}.
Context {MSC_Decoder AAC_Frame_Processor : Type}.
Variable AAC_Audio_Decoder_new : Params -> AAC_Audio_Decoder.
Variable GetParams : AAC_Audio_Decoder -> Params.
Variable DecodeFrame :
  AAC_Audio_Decoder -> list Z -> AAC_Audio_Decoder * DecodeFrameResult.
Variable ProcessAccessUnit : AAC_Data_Decoder -> list Z -> AAC_Data_Decoder.
Variable DecodeCIF : MSC_Decoder -> list Z -> MSC_Decoder * list Z.
Variable frame_processor_Process :
  AAC_Frame_Processor -> list Z -> AAC_Frame_Processor * list FrameEvent.

(** The channel: its parameters, the decoder and the frame processor, and
    the members that the listeners read or write. *)
Record Channel_State := {
  m_params : DAB_Parameters;
  m_msc_decoder : MSC_Decoder;
  m_aac_frame_processor : AAC_Frame_Processor;
  m_listeners : @Basic_DAB_Plus_Channel AAC_Audio_Decoder AAC_Data_Decoder }.

(** The [for] loop of [Process], for the values [cifs] of its counter.
    With the new state and what the listeners send out it returns the
    buffers that were handed to [DecodeCIF], in order. *)
Fixpoint Process_loop (st : Channel_State) (msc_bits_buf : list Z)
  (cifs : list Z) : Channel_State * list Output * list (list Z) :=
  match cifs with
  | [] => (st, [], [])
  | i :: cifs =>
    let cif_buf :=
      subspan msc_bits_buf (i * nb_cif_bits (m_params st))
        (nb_cif_bits (m_params st)) in
    let '(msc_decoder, decoded_bytes) :=
      DecodeCIF (m_msc_decoder st) cif_buf in
    let '(st, out) :=
      match decoded_bytes with
      | [] =>
        ({| m_params := m_params st;
            m_msc_decoder := msc_decoder;
            m_aac_frame_processor := m_aac_frame_processor st;
            m_listeners := m_listeners st |}, [])
      | _ :: _ =>
        let '(frame_processor, events) :=
          frame_processor_Process (m_aac_frame_processor st) decoded_bytes in
        let '(listeners, out) :=
          run AAC_Audio_Decoder_new GetParams DecodeFrame ProcessAccessUnit
            (m_listeners st) events in
        ({| m_params := m_params st;
            m_msc_decoder := msc_decoder;
            m_aac_frame_processor := frame_processor;
            m_listeners := listeners |}, out)
      end in
    let '(st, out', calls) := Process_loop st msc_bits_buf cifs in
    (st, out ++ out', cif_buf :: calls)
  end.

(** [Basic_DAB_Plus_Channel::Process] *)
Definition Process (st : Channel_State) (msc_bits_buf : list Z)
  : Channel_State * list Output * list (list Z) :=
  let nb_msc_bits' := Z.of_nat (List.length msc_bits_buf) in
  if negb (nb_msc_bits' =? nb_msc_bits (m_params st)) then
    (st,
     [LOG_ERROR "Got incorrect number of MSC bits {}/{}"
        [nb_msc_bits'; nb_msc_bits (m_params st)]],
     [])
  else if negb (Controls.GetAnyEnabled (m_controls (m_listeners st))) then
    (st, [], [])
  else
    Process_loop st msc_bits_buf (Zseq (Z.to_nat (nb_cifs (m_params st)))).

End Process.

End ChannelProcess.

(** ** FIG 0/13: user applications (fic_processor.cpp) *)

Module FIGUserApps.
Import FIC FIGFields.

Local Open Scope string_scope.
Local Open Scope list_scope.
Local Open Scope Z_scope.

(** The [for] loop over the user applications of one service component in
    [ProcessFIG_Type_0_Ext_13], for the values [indices] of its counter,
    from [curr_apps_buf_index] on ([curr_apps_buf_index] starts at 0 and
    only grows, by a [uint8_t]; it is a [nat] here).  The result is
    [None] when the loop leaves the handler through a [return], and the
    last [curr_apps_buf_index] otherwise. *)
Fixpoint ProcessFIG_Type_0_Ext_13_apps
  (header : FIG_Header_Type_0) (sid : ServiceIdentifier)
  (SCIdS cif_index nb_user_apps nb_remain_bytes : Z) (apps_buf : list Z)
  (indices : list Z) (curr_apps_buf_index : nat)
  : list Event * option nat :=
  match indices with
  | [] => ([], Some curr_apps_buf_index)
  | i :: indices =>
    let nb_app_header_bytes := 2 in
    let app_buf := ptr apps_buf (Z.of_nat curr_apps_buf_index) in
    let nb_app_remain_bytes :=
      nb_remain_bytes - Z.of_nat curr_apps_buf_index in
    if nb_app_header_bytes >? nb_app_remain_bytes then
      ([LOG_ERROR
          "[%d] fig 0/13 Length not long enough for app header data (%d/%d)\n"
          [cif_index; nb_app_header_bytes; nb_app_remain_bytes]], None)
    else
      let user_app_type :=
        Z.lor (Z.shiftl (uint16 (Z.land (rd app_buf 0) 0xFF)) 3)
              (field (rd app_buf 1) 0xE0 5) in
      let nb_app_data_bytes := field (rd app_buf 1) 0x1F 0 in
      let nb_app_total_bytes :=
        uint8 (nb_app_header_bytes + nb_app_data_bytes) in
      if nb_app_total_bytes >? nb_app_remain_bytes then
        ([LOG_ERROR
            "[%d] fig 0/13 Length not long enough for app XPAD/user data (%d/%d)\n"
            [cif_index; nb_app_total_bytes; nb_app_remain_bytes]], None)
      else
        let ev :=
          LOG_MESSAGE
            "[%d] fig 0/13 pd=%u country_id=%-2u service_ref=%-4u ecc=%u SCIdS=%u i=%d/%d app_type=%u L=%d\n"
            [cif_index; pd header;
             sid_country_id sid; service_reference sid; ecc sid;
             SCIdS; i; nb_user_apps; user_app_type; nb_app_data_bytes] in
        let '(out, r) :=
          ProcessFIG_Type_0_Ext_13_apps header sid SCIdS cif_index
            nb_user_apps nb_remain_bytes apps_buf indices
            (curr_apps_buf_index + Z.to_nat nb_app_total_bytes) in
        (ev :: out, r)
  end.

(** [FIC_Processor::ProcessFIG_Type_0_Ext_13]: the [while] loop over the
    user application blocks, from [curr_index] on. *)
Equations? ProcessFIG_Type_0_Ext_13_loop
  (header : FIG_Header_Type_0) (buf : list Z) (N : Z) (cif_index : Z)
  (curr_index : Z)
  : list Event by wf (Z.to_nat (N - curr_index)) lt :=
ProcessFIG_Type_0_Ext_13_loop header buf N cif_index curr_index
  with Z_lt_dec curr_index N => {
  | right _ := [];
  | left _ :=
    let nb_service_id_bytes := if truthy (pd header) then 4 else 2 in
    let nb_header_bytes := nb_service_id_bytes + 1 in
    let nb_remain_bytes := N - curr_index in
    let entity_buf := ptr buf curr_index in
    if nb_header_bytes >? nb_remain_bytes then
      [LOG_ERROR
         "[%d] fig 0/13 Length not long enough for header data (%d)\n"
         [cif_index; nb_remain_bytes]]
    else
      let sid :=
        if negb (truthy (pd header)) then ProcessShortForm entity_buf
        else ProcessLongForm entity_buf in
      let descriptor := rd entity_buf nb_service_id_bytes in
      let SCIdS := field descriptor 0xF0 4 in
      let nb_user_apps := field descriptor 0x0F 0 in
      let apps_buf := ptr entity_buf nb_header_bytes in
      let apps :=
        ProcessFIG_Type_0_Ext_13_apps header sid SCIdS cif_index
          nb_user_apps nb_remain_bytes apps_buf
          (Zseq (Z.to_nat nb_user_apps)) 0 in
      match snd apps with
      | None => fst apps
      | Some curr_apps_buf_index =>
        fst apps
        ++ ProcessFIG_Type_0_Ext_13_loop header buf N cif_index
             (curr_index + (Z.of_nat curr_apps_buf_index + nb_header_bytes))
      end }.
Proof.
  subst nb_header_bytes nb_service_id_bytes.
  destruct (truthy (pd header)); lia.
Qed.

Definition ProcessFIG_Type_0_Ext_13
  (header : FIG_Header_Type_0) (buf : list Z) (N : Z) (cif_index : Z)
  : list Event :=
  ProcessFIG_Type_0_Ext_13_loop header buf N cif_index 0.

End FIGUserApps.

(** ** The calls of the embedded handlers *)

Module FIGDispatch.
Import FIC FIGFields FIGServices FIGUserApps.

Local Open Scope list_scope.
Local Open Scope Z_scope.

(** The handlers that [ProcessFIG_Type_0] records as [Handler_Call] and
    that are embedded in [FIGFields], [FIGServices] and [FIGUserApps]. *)
Definition embedded_handler (h : Handler)
  : option (FIG_Header_Type_0 -> list Z -> Z -> Z -> list Event) :=
  match h with
  | Type_0_Ext_1 => Some ProcessFIG_Type_0_Ext_1
  | Type_0_Ext_14 => Some ProcessFIG_Type_0_Ext_14
  | Type_0_Ext_2 => Some ProcessFIG_Type_0_Ext_2
  | Type_0_Ext_3 => Some ProcessFIG_Type_0_Ext_3
  | Type_0_Ext_4 => Some ProcessFIG_Type_0_Ext_4
  | Type_0_Ext_8 => Some ProcessFIG_Type_0_Ext_8
  | Type_0_Ext_13 => Some ProcessFIG_Type_0_Ext_13
  | Type_0_Ext_7 => Some ProcessFIG_Type_0_Ext_7
  | _ => None
  end.

(** The events of a run with each recorded call of an embedded handler
    replaced by what the handler does. *)
Definition run_handler_calls (events : list Event) : list Event :=
  flat_map (fun ev =>
    match ev with
    | Handler_Call h header buf N cif_index =>
      match embedded_handler h with
      | Some handler => handler header buf N cif_index
      | None => [ev]
      end
    | _ => [ev]
    end) events.

End FIGDispatch.

(** * Properties *)

(** ** Bit-level helper lemmas *)

Lemma testbit_uint8_low (x n : Z) :
  0 <= n < 8 -> Z.testbit (uint8 x) n = Z.testbit x n.
Proof.
  intros Hn. unfold uint8. change 256 with (2 ^ 8).
  apply Z.mod_pow2_bits_low. lia.
Qed.

Lemma land_pow2_nonzero (x n : Z) :
  0 <= n -> Z.testbit x n = true -> Z.land x (2 ^ n) <> 0.
Proof.
  intros Hn Hb Hz.
  assert (Ht : Z.testbit (Z.land x (2 ^ n)) n = true).
  { rewrite Z.land_spec, Hb, Z.pow2_bits_true by lia. reflexivity. }
  rewrite Hz, Z.bits_0 in Ht. discriminate.
Qed.

Lemma land_pow2_zero (x n : Z) :
  0 <= n -> Z.testbit x n = false -> Z.land x (2 ^ n) = 0.
Proof.
  intros Hn Hb. apply Z.bits_inj'. intros k Hk.
  rewrite Z.land_spec, Z.bits_0, Z.pow2_bits_eqb by lia.
  destruct (Z.eqb_spec n k) as [->|]; [rewrite Hb|]; auto using andb_false_r.
Qed.

(** ** Control flags *)

Module ControlsFacts.
Import Controls.

(** Setting a flag makes its bit 1, clearing it makes its bit 0, whatever
    the other bits are. *)
Lemma SetFlag_true_bit (c : Basic_DAB_Plus_Controls) (n : Z) :
  0 <= n < 8 -> Z.testbit (flags (SetFlag c (2 ^ n) true)) n = true.
Proof.
  intros Hn. cbn. rewrite testbit_uint8_low, Z.lor_spec by lia.
  rewrite Z.pow2_bits_true by lia. apply orb_true_r.
Qed.

Lemma SetFlag_false_bit (c : Basic_DAB_Plus_Controls) (n : Z) :
  0 <= n < 8 -> Z.testbit (flags (SetFlag c (2 ^ n) false)) n = false.
Proof.
  intros Hn. cbn. rewrite testbit_uint8_low, Z.land_spec by lia.
  rewrite Z.lnot_spec, Z.pow2_bits_true by lia. apply andb_false_r.
Qed.

(** C2: for every value of the control flags, after [SetIsPlayAudio(true)]
    [GetIsDecodeAudio()] is true, and after [SetIsDecodeAudio(false)]
    [GetIsPlayAudio()] is false; from [flags = 0], [SetIsPlayAudio(true)]
    followed by [SetIsDecodeAudio(false)] gives [flags = 0] again. *)
Theorem control_flag_coupling :
  (forall c, GetIsDecodeAudio (SetIsPlayAudio c true) = true)
  /\ (forall c, GetIsPlayAudio (SetIsDecodeAudio c false) = false)
  /\ SetIsDecodeAudio (SetIsPlayAudio {| flags := 0 |} true) false
     = {| flags := 0 |}.
Proof.
  split; [|split].
  - intros c. unfold GetIsDecodeAudio, SetIsPlayAudio.
    apply negb_true_iff, Z.eqb_neq.
    change CONTROL_FLAG_DECODE_AUDIO with (2 ^ 7).
    apply land_pow2_nonzero; [lia|]. apply SetFlag_true_bit. lia.
  - intros c. unfold GetIsPlayAudio, SetIsDecodeAudio.
    apply negb_false_iff, Z.eqb_eq. cbn [negb].
    change CONTROL_FLAG_PLAY_AUDIO with (2 ^ 5).
    apply land_pow2_zero; [lia|]. apply SetFlag_false_bit. lia.
  - reflexivity.
Qed.

End ControlsFacts.

(** ** Error flags of the channel *)

Module ChannelFacts.
Import Channel.

Section Listeners.

Context {AAC_Audio_Decoder AAC_Data_Decoder : Type}.
Variable AAC_Audio_Decoder_new : Params -> AAC_Audio_Decoder.
Variable GetParams : AAC_Audio_Decoder -> Params.
Variable DecodeFrame :
  AAC_Audio_Decoder -> list Z -> AAC_Audio_Decoder * DecodeFrameResult.
Variable ProcessAccessUnit : AAC_Data_Decoder -> list Z -> AAC_Data_Decoder.

Abbreviation Channel :=
  (@Basic_DAB_Plus_Channel AAC_Audio_Decoder AAC_Data_Decoder).
Abbreviation Notify' :=
  (Notify AAC_Audio_Decoder_new GetParams DecodeFrame ProcessAccessUnit).
Abbreviation run' :=
  (run AAC_Audio_Decoder_new GetParams DecodeFrame ProcessAccessUnit).

(** The decoding listeners leave the three error flags alone. *)
Lemma on_header_decoder_flags (c : Channel) header :
  let c' := fst (on_header_decoder AAC_Audio_Decoder_new GetParams c header) in
  m_is_firecode_error c' = m_is_firecode_error c
  /\ m_is_rs_error c' = m_is_rs_error c
  /\ m_is_au_error c' = m_is_au_error c.
Proof. cbn. auto. Qed.

Lemma on_access_unit_audio_flags (c : Channel) au_index nb_aus buf :
  let c' := fst (on_access_unit_audio GetParams DecodeFrame c
                   au_index nb_aus buf) in
  m_is_firecode_error c' = m_is_firecode_error c
  /\ m_is_rs_error c' = m_is_rs_error c
  /\ m_is_au_error c' = m_is_au_error c.
Proof.
  unfold on_access_unit_audio.
  destruct (negb _); [cbn; auto|].
  destruct (m_aac_audio_decoder c) as [d|]; [|cbn; auto].
  destruct (DecodeFrame d buf) as [d' res].
  destruct (is_error res); cbn; auto.
Qed.

Lemma on_access_unit_data_flags (c : Channel) au_index nb_aus buf :
  let c' := fst (on_access_unit_data ProcessAccessUnit c
                   au_index nb_aus buf) in
  m_is_firecode_error c' = m_is_firecode_error c
  /\ m_is_rs_error c' = m_is_rs_error c
  /\ m_is_au_error c' = m_is_au_error c.
Proof.
  unfold on_access_unit_data. destruct (negb _); cbn; auto.
Qed.

(** One event moves each flag as [flag_step] says. *)
Lemma Notify_flags (c : Channel) (e : FrameEvent) :
  let c' := fst (Notify' c e) in
  m_is_firecode_error c'
  = flag_step is_firecode_error is_header (m_is_firecode_error c) e
  /\ m_is_rs_error c'
     = flag_step is_rs_error is_header (m_is_rs_error c) e
  /\ m_is_au_error c'
     = flag_step is_au_crc_error is_first_access_unit (m_is_au_error c) e.
Proof.
  destruct e as [header|au_index nb_aus buf| | |].
  - cbn -[on_header_decoder].
    pose proof (on_header_decoder_flags c header) as H.
    destruct (on_header_decoder _ _ c header) as [c1 out].
    cbn in *. tauto.
  - cbn -[on_access_unit_audio on_access_unit_data].
    pose proof (on_access_unit_audio_flags c au_index nb_aus buf) as H1.
    destruct (on_access_unit_audio _ _ c au_index nb_aus buf) as [c1 out1].
    pose proof (on_access_unit_data_flags c1 au_index nb_aus buf) as H2.
    destruct (on_access_unit_data _ c1 au_index nb_aus buf) as [c2 out2].
    cbn in *. unfold on_access_unit_reset, flag_step. cbn.
    destruct H1 as (<- & <- & <-), H2 as (<- & <- & <-).
    destruct (au_index =? 0); cbn; auto.
  - cbn. auto.
  - cbn. auto.
  - cbn. auto.
Qed.

(** C8 (amended): in every sequence of events handled by the channel,
    [au_crc_error] is cleared by each access unit with [au_index == 0],
    whereas [firecode_error] and [rs_error] are cleared by each superframe
    header event (access units leave them as they are); each flag is set by
    its own error event only, so after a sequence of events a flag is set
    exactly when its error event came after the last event that clears
    it, or, with no clearing event, when it was set before or its error
    event came. *)
Theorem error_flags_reset_discipline (c : Channel) (events : list FrameEvent) :
  let c' := fst (run' c events) in
  m_is_firecode_error c'
  = flag_after is_firecode_error is_header (m_is_firecode_error c) events
  /\ m_is_rs_error c'
     = flag_after is_rs_error is_header (m_is_rs_error c) events
  /\ m_is_au_error c'
     = flag_after is_au_crc_error is_first_access_unit
         (m_is_au_error c) events.
Proof.
  revert c. induction events as [|e events IH]; intros c; [cbn; auto|].
  cbn -[Notify].
  pose proof (Notify_flags c e) as H.
  destruct (Notify _ _ _ _ c e) as [c1 out].
  specialize (IH c1).
  destruct (run _ _ _ _ c1 events) as [c2 out'].
  cbn in *. unfold flag_after in *.
  destruct H as (<- & <- & <-). exact IH.
Qed.

End Listeners.

(** [flag_after] in words: a set flag means that its error event came
    after the last clearing event, or that there was no clearing event. *)
Lemma flag_after_cleared sets clears b (e : FrameEvent) post :
  clears e = true ->
  flag_after sets clears b (e :: post) = true ->
  Exists (fun e' => sets e' = true) post.
Proof.
  intros He. cbn. unfold flag_step at 2. rewrite He. clear He e b.
  assert (H : forall b, flag_after sets clears b post = true ->
                        b = true \/ Exists (fun e' => sets e' = true) post).
  { induction post as [|e post IH]; intros b; cbn; [auto|].
    intros Hf. apply IH in Hf as [Hf|Hf]; [|auto].
    unfold flag_step in Hf.
    destruct (clears e); [discriminate|].
    destruct (sets e) eqn:Hs; auto. }
  intros Hf. apply H in Hf as [Hf|Hf]; [discriminate|exact Hf].
Qed.

(** C8, as stated, fails: a firecode error and a Reed-Solomon error
    reported before the access unit with [au_index == 0] are still flagged
    after that access unit has been handled. *)
Lemma stale_flags_survive_first_access_unit :
  let c := run_idle [OnFirecodeError 0 0 0; OnRSError 0 3;
                     OnAccessUnitCRCError 2 3 0 0;
                     OnAccessUnit 0 3 [0x12; 0x34]] in
  m_is_firecode_error c = true
  /\ m_is_rs_error c = true
  /\ m_is_au_error c = false.
Proof. vm_compute. auto. Qed.

End ChannelFacts.

(** ** Bytes *)

(** A property of all bytes can be checked on the 256 of them. *)
Lemma byte_cases (P : Z -> bool) :
  forallb P (Zseq 256) = true -> forall b, 0 <= b < 256 -> P b = true.
Proof.
  intros H b Hb. rewrite forallb_forall in H. apply H.
  unfold Zseq. apply in_map_iff. exists (Z.to_nat b). split; [lia|].
  apply in_seq. lia.
Qed.

Lemma byte_eq_cases (f g : Z -> Z) :
  forallb (fun b => f b =? g b) (Zseq 256) = true ->
  forall b, 0 <= b < 256 -> f b = g b.
Proof.
  intros H b Hb. apply Z.eqb_eq. exact (byte_cases _ H b Hb).
Qed.

Ltac byte_fact :=
  let b := fresh "b" in
  let Hb := fresh "Hb" in
  intros b Hb; revert b Hb; apply byte_eq_cases; vm_compute; reflexivity.

Lemma field_F0_4 b : 0 <= b < 256 -> field b 0xF0 4 = b / 16.
Proof. revert b. byte_fact. Qed.

Lemma field_FF_0 b : 0 <= b < 256 -> field b 0xFF 0 = b.
Proof. revert b. byte_fact. Qed.

Lemma field_C0_6 b : 0 <= b < 256 -> field b 0xC0 6 = b / 64.
Proof. revert b. byte_fact. Qed.

Lemma field_20_5 b : 0 <= b < 256 -> field b 0x20 5 = (b / 32) mod 2.
Proof. revert b. byte_fact. Qed.

Lemma field_1F_0 b : 0 <= b < 256 -> field b 0x1F 0 = b mod 32.
Proof. revert b. byte_fact. Qed.

Lemma low_nibble_shl8 b :
  0 <= b < 256 ->
  uint16 (Z.shiftl (uint16 (Z.land b 0x0F)) 8) = (b mod 16) * 256.
Proof. revert b. byte_fact. Qed.

Lemma byte_shl8 b : 0 <= b < 256 -> Z.shiftl (uint16 b) 8 = b * 256.
Proof. revert b. byte_fact. Qed.

(** [(h << 8) | b] is [256 * h + b] when [b] is a byte. *)
Lemma lor_shl8 (h b : Z) : 0 <= b < 256 -> Z.lor (h * 256) b = h * 256 + b.
Proof.
  intros Hb. symmetry. apply Z.add_nocarry_lor.
  apply Z.bits_inj'. intros n Hn. rewrite Z.land_spec, Z.bits_0.
  change 256 with (2 ^ 8). rewrite <- Z.shiftl_mul_pow2 by lia.
  destruct (Z.ltb_spec n 8).
  - rewrite Z.shiftl_spec_low by lia. reflexivity.
  - replace b with (b mod 2 ^ 8) by (apply Z.mod_small; exact Hb).
    rewrite Z.mod_pow2_bits_high by lia. apply andb_false_r.
Qed.

(** Reading through a pointer. *)
Lemma rd_ptr (buf : list Z) (k i : Z) :
  0 <= k -> 0 <= i -> rd (ptr buf k) i = rd buf (k + i).
Proof.
  intros Hk Hi. unfold rd, ptr.
  rewrite Z2Nat.inj_add by lia. apply nth_skipn.
Qed.

(** ** FIG parser *)

Module FICFacts.
Import FIC.

Local Open Scope string_scope.
Local Open Scope list_scope.
Local Open Scope Z_scope.

(** *** FIG 0/0 *)

(** C5, as stated, fails: a FIG 0/0 field of 5 bytes, with the
    occurrence-change byte, is not accepted; the length check reports an
    error and nothing is parsed, on the handler and through the whole
    parser alike. *)
Lemma fig_0_0_rejects_five_bytes :
  ProcessFIG_Type_0_Ext_0 {| cn := 0; oe := 0; pd := 0 |}
    [0xC0; 0x12; 0x34; 0x32; 0x01] 5 7
  = [LOG_ERROR "[%d] fig 0/0 Length doesn't match expectations (%d/%d)\n"
       [7; 4; 5]]
  /\ ProcessFIG [0x06; 0x00; 0xC0; 0x12; 0x34; 0x32; 0x01; 0xFF] 7
     = [LOG_ERROR "[%d] fig 0/0 Length doesn't match expectations (%d/%d)\n"
          [7; 4; 5]].
Proof. split; reflexivity. Qed.

(** C5 (amended): the FIG 0/0 field parser accepts a field of exactly 4
    bytes, which it parses into ensemble identifier (country id, ensemble
    reference), change flags, alarm flag and the two CIF counters; it never
    reads an occurrence-change byte; a field of any other length, 5
    included, is rejected with a length error and nothing is parsed. *)
Theorem fig_0_0_four_bytes_only
  (header : FIG_Header_Type_0) (b0 b1 b2 b3 : Z) (rest : list Z)
  (N cif_index : Z) :
  0 <= b0 < 256 -> 0 <= b1 < 256 -> 0 <= b2 < 256 -> 0 <= b3 < 256 ->
  ProcessFIG_Type_0_Ext_0 header (b0 :: b1 :: b2 :: b3 :: rest) N cif_index
  = if N =? 4 then
      [LOG_MESSAGE
         "[%d] fig 0/0 country_id=%u ensemble_ref=%u change=%u alarm=%u cif=%u|%u\n"
         [cif_index; b0 / 16; (b0 mod 16) * 256 + b1;
          b2 / 64; (b2 / 32) mod 2; b2 mod 32; b3]]
    else
      [LOG_ERROR "[%d] fig 0/0 Length doesn't match expectations (%d/%d)\n"
         [cif_index; 4; N]].
Proof.
  intros H0 H1 H2 H3. unfold ProcessFIG_Type_0_Ext_0.
  destruct (N =? 4); [|reflexivity]. cbn [negb].
  unfold ProcessBuffer. cbn [country_id ensemble_reference].
  change (rd (b0 :: b1 :: b2 :: b3 :: rest) 0) with b0.
  change (rd (b0 :: b1 :: b2 :: b3 :: rest) 1) with b1.
  change (rd (b0 :: b1 :: b2 :: b3 :: rest) 2) with b2.
  change (rd (b0 :: b1 :: b2 :: b3 :: rest) 3) with b3.
  rewrite field_F0_4, low_nibble_shl8, field_C0_6, field_20_5, field_1F_0
    by assumption.
  rewrite !field_FF_0 by assumption.
  rewrite lor_shl8 by assumption. reflexivity.
Qed.

Lemma fig_0_0_four_bytes_only_witness :
  ProcessFIG_Type_0_Ext_0 {| cn := 0; oe := 0; pd := 0 |}
    [0xC0; 0x12; 0x34; 0x32] 4 7
  = if 4 =? 4 then
      [LOG_MESSAGE
         "[%d] fig 0/0 country_id=%u ensemble_ref=%u change=%u alarm=%u cif=%u|%u\n"
         [7; 0xC0 / 16; (0xC0 mod 16) * 256 + 0x12;
          0x34 / 64; (0x34 / 32) mod 2; 0x34 mod 32; 0x32]]
    else
      [LOG_ERROR "[%d] fig 0/0 Length doesn't match expectations (%d/%d)\n"
         [7; 4; 4]].
Proof. apply fig_0_0_four_bytes_only; lia. Defined.

(** *** FIG 0/10 *)

(** The example bytes under every length [N] passed with them. *)
Lemma fig_0_10_bytes_any_length (header : FIG_Header_Type_0)
  (N cif_index : Z) :
  ProcessFIG_Type_0_Ext_10 header [0x37; 0xC6; 0x08; 0x12; 0x34] N cif_index
  = if 4 >? N then
      [LOG_ERROR
         "[%d] fig 0/10 Insufficient length for minimum configuration (%d/%d)\n"
         [cif_index; 4; N]]
    else if 6 >? N then
      [LOG_ERROR
         "[%d] fig 0/10 Insufficient length for long form UTC (%d/%d)\n"
         [cif_index; 6; N]]
    else
      [LOG_MESSAGE
         "[%d] fig 0/10 rfu0=%u MJD=%u LSI=%u Rfa0=%u UTC=%u time=%02u:%02u:%02u.%03u\n"
         [cif_index; 0; 57112; 0; 0; 1; 0; 18; 13; 0]].
Proof.
  unfold ProcessFIG_Type_0_Ext_10.
  destruct (4 >? N); [reflexivity|].
  change (rd [55; 198; 8; 18; 52] 0) with 55.
  change (rd [55; 198; 8; 18; 52] 1) with 198.
  change (rd [55; 198; 8; 18; 52] 2) with 8.
  change (rd [55; 198; 8; 18; 52] 3) with 18.
  change (rd [55; 198; 8; 18; 52] 4) with 52.
  change (rd [55; 198; 8; 18; 52] 5) with 0.
  change (truthy (field 8 8 3)) with true. cbv iota.
  destruct (6 >? N); reflexivity.
Qed.

(** C6, as stated, fails: in the bytes [0x37, 0xC6, 0x08, 0x12, 0x34] the
    UTC flag (bit 3 of 0x08) is 1, the long form needs 6 bytes, and the
    field of 5 bytes is rejected: no MJD, hours or minutes come out, and
    whatever length is passed, MJD 59776 does not.  Nor do they when the
    bytes are taken as the data of a type-0 FIG: 0x37 then names
    extension 23, which has no handler. *)
Lemma fig_0_10_claimed_date_not_parsed :
  ProcessFIG_Type_0_Ext_10 {| cn := 0; oe := 0; pd := 0 |}
    [0x37; 0xC6; 0x08; 0x12; 0x34] 5 0
  = [LOG_ERROR
       "[%d] fig 0/10 Insufficient length for long form UTC (%d/%d)\n"
       [0; 6; 5]]
  /\ ~ (exists N fmt rfu0 LSI Rfa0 UTC seconds milliseconds,
          ProcessFIG_Type_0_Ext_10 {| cn := 0; oe := 0; pd := 0 |}
            [0x37; 0xC6; 0x08; 0x12; 0x34] N 0
          = [LOG_MESSAGE fmt [0; rfu0; 59776; LSI; Rfa0; UTC; 1; 52;
                              seconds; milliseconds]])
  /\ ProcessFIG_Type_0 [0x37; 0xC6; 0x08; 0x12; 0x34] 5 0 = [].
Proof.
  split; [reflexivity|]. split; [|reflexivity].
  intros (N & fmt & rfu0 & LSI & Rfa0 & UTC & s & ms & H).
  rewrite fig_0_10_bytes_any_length in H.
  destruct (4 >? N); [discriminate|].
  destruct (6 >? N); [discriminate|].
  inversion H.
Qed.

(** C6 (amended): parsing the FIG 0/10 date-time field bytes
    [0x37, 0xC6, 0x08, 0x12, 0x34], a field of 5 bytes in which the UTC
    flag is 1, is rejected with an insufficient-length error (the long form
    takes 6 bytes); the bytes hold MJD=57112, hours=0, minutes=18, which
    are reported once a sixth byte follows. *)
Theorem fig_0_10_utc_long_form (header : FIG_Header_Type_0) (cif_index : Z) :
  ProcessFIG_Type_0_Ext_10 header [0x37; 0xC6; 0x08; 0x12; 0x34] 5 cif_index
  = [LOG_ERROR
       "[%d] fig 0/10 Insufficient length for long form UTC (%d/%d)\n"
       [cif_index; 6; 5]]
  /\ ProcessFIG_Type_0_Ext_10 header
       [0x37; 0xC6; 0x08; 0x12; 0x34; 0x00] 6 cif_index
     = [LOG_MESSAGE
          "[%d] fig 0/10 rfu0=%u MJD=%u LSI=%u Rfa0=%u UTC=%u time=%02u:%02u:%02u.%03u\n"
          [cif_index; 0; 57112; 0; 0; 1; 0; 18; 13; 0]].
Proof. split; reflexivity. Qed.

(** *** The FIG scanner *)

(** One round of the loop of [ProcessFIG], for [curr_byte < 30]. *)
Ltac scan_round Hlt :=
  rewrite ProcessFIG_loop_equation_1;
  unfold ProcessFIG_loop_unfold_clause_1;
  match goal with
  | |- context [Z_lt_dec ?c 30] =>
    destruct (Z_lt_dec c 30) as [_|?]; [|exfalso; apply (Z.lt_irrefl c); lia]
  end.

Lemma fig_data_length_range (header : Z) :
  0 <= fig_data_length_of header < 32.
Proof.
  unfold fig_data_length_of, field. rewrite Z.shiftr_0_r.
  change 0x1F with (Z.ones 5). rewrite Z.land_ones by lia.
  apply Z.mod_pos_bound. reflexivity.
Qed.

(** An extension without a [case] falls to [default: break]. *)
Lemma ProcessFIG_Type_0_unknown_extension (buf : list Z) (N cif_index : Z) :
  ~ In (field (rd buf 0) 0x1F 0) type_0_extensions ->
  ProcessFIG_Type_0 buf N cif_index = [].
Proof.
  intros Hext. unfold ProcessFIG_Type_0.
  pose proof (fig_data_length_range (rd buf 0)) as Hr.
  unfold fig_data_length_of in Hr.
  set (extension := field (rd buf 0) 0x1F 0) in *.
  assert (Hin : In extension (Zseq 32)).
  { unfold Zseq. apply in_map_iff. exists (Z.to_nat extension).
    split; [lia|]. apply in_seq. lia. }
  clearbody extension. cbv in Hin.
  repeat (destruct Hin as [<-|Hin];
          [first [reflexivity | exfalso; apply Hext; cbv; tauto]|]).
  destruct Hin.
Qed.

(** C10: wherever in a FIB payload the scan of [ProcessFIG] meets a FIG
    header of a reserved type (3, 4 or 5), it stops: it reports one error
    and processes none of the FIGs that follow; whereas a type-0 FIG
    whose extension has no handler produces nothing and the scan goes on
    with the FIG after it. *)
Theorem reserved_type_stops_unknown_extension_skips
  (buf : list Z) (cif_index curr_byte : Z) :
  0 <= curr_byte < 30 ->
  let header := rd buf curr_byte in
  let fig_length_bytes := uint8 (fig_data_length_of header + 1) in
  (In (fig_type_of header) [3; 4; 5] ->
   ProcessFIG_loop buf cif_index curr_byte
   = if fig_length_bytes >? 30 - curr_byte then
       [LOG_ERROR "[%d] fig specified length overflows buffer (%d/%d)\n"
          [cif_index; fig_length_bytes; 30 - curr_byte]]
     else
       [LOG_ERROR "Invalid fig type (%d)\n" [fig_type_of header]])
  /\ (fig_type_of header = 0 ->
      fig_length_bytes <= 30 - curr_byte ->
      ~ In (field (rd buf (curr_byte + 1)) 0x1F 0) type_0_extensions ->
      ProcessFIG_loop buf cif_index curr_byte
      = ProcessFIG_loop buf cif_index (curr_byte + fig_length_bytes)).
Proof.
  intros Hcurr header fig_length_bytes. split.
  - intros Htype. scan_round Hcurr. fold header.
    destruct (Z.eqb_spec header 0xFF) as [E|_].
    { rewrite E in Htype. cbv in Htype. intuition discriminate. }
    fold fig_length_bytes.
    destruct (fig_length_bytes >? 30 - curr_byte); [reflexivity|].
    destruct Htype as [<-|[<-|[<-|[]]]]; reflexivity.
  - intros Htype Hfit Hext. scan_round Hcurr. fold header.
    destruct (Z.eqb_spec header 0xFF) as [E|_].
    { rewrite E in Htype. discriminate Htype. }
    fold fig_length_bytes.
    destruct (Z.gtb_spec fig_length_bytes (30 - curr_byte)); [lia|].
    rewrite Htype.
    rewrite ProcessFIG_Type_0_unknown_extension; [reflexivity|].
    rewrite rd_ptr, Z.add_0_r by lia. exact Hext.
Qed.

(** A payload with a reserved FIG (type 3) before a FIG 0/0, and one with
    a FIG 0/31 before the same FIG 0/0. *)
Lemma reserved_type_stops_unknown_extension_skips_witness :
  ProcessFIG_loop [0x61; 0x00; 0x05; 0x00; 0xC0; 0x12; 0x34; 0x32; 0xFF] 7 0
  = [LOG_ERROR "Invalid fig type (%d)\n" [3]]
  /\ ProcessFIG_loop [0x01; 0x1F; 0x05; 0x00; 0xC0; 0x12; 0x34; 0x32; 0xFF]
       7 0
     = ProcessFIG_loop [0x01; 0x1F; 0x05; 0x00; 0xC0; 0x12; 0x34; 0x32; 0xFF]
         7 2.
Proof.
  split.
  - apply (reserved_type_stops_unknown_extension_skips
             [0x61; 0x00; 0x05; 0x00; 0xC0; 0x12; 0x34; 0x32; 0xFF] 7 0);
      [lia | cbv; tauto].
  - apply (reserved_type_stops_unknown_extension_skips
             [0x01; 0x1F; 0x05; 0x00; 0xC0; 0x12; 0x34; 0x32; 0xFF] 7 0);
      [lia | reflexivity | discriminate | cbv; intuition discriminate].
Defined.

(** *** The CRC check *)

Lemma lxor_uint16 (a b : Z) :
  0 <= a < 65536 -> 0 <= b < 65536 -> 0 <= Z.lxor a b < 65536.
Proof.
  intros Ha Hb. assert (H0 : 0 <= Z.lxor a b) by (apply Z.lxor_nonneg; lia).
  split; [exact H0|].
  destruct (Z.eq_dec (Z.lxor a b) 0) as [->|Hne]; [lia|].
  change 65536 with (2 ^ 16). apply Z.log2_lt_pow2; [lia|].
  eapply Z.le_lt_trans; [apply Z.log2_lxor; lia|].
  apply Z.max_lub_lt.
  - destruct (Z.eq_dec a 0) as [->|]; [reflexivity|].
    apply Z.log2_lt_pow2; lia.
  - destruct (Z.eq_dec b 0) as [->|]; [reflexivity|].
    apply Z.log2_lt_pow2; lia.
Qed.

Lemma uint16_range (z : Z) : 0 <= uint16 z < 65536.
Proof. unfold uint16. apply Z.mod_pos_bound. reflexivity. Qed.

Lemma uint16_small (z : Z) : 0 <= z < 65536 -> uint16 z = z.
Proof. apply Z.mod_small. Qed.

Lemma uint8_range (z : Z) : 0 <= uint8 z < 256.
Proof. unfold uint8. apply Z.mod_pos_bound. reflexivity. Qed.

Lemma crc16_shift_range (r : Z) : 0 <= crc16_shift r < 65536.
Proof.
  unfold crc16_shift. destruct (Z.testbit r 15).
  - apply lxor_uint16; [apply uint16_range|]. unfold crc16_poly. lia.
  - apply uint16_range.
Qed.

Lemma crc16_update_range (r b : Z) : 0 <= crc16_update r b < 65536.
Proof. unfold crc16_update. cbn [Nat.iter]. apply crc16_shift_range. Qed.

Lemma crc16_fold_range (data : list Z) (r : Z) :
  0 <= r < 65536 -> 0 <= fold_left crc16_update data r < 65536.
Proof.
  revert r. induction data as [|b data IH]; intros r Hr; cbn; [exact Hr|].
  apply IH, crc16_update_range.
Qed.

Lemma lxor_FFFF_involutive (a : Z) : Z.lxor (Z.lxor a 0xFFFF) 0xFFFF = a.
Proof.
  rewrite Z.lxor_assoc, Z.lxor_nilpotent. apply Z.lxor_0_r.
Qed.

(** The comparison that [ProcessFIBGroup] makes, ["crc16 is inverted at
    transmission"], is the validity of the FIB under the canonical
    CRC-16. *)
Lemma ProcessFIB_checks_crc (fib_buf : list Z) (cif_index : Z) :
  0 <= rd fib_buf 30 < 256 -> 0 <= rd fib_buf 31 < 256 ->
  ProcessFIB fib_buf cif_index
  = if fib_valid fib_buf then ProcessFIG fib_buf cif_index else [].
Proof.
  intros H30 H31. unfold ProcessFIB, fib_valid, crc16_xorout, CRC_Calculate.
  change (30 + 1) with 31. change (Z.to_nat 30) with 30%nat.
  set (r := fold_left crc16_update (firstn 30 fib_buf) 0xFFFF).
  assert (Hr : 0 <= r < 65536) by (apply crc16_fold_range; lia).
  rewrite Z.lor_0_l, Z.lxor_0_r.
  rewrite byte_shl8 by assumption.
  rewrite (uint16_small (rd fib_buf 30 * 256)) by lia.
  rewrite lor_shl8 by assumption.
  set (w := rd fib_buf 30 * 256 + rd fib_buf 31).
  assert (Hw : 0 <= w < 65536) by (unfold w; lia).
  rewrite (uint16_small w) by exact Hw.
  rewrite uint16_small by (apply lxor_uint16; lia).
  replace (256 * rd fib_buf 30 + rd fib_buf 31) with w by (unfold w; lia).
  destruct (Z.eqb_spec (Z.lxor w 0xFFFF) r) as [E|E];
    destruct (Z.eqb_spec (Z.lxor r 0xFFFF) w) as [E'|E']; try reflexivity.
  - exfalso. apply E'. rewrite <- E. apply lxor_FFFF_involutive.
  - exfalso. apply E. rewrite <- E'. apply lxor_FFFF_involutive.
Qed.

(** C1, as stated, fails: a FIB whose 30 payload bytes are all 0xFF (the
    delimiter) and whose last two bytes 0xA0 0x42 are its CRC-16 is valid,
    and the parser produces nothing for it. *)
Lemma valid_fib_without_output :
  fib_valid (repeat 0xFF 30 ++ [0xA0; 0x42]) = true
  /\ ProcessFIB (repeat 0xFF 30 ++ [0xA0; 0x42]) 0 = [].
Proof. split; vm_compute; reflexivity. Qed.

(** C1 (amended): for every FIB whose CRC-16 over the first 30 bytes
    (poly 0x1021, init 0xFFFF, XOR-out 0xFFFF) matches its last two bytes,
    the FIB is handed to the FIG parser, whose output is the output for
    the FIB (it may be empty, as for a payload that starts with the 0xFF
    delimiter); and for every FIB obtained from such a FIB by altering its
    last two bytes, the FIB is dropped before FIG parsing and nothing is
    produced. *)
Theorem fib_crc_check
  (payload : list Z) (c0 c1 d0 d1 : Z) (rest : list Z) (cif_index : Z) :
  List.length payload = 30%nat ->
  0 <= c0 < 256 -> 0 <= c1 < 256 -> 0 <= d0 < 256 -> 0 <= d1 < 256 ->
  crc16_xorout payload = 256 * c0 + c1 ->
  (d0, d1) <> (c0, c1) ->
  ProcessFIB (payload ++ c0 :: c1 :: rest) cif_index
  = ProcessFIG (payload ++ c0 :: c1 :: rest) cif_index
  /\ ProcessFIB (payload ++ d0 :: d1 :: rest) cif_index = [].
Proof.
  intros Hlen Hc0 Hc1 Hd0 Hd1 Hcrc Hne.
  assert (Hrd30 : forall x y, rd (payload ++ x :: y :: rest) 30 = x).
  { intros x y. unfold rd. rewrite app_nth2 by (rewrite Hlen; cbn; lia).
    rewrite Hlen. reflexivity. }
  assert (Hrd31 : forall x y, rd (payload ++ x :: y :: rest) 31 = y).
  { intros x y. unfold rd. rewrite app_nth2 by (rewrite Hlen; cbn; lia).
    rewrite Hlen. reflexivity. }
  assert (Hfirst : forall x y, firstn 30 (payload ++ x :: y :: rest) = payload).
  { intros x y. rewrite <- Hlen. rewrite firstn_app, Nat.sub_diag. cbn.
    rewrite firstn_all. apply app_nil_r. }
  split.
  - rewrite ProcessFIB_checks_crc by (rewrite ?Hrd30, ?Hrd31; assumption).
    unfold fib_valid. rewrite Hfirst, Hrd30, Hrd31, Hcrc, Z.eqb_refl.
    reflexivity.
  - rewrite ProcessFIB_checks_crc by (rewrite ?Hrd30, ?Hrd31; assumption).
    unfold fib_valid. rewrite Hfirst, Hrd30, Hrd31, Hcrc.
    destruct (Z.eqb_spec (256 * c0 + c1) (256 * d0 + d1)) as [E|_];
      [|reflexivity].
    exfalso. apply Hne. f_equal; lia.
Qed.

(** A FIB that holds one FIG 0/0, the delimiter and padding, with its CRC
    bytes 0x19 0x70, and the same FIB with the last byte changed. *)
Lemma fib_crc_check_witness :
  ProcessFIB (([0x05; 0x00; 0xC0; 0x12; 0x34; 0x32; 0xFF] ++ repeat 0 23)
              ++ 0x19 :: 0x70 :: []) 0
  = ProcessFIG (([0x05; 0x00; 0xC0; 0x12; 0x34; 0x32; 0xFF] ++ repeat 0 23)
                ++ 0x19 :: 0x70 :: []) 0
  /\ ProcessFIB (([0x05; 0x00; 0xC0; 0x12; 0x34; 0x32; 0xFF] ++ repeat 0 23)
                 ++ 0x19 :: 0x71 :: []) 0 = [].
Proof.
  apply (fib_crc_check
           ([0x05; 0x00; 0xC0; 0x12; 0x34; 0x32; 0xFF] ++ repeat 0 23)
           0x19 0x70 0x19 0x71 [] 0);
    [reflexivity | lia | lia | lia | lia | vm_compute; reflexivity
    | discriminate].
Defined.

(** That FIB does produce a report: the ensemble information of its
    FIG 0/0. *)
Lemma valid_fib_with_output :
  ProcessFIB (([0x05; 0x00; 0xC0; 0x12; 0x34; 0x32; 0xFF] ++ repeat 0 23)
              ++ 0x19 :: 0x70 :: []) 0
  = [LOG_MESSAGE
       "[%d] fig 0/0 country_id=%u ensemble_ref=%u change=%u alarm=%u cif=%u|%u\n"
       [0; 12; 18; 0; 1; 20; 50]].
Proof. vm_compute. reflexivity. Qed.

(** *** The FIB group *)

Lemma rd_bytes (l : list Z) (i : Z) :
  Forall (fun b => 0 <= b < 256) l -> 0 <= rd l i < 256.
Proof.
  intros Hl. unfold rd.
  destruct (Nat.lt_ge_cases (Z.to_nat i) (List.length l)) as [Hi|Hi].
  - rewrite List.Forall_forall in Hl. apply Hl, nth_In, Hi.
  - rewrite nth_overflow by exact Hi. lia.
Qed.

Section FIBGroup.

Context {Trellis ViterbiDecoder AdditiveScrambler : Type}.
Variable Trellis_new : list Z -> Z -> Z -> Trellis.
Variable ViterbiDecoder_new : Trellis -> Z -> ViterbiDecoder.
Variable vitdec_Reset : ViterbiDecoder -> ViterbiDecoder.
Variable vitdec_Decode :
  ViterbiDecoder -> list Z -> Z -> list Z -> Z -> list Z -> Z -> Z -> bool ->
  ViterbiDecoder * DecodeResult * list Z.
Variable vitdec_GetPathError : ViterbiDecoder -> Z.
Variable AdditiveScrambler_new : AdditiveScrambler.
Variable scrambler_SetSyncword : AdditiveScrambler -> Z -> AdditiveScrambler.
Variable scrambler_Reset : AdditiveScrambler -> AdditiveScrambler.
Variable scrambler_Process : AdditiveScrambler -> AdditiveScrambler * Z.
Variables PI_16 PI_15 PI_X : list Z.

(** The descrambling loop XORs byte [i] with byte [i] of the scrambling
    sequence and calls [Process] once per byte. *)
Lemma descramble_spec (s : AdditiveScrambler) (decoded_bytes : list Z) :
  snd (fst (descramble scrambler_Process s decoded_bytes))
  = zip_with (fun x b => uint8 (Z.lxor x (uint8 b))) decoded_bytes
      (scrambler_sequence scrambler_Process s (List.length decoded_bytes))
  /\ snd (descramble scrambler_Process s decoded_bytes)
     = repeat Call_scrambler_Process (List.length decoded_bytes).
Proof.
  revert s. induction decoded_bytes as [|x rest IH]; intros s; [split; reflexivity|].
  cbn. destruct (scrambler_Process s) as [s1 b].
  specialize (IH s1).
  destruct (descramble scrambler_Process s1 rest) as [[s2 rest'] ev].
  cbn in *. destruct IH as [-> ->]. split; reflexivity.
Qed.

Lemma descrambled_bytes (l1 l2 : list Z) :
  Forall (fun b => 0 <= b < 256)
    (zip_with (fun x b => uint8 (Z.lxor x (uint8 b))) l1 l2).
Proof.
  revert l2. induction l1 as [|x l1 IH]; intros [|b l2]; cbn; constructor;
    [apply uint8_range | apply IH].
Qed.

Abbreviation ProcessFIBGroup' :=
  (ProcessFIBGroup vitdec_Reset vitdec_Decode vitdec_GetPathError
     scrambler_Reset scrambler_Process PI_16 PI_15 PI_X).

(** The scrambler after [n] calls of [Process]. *)
Lemma descramble_state (s : AdditiveScrambler) (decoded_bytes : list Z) :
  fst (fst (descramble scrambler_Process s decoded_bytes))
  = Nat.iter (List.length decoded_bytes)
      (fun s => fst (scrambler_Process s)) s.
Proof.
  revert s. induction decoded_bytes as [|x rest IH]; intros s; [reflexivity|].
  cbn [descramble List.length]. rewrite Nat.iter_succ_r.
  destruct (scrambler_Process s) as [s1 b] eqn:E.
  specialize (IH s1).
  destruct (descramble scrambler_Process s1 rest) as [[s2 rest'] ev].
  cbn [fst] in *. exact IH.
Qed.

(** [ProcessFIBGroup] step by step: the three decoding runs, each on what the
    one before left of the encoded bits and of the output array, the packing,
    the descrambling and the check of the three FIBs. *)
Lemma ProcessFIBGroup_runs
  (p : @FIC_Processor ViterbiDecoder AdditiveScrambler)
  (encoded_bytes : list Z) (cif_index : Z) :
  let encoded_bits := unpack_bits encoded_bytes in
  let run1 :=
    vitdec_Decode (vitdec_Reset (vitdec p))
      encoded_bits 2304 PI_16 32
      (static_decoded_bits p) 768 (21 * 128) false in
  let e1 := nb_encoded_bits (snd (fst run1)) in
  let d1 := nb_decoded_bits (snd (fst run1)) in
  let bits1 := snd run1 in
  let run2 :=
    vitdec_Decode (fst (fst run1))
      (ptr encoded_bits e1) (2304 - e1) PI_15 32
      (ptr bits1 d1) (768 - d1) (3 * 128) false in
  let e2 := e1 + nb_encoded_bits (snd (fst run2)) in
  let d2 := d1 + nb_decoded_bits (snd (fst run2)) in
  let bits2 := firstn (Z.to_nat d1) bits1 ++ snd run2 in
  let run3 :=
    vitdec_Decode (fst (fst run2))
      (ptr encoded_bits e2) (2304 - e2) PI_X 24
      (ptr bits2 d2) (768 - d2) 24 true in
  let bits3 := firstn (Z.to_nat d2) bits2 ++ snd run3 in
  let s := scrambler_Reset (scrambler p) in
  let decoded_bytes :=
    zip_with (fun x b => uint8 (Z.lxor x (uint8 b)))
      (pack_bytes bits3 96) (scrambler_sequence scrambler_Process s 96) in
  ProcessFIBGroup' p encoded_bytes cif_index
  = ({| vitdec := fst (fst run3);
        scrambler := Nat.iter 96 (fun s => fst (scrambler_Process s)) s;
        static_decoded_bits := bits3 |},
     [Call_vitdec_Reset;
      Call_vitdec_Decode encoded_bits 2304 PI_16 32
        (static_decoded_bits p) 768 (21 * 128) false;
      Call_vitdec_Decode (ptr encoded_bits e1) (2304 - e1) PI_15 32
        (ptr bits1 d1) (768 - d1) (3 * 128) false;
      Call_vitdec_Decode (ptr encoded_bits e2) (2304 - e2) PI_X 24
        (ptr bits2 d2) (768 - d2) 24 true;
      Call_vitdec_GetPathError;
      Call_scrambler_Reset]
     ++ repeat Call_scrambler_Process 96
     ++ flat_map (fun i =>
          let fib := ptr decoded_bytes (32 * i) in
          if fib_valid fib then ProcessFIG fib cif_index else [])
        [0; 1; 2]).
Proof.
  cbv zeta.
  unfold ProcessFIBGroup, decode_run.
  change (ptr (unpack_bits encoded_bytes) 0) with (unpack_bits encoded_bytes).
  change (ptr (static_decoded_bits p) 0) with (static_decoded_bits p).
  change (288 * 8 - 0) with 2304. change (288 * 8 / 3 - 0) with 768.
  change (128 * 21) with (21 * 128). change (128 * 3) with (3 * 128).
  destruct (vitdec_Decode _ _ _ PI_16 _ _ _ _ _) as [[v1 r1] o1].
  cbn [fst snd]. change (0 + nb_encoded_bits r1) with (nb_encoded_bits r1).
  change (0 + nb_decoded_bits r1) with (nb_decoded_bits r1).
  change (firstn (Z.to_nat 0) (static_decoded_bits p) ++ o1) with o1.
  change (288 * 8) with 2304. change (2304 / 3) with 768.
  destruct (vitdec_Decode _ _ _ PI_15 _ _ _ _ _) as [[v2 r2] o2].
  cbn [fst snd].
  destruct (vitdec_Decode _ _ _ PI_X _ _ _ _ _) as [[v3 r3] o3].
  cbn [fst snd].
  change (Z.to_nat (768 / 8)) with 96%nat.
  match goal with
  | |- context [descramble scrambler_Process ?s ?l] =>
    pose proof (descramble_spec s l) as Hd;
    pose proof (descramble_state s l) as Hs;
    destruct (descramble scrambler_Process s l) as [[s' bytes] ev]
  end.
  cbn [fst snd] in Hd, Hs. destruct Hd as [Hbytes Hev].
  unfold pack_bytes in Hbytes, Hev, Hs.
  rewrite length_map in Hbytes, Hev, Hs.
  change (List.length (Zseq 96)) with 96%nat in Hbytes, Hev, Hs.
  fold (pack_bytes
          (firstn (Z.to_nat (nb_decoded_bits r1 + nb_decoded_bits r2))
             (firstn (Z.to_nat (nb_decoded_bits r1)) o1 ++ o2)
           ++ o3) 96) in Hbytes.
  rewrite <- Hbytes, Hev, Hs.
  f_equal. cbn [app]. do 7 f_equal.
  change (Zseq 3) with [0; 1; 2]. cbn [flat_map].
  change (768 / 8 / 3) with 32.
  assert (Hb : Forall (fun b => 0 <= b < 256) bytes).
  { rewrite Hbytes. apply descrambled_bytes. }
  assert (Hcheck : forall k, ProcessFIB (ptr bytes k) cif_index
                  = if fib_valid (ptr bytes k)
                    then ProcessFIG (ptr bytes k) cif_index else []).
  { intros k. apply ProcessFIB_checks_crc; apply rd_bytes;
      unfold ptr; apply Forall_drop, Hb. }
  rewrite !Hcheck. reflexivity.
Qed.

(** The scrambler of the processor: the one the constructor gave the
    syncword 0xFFFF, reset and stepped 96 times for each group since. *)
Lemma FIC_Processor_after_scrambler (groups : list (list Z * Z)) :
  forall p : @FIC_Processor ViterbiDecoder AdditiveScrambler,
  scrambler
    (fold_left (fun p group => fst (ProcessFIBGroup' p (fst group) (snd group)))
       groups p)
  = Nat.iter (List.length groups)
      (fun s => Nat.iter 96 (fun s => fst (scrambler_Process s))
                  (scrambler_Reset s))
      (scrambler p).
Proof.
  induction groups as [|g groups IH]; intros p; [reflexivity|].
  cbn [fold_left List.length]. rewrite IH, Nat.iter_succ_r.
  rewrite ProcessFIBGroup_runs. reflexivity.
Qed.


End FIBGroup.

End FICFacts.

(** ** Depuncturing *)

Module DepunctureFacts.
Import Depuncture.

Section Update.

Variables SOFT_DECISION_VITERBI_LOW SOFT_DECISION_VITERBI_HIGH : Z.
Context {ExternalDecoder : Type}.
Variable decoder_update : ExternalDecoder -> list Z -> Z -> ExternalDecoder.

Abbreviation unpunctured :=
  (soft_decision_unpunctured
     SOFT_DECISION_VITERBI_LOW SOFT_DECISION_VITERBI_HIGH).
Abbreviation depuncture' :=
  (depuncture SOFT_DECISION_VITERBI_LOW SOFT_DECISION_VITERBI_HIGH).

Lemma depuncture_length (flags : list bool) (symbols : list Z) :
  (count_transmitted flags <= List.length symbols)%nat ->
  List.length (depuncture' flags symbols) = List.length flags.
Proof.
  revert symbols. induction flags as [|[|] flags IH]; intros symbols;
    cbn; [reflexivity| |].
  - unfold count_transmitted. cbn.
    destruct symbols as [|s symbols]; cbn; [lia|].
    intros H. rewrite IH; [reflexivity|]. unfold count_transmitted. lia.
  - intros H. rewrite IH; [reflexivity|]. exact H.
Qed.

(** The loop invariant: after the rounds [i .. i+n) the positions before
    [i] and from [i+n] on are as before, the positions between hold the
    depunctured symbols, and the counters have advanced accordingly. *)
Lemma update_loop_done (assertions : bool)
  (punctured_symbols puncture_code : list Z) (n : nat) :
  puncture_code <> [] ->
  forall (i : nat) (depunctured : list Z) (k : nat) (ios : Z),
  (i + n <= List.length depunctured)%nat ->
  (k + count_transmitted (window_from puncture_code i n)
   <= List.length punctured_symbols)%nat ->
  update_loop SOFT_DECISION_VITERBI_LOW SOFT_DECISION_VITERBI_HIGH
    assertions punctured_symbols puncture_code n (Z.of_nat i) depunctured
    (Z.of_nat k) (Z.of_nat i mod Z.of_nat (List.length puncture_code)) ios
  = Loop_done
      (firstn i depunctured
       ++ depuncture' (window_from puncture_code i n)
            (skipn k punctured_symbols)
       ++ skipn (i + n) depunctured)
      (Z.of_nat (k + count_transmitted (window_from puncture_code i n)))
      (Z.of_nat (i + n) mod Z.of_nat (List.length puncture_code))
      (ios + Z.of_nat n).
Proof.
  intros Hcode.
  assert (Hlen : 0 < Z.of_nat (List.length puncture_code)).
  { destruct puncture_code; [contradiction|cbn; lia]. }
  induction n as [|n IH]; intros i depunctured k ios Hi Hk.
  - cbn. rewrite !Nat.add_0_r, Z.add_0_r, take_drop. reflexivity.
  - cbn [update_loop].
    assert (Hnext : (Z.of_nat i mod Z.of_nat (List.length puncture_code) + 1)
                      mod Z.of_nat (List.length puncture_code)
                    = Z.of_nat (S i) mod Z.of_nat (List.length puncture_code)).
    { rewrite Z.add_mod_idemp_l by lia. f_equal. lia. }
    rewrite Hnext.
    replace (Z.of_nat i + 1) with (Z.of_nat (S i)) by lia.
    replace (ios + Z.of_nat (S n)) with (ios + 1 + Z.of_nat n) by lia.
    replace (i + S n)%nat with (S i + n)%nat by lia.
    unfold window_from in *. cbn [seq map] in *.
    rewrite Nat2Z.id.
    destruct (truthy (rd puncture_code
                (Z.of_nat i mod Z.of_nat (List.length puncture_code)))).
    + unfold count_transmitted in *. cbn [List.filter List.length] in Hk |- *.
      destruct (Z.ltb_spec (Z.of_nat k)
                  (Z.of_nat (List.length punctured_symbols))); [|lia].
      rewrite andb_false_r.
      destruct (Z.geb_spec (Z.of_nat k)
                  (Z.of_nat (List.length punctured_symbols))); [lia|].
      replace (Z.of_nat k + 1) with (Z.of_nat (S k)) by lia.
      rewrite IH by (rewrite ?length_insert; lia).
      rewrite take_S_r with (x := to_int16 (rd punctured_symbols (Z.of_nat k)))
        by (apply list_lookup_insert_eq; lia).
      rewrite take_insert_ge, drop_insert_lt by lia.
      rewrite <- app_assoc. cbn [app].
      assert (Hs : skipn k punctured_symbols
                   = rd punctured_symbols (Z.of_nat k)
                     :: skipn (S k) punctured_symbols).
      { unfold rd. rewrite Nat2Z.id.
        destruct (lookup_lt_is_Some_2 punctured_symbols k) as [x Hx]; [lia|].
        rewrite (nth_lookup_Some _ _ 0 _ Hx). apply drop_S, Hx. }
      rewrite Hs. cbn [depuncture].
      do 2 f_equal. lia.
    + unfold count_transmitted in *. cbn [List.filter] in Hk |- *.
      rewrite IH by (rewrite ?length_insert; lia).
      rewrite take_S_r with (x := unpunctured)
        by (apply list_lookup_insert_eq; lia).
      rewrite take_insert_ge, drop_insert_lt by lia.
      rewrite <- app_assoc. reflexivity.
Qed.

(** C4: whenever [requested_output_symbols] is a multiple of the code
    rate and the buffer of punctured symbols holds at least as many symbols
    as the cyclic puncture code flags over the first
    [requested_output_symbols] positions, [update] hands the decoder exactly
    [requested_output_symbols] depunctured symbols, one input symbol where
    the flag is set and the neutral value midway between SOFT_LOW and
    SOFT_HIGH where it is not, and returns the number of input symbols
    consumed, the number of set flags in that window; with [assert]
    compiled in or not. *)
Theorem update_depunctures (assertions : bool)
  (d : @DAB_Viterbi_Decoder ExternalDecoder)
  (punctured_symbols puncture_code : list Z) (requested_output_symbols : Z) :
  0 <= requested_output_symbols ->
  requested_output_symbols mod code_rate = 0 ->
  puncture_code <> [] ->
  let flags :=
    puncture_window puncture_code (Z.to_nat requested_output_symbols) in
  let symbols := depuncture' flags punctured_symbols in
  (count_transmitted flags <= List.length punctured_symbols)%nat ->
  exists d',
    update SOFT_DECISION_VITERBI_LOW SOFT_DECISION_VITERBI_HIGH decoder_update
      assertions d punctured_symbols puncture_code requested_output_symbols
    = Return (Z.of_nat (count_transmitted flags)) d'
    /\ firstn (Z.to_nat requested_output_symbols) (depunctured_symbols d')
       = symbols
    /\ Z.of_nat (List.length symbols) = requested_output_symbols
    /\ decoder d'
       = decoder_update (decoder d) (depunctured_symbols d')
           requested_output_symbols.
Proof.
  intros Hreq Hmod Hcode flags symbols Hcount. unfold update.
  rewrite Hmod. cbn [Z.eqb negb]. rewrite andb_false_r.
  set (n := Z.to_nat requested_output_symbols) in *.
  set (depunctured :=
         if requested_output_symbols >? Z.of_nat (List.length (depunctured_symbols d))
         then resize n 0 (depunctured_symbols d)
         else depunctured_symbols d).
  assert (Hdep : (n <= List.length depunctured)%nat).
  { unfold depunctured.
    destruct (Z.gtb_spec requested_output_symbols
                (Z.of_nat (List.length (depunctured_symbols d)))).
    - rewrite length_resize. lia.
    - lia. }
  pose proof (update_loop_done assertions punctured_symbols puncture_code n
                Hcode 0%nat depunctured 0%nat 0) as Hloop.
  change (Z.of_nat 0) with 0 in Hloop. rewrite Z.mod_0_l in Hloop
    by (destruct puncture_code; [contradiction|cbn; lia]).
  fold (puncture_window puncture_code n) in Hloop. fold flags in Hloop.
  rewrite take_0, drop_0 in Hloop. cbn [app Nat.add] in Hloop.
  fold symbols in Hloop. rewrite Hloop by lia.
  assert (Hlen : List.length symbols = n).
  { unfold symbols. rewrite depuncture_length by exact Hcount.
    unfold flags, puncture_window, window_from.
    rewrite length_map, length_seq. reflexivity. }
  eexists. split; [reflexivity|]. cbn [depunctured_symbols decoder].
  split; [|split; [lia|reflexivity]].
  rewrite <- Hlen. apply take_app_length.
Qed.

End Update.

(** A run with the puncture code 1,1,0,0 over 8 output symbols and the
    soft decisions -127 and +127. *)
Lemma update_depunctures_witness :
  exists d',
    update (-127) 127 (fun (_ : unit) _ _ => tt) true
      {| depunctured_symbols := []; decoder := tt |}
      [10; -20; 30; -40] [1; 1; 0; 0] 8
    = Return 4 d'
    /\ firstn 8 (depunctured_symbols d') = [10; -20; 0; 0; 30; -40; 0; 0]
    /\ Z.of_nat 8 = 8
    /\ decoder d' = tt.
Proof.
  apply (update_depunctures (-127) 127 (fun (_ : unit) _ _ => tt) true
           {| depunctured_symbols := []; decoder := tt |}
           [10; -20; 30; -40] [1; 1; 0; 0] 8);
    [lia | reflexivity | discriminate | cbv; lia].
Defined.

End DepunctureFacts.

(** ** MOT segment assembler *)

Module MOTFacts.
Import MOT.

Section Reassembly.

Variable AddSegment_result : MOT_Assembler -> nat -> list Z -> nat -> bool.

(** The [N] segments of an object, by index. *)
Variable segments : list (list Z).
Variable N : nat.
Hypothesis segments_length : List.length segments = N.

Abbreviation assembling := (MOT.assembling segments N).
Abbreviation AddSegment := (MOT.AddSegment AddSegment_result).
Abbreviation AddSegments := (MOT.AddSegments AddSegment_result).

Lemma assembling_start :
  assembling [] (SetTotalSegments MOT_Assembler_new N).
Proof.
  unfold MOT.assembling. cbn. rewrite length_resize.
  repeat split; try reflexivity. contradiction. contradiction.
Qed.

(** Bytes that are in the unordered buffer stay where they are when more
    are appended. *)
Lemma segment_bytes_app (buf more : list Z) (s : Segment) :
  (unordered_index s + length s <= List.length buf)%nat ->
  segment_bytes (buf ++ more) s = segment_bytes buf s.
Proof.
  intros H. unfold segment_bytes.
  rewrite drop_app_le by lia. apply take_app_le.
  rewrite length_drop. lia.
Qed.

Lemma assembling_step (done : list nat) (a : MOT_Assembler) (i : nat) :
  assembling done a -> (i < N)%nat -> ~ In i done ->
  let data := nth i segments [] in
  assembling (i :: done) (snd (AddSegment a i data (List.length data))).
Proof.
  intros (Hlen & Htot & Hcur & Hrec & Hseg) Hi Hnew data.
  unfold MOT.AddSegment.
  assert (Hi' : (i < List.length (m_segments a))%nat)
    by (rewrite Hlen; exact Hi).
  destruct (Nat.leb_spec (List.length (m_segments a)) i) as [Hle|_]; [lia|].
  cbn [fst snd].
  rewrite Hcur, !firstn_all.
  unfold MOT.assembling.
  cbn [m_segments m_total_segments m_curr_unordered_index m_unordered_buffer
       received_indices].
  rewrite length_insert, length_app.
  split; [exact Hlen|]. split; [exact Htot|]. split; [reflexivity|].
  split; [rewrite Hrec; reflexivity|].
  intros j Hj Hin.
  destruct (Nat.eq_dec j i) as [->|Hne].
  - rewrite (nth_lookup_Some _ _ Segment_new _
               (list_lookup_insert_eq _ _ _ Hi')).
    unfold segment_bytes. cbn [unordered_index length].
    rewrite drop_app_length, firstn_all.
    split; [reflexivity|]. lia.
  - destruct Hin as [Heq|Hin]; [congruence|].
    assert (Hother :
              nth j (<[i := {| unordered_index :=
                                 List.length (m_unordered_buffer a);
                               length := List.length data |}]> (m_segments a))
                  Segment_new
              = nth j (m_segments a) Segment_new).
    { apply nth_lookup_Some.
      rewrite list_lookup_insert_ne by congruence.
      destruct (lookup_lt_is_Some_2 (m_segments a) j) as [x Hx];
        [rewrite Hlen; exact Hj|].
      rewrite (nth_lookup_Some _ _ Segment_new _ Hx). exact Hx. }
    rewrite Hother.
    destruct (Hseg j Hj Hin) as (Hb & Hfit).
    rewrite segment_bytes_app by exact Hfit.
    split; [exact Hb|]. lia.
Qed.

Lemma assembling_all (todo : list nat) :
  forall (done : list nat) (a : MOT_Assembler),
  assembling done a -> List.NoDup todo ->
  (forall i, In i todo -> (i < N)%nat /\ ~ In i done) ->
  assembling (rev todo ++ done)
    (AddSegments a (map (fun i => (i, nth i segments [])) todo)).
Proof.
  induction todo as [|i todo IH]; intros done a Ha Hnd Htodo; [exact Ha|].
  apply List.NoDup_cons_iff in Hnd as [Hi Hnd].
  destruct (Htodo i (or_introl eq_refl)) as [HiN Hidone].
  pose proof (assembling_step done a i Ha HiN Hidone) as Hstep.
  cbn [map MOT.AddSegments fold_left fst snd rev].
  rewrite <- app_assoc. cbn [app].
  apply (IH (i :: done)); [exact Hstep | exact Hnd |].
  intros j Hj. destruct (Htodo j (or_intror Hj)) as [HjN Hjdone].
  split; [exact HjN|]. intros [->|Hin]; [exact (Hi Hj)|exact (Hjdone Hin)].
Qed.

(** Every index below [N] is among the received: all [N] count. *)
Lemma nb_received_all (a : MOT_Assembler) :
  (forall i, (i < N)%nat -> In i (received_indices a)) ->
  nb_received a N = N.
Proof.
  intros Hall. unfold nb_received.
  rewrite List.forallb_filter_id, length_seq; [reflexivity|].
  apply forallb_forall. intros i Hi. apply in_seq in Hi.
  apply existsb_exists. exists i. split; [apply Hall; lia|apply Nat.eqb_refl].
Qed.


End Reassembly.


End MOTFacts.

(** * Further properties *)

(** ** Control flags, bit by bit *)

Module ControlOpsFacts.
Import Controls ControlOps.

(** A getter reads one bit of [flags]. *)
Lemma land_pow2_testbit (x n : Z) :
  0 <= n -> negb (Z.land x (2 ^ n) =? 0) = Z.testbit x n.
Proof.
  intros Hn. destruct (Z.testbit x n) eqn:Hb.
  - apply negb_true_iff, Z.eqb_neq, land_pow2_nonzero; assumption.
  - apply negb_false_iff, Z.eqb_eq, land_pow2_zero; assumption.
Qed.

Lemma GetIsDecodeAudio_bit c : GetIsDecodeAudio c = Z.testbit (flags c) 7.
Proof. apply (land_pow2_testbit (flags c) 7). lia. Qed.

Lemma GetIsDecodeData_bit c : GetIsDecodeData c = Z.testbit (flags c) 6.
Proof. apply (land_pow2_testbit (flags c) 6). lia. Qed.

Lemma GetIsPlayAudio_bit c : GetIsPlayAudio c = Z.testbit (flags c) 5.
Proof. apply (land_pow2_testbit (flags c) 5). lia. Qed.

(** [SetFlag] writes the bit of the flag and no other of the eight. *)
Lemma SetFlag_bit (c : Basic_DAB_Plus_Controls) (n m : Z) (v : bool) :
  0 <= n < 8 -> 0 <= m < 8 ->
  Z.testbit (flags (SetFlag c (2 ^ n) v)) m
  = if n =? m then v else Z.testbit (flags c) m.
Proof.
  intros Hn Hm. destruct v; cbn.
  - rewrite testbit_uint8_low, Z.lor_spec, Z.pow2_bits_eqb by lia.
    destruct (n =? m); [apply orb_true_r|apply orb_false_r].
  - rewrite testbit_uint8_low, Z.land_spec, Z.lnot_spec, Z.pow2_bits_eqb by lia.
    destruct (n =? m); [apply andb_false_r|apply andb_true_r].
Qed.

Ltac control_bits :=
  unfold SetIsDecodeAudio, SetIsDecodeData, SetIsPlayAudio;
  rewrite ?GetIsDecodeAudio_bit, ?GetIsDecodeData_bit, ?GetIsPlayAudio_bit;
  change CONTROL_FLAG_DECODE_AUDIO with (2 ^ 7);
  change CONTROL_FLAG_DECODE_DATA with (2 ^ 6);
  change CONTROL_FLAG_PLAY_AUDIO with (2 ^ 5).

(** X1: each getter returns what its setter was last given, whatever the
    flags were before: the coupling between play and decode never undoes
    the flag that was asked for. *)
Theorem control_setter_getter (c : Basic_DAB_Plus_Controls) (v : bool) :
  GetIsDecodeAudio (SetIsDecodeAudio c v) = v
  /\ GetIsDecodeData (SetIsDecodeData c v) = v
  /\ GetIsPlayAudio (SetIsPlayAudio c v) = v.
Proof.
  destruct v; control_bits; cbn [negb]; rewrite !SetFlag_bit by lia;
    auto.
Qed.

(** X2: a setter changes no flag that it is not coupled to:
    [SetIsDecodeData] leaves decode-audio and play-audio as they are,
    [SetIsDecodeAudio(true)] leaves play-audio and decode-data as they are,
    [SetIsPlayAudio(false)] leaves decode-audio and decode-data as they
    are, and the two coupled calls leave decode-data as it is. *)
Theorem control_setter_frame (c : Basic_DAB_Plus_Controls) (v : bool) :
  (GetIsDecodeAudio (SetIsDecodeData c v) = GetIsDecodeAudio c
   /\ GetIsPlayAudio (SetIsDecodeData c v) = GetIsPlayAudio c)
  /\ (GetIsPlayAudio (SetIsDecodeAudio c true) = GetIsPlayAudio c
      /\ GetIsDecodeData (SetIsDecodeAudio c v) = GetIsDecodeData c)
  /\ (GetIsDecodeAudio (SetIsPlayAudio c false) = GetIsDecodeAudio c
      /\ GetIsDecodeData (SetIsPlayAudio c v) = GetIsDecodeData c).
Proof.
  destruct v; control_bits; cbn [negb]; rewrite !SetFlag_bit by lia;
    cbn; auto.
Qed.

(** Every operation but [SetIsDecodeData] makes [play_implies_decode]
    true, and [SetIsDecodeData] keeps it. *)
Lemma apply_play_implies_decode (c : Basic_DAB_Plus_Controls) (o : Op) :
  play_implies_decode c -> play_implies_decode (apply c o).
Proof.
  unfold play_implies_decode. destruct o as [| |v|v|v]; cbn [apply].
  - intros _ _. reflexivity.
  - intros _ H. discriminate H.
  - destruct v; control_bits; cbn [negb]; rewrite !SetFlag_bit by lia;
      cbn; intuition discriminate.
  - control_bits; rewrite !SetFlag_bit by lia. cbn. auto.
  - destruct v; control_bits; rewrite !SetFlag_bit by lia; cbn;
      intuition discriminate.
Qed.

(** X3: "playing implies decoding" is an invariant of the controls: when
    it holds of the flags (as it does of [flags = 0]), it holds after every
    sequence of [RunAll], [StopAll] and setter calls. *)
Theorem play_implies_decode_invariant
  (c : Basic_DAB_Plus_Controls) (ops : list Op) :
  play_implies_decode c -> play_implies_decode (apply_all c ops).
Proof.
  revert c. induction ops as [|o ops IH]; intros c Hc; [exact Hc|].
  cbn [apply_all fold_left]. apply IH, apply_play_implies_decode, Hc.
Qed.

Lemma play_implies_decode_invariant_witness :
  play_implies_decode
    (apply_all {| flags := 0 |}
       [Op_SetIsPlayAudio true; Op_SetIsDecodeData true;
        Op_SetIsDecodeAudio false; Op_SetIsPlayAudio true]).
Proof.
  apply play_implies_decode_invariant. intros H. discriminate H.
Defined.

(** [SetFlag] with a control flag keeps [flags] within the three control
    bits; checked on all bytes. *)
Lemma SetFlag_only_control_bits (c : Basic_DAB_Plus_Controls)
  (flag : Z) (v : bool) :
  In flag [CONTROL_FLAG_DECODE_AUDIO; CONTROL_FLAG_DECODE_DATA;
           CONTROL_FLAG_PLAY_AUDIO] ->
  only_control_bits c -> only_control_bits (SetFlag c flag v).
Proof.
  intros Hflag [Hr Hz]. unfold only_control_bits.
  split; [destruct v; apply FICFacts.uint8_range|].
  assert (H : forall f, In f [0x80; 0x40; 0x20] ->
            forallb (fun b =>
              implb (Z.land b 0x1F =? 0)
                ((Z.land (uint8 (Z.lor b f)) 0x1F =? 0)
                 && (Z.land (uint8 (Z.land b (Z.lnot f))) 0x1F =? 0)))
              (Zseq 256) = true).
  { intros f [<-|[<-|[<-|[]]]]; vm_compute; reflexivity. }
  pose proof (byte_cases _ (H flag Hflag) (flags c) Hr) as Hc.
  cbn beta in Hc. rewrite Hz in Hc. cbn [implb Z.eqb] in Hc.
  apply andb_true_iff in Hc as [H1 H2].
  apply Z.eqb_eq in H1, H2. destruct v; cbn [SetFlag flags]; assumption.
Qed.

Lemma apply_only_control_bits (c : Basic_DAB_Plus_Controls) (o : Op) :
  only_control_bits c -> only_control_bits (apply c o).
Proof.
  intros Hc. destruct o as [| |v|v|v]; cbn [apply].
  - split; [cbn; unfold CONTROL_FLAG_ALL_SELECTED; lia|reflexivity].
  - split; [cbn; lia|reflexivity].
  - unfold SetIsDecodeAudio. destruct (negb v);
      repeat (apply SetFlag_only_control_bits; [cbn; tauto|]); exact Hc.
  - unfold SetIsDecodeData.
    apply SetFlag_only_control_bits; [cbn; tauto|exact Hc].
  - unfold SetIsPlayAudio. destruct v;
      repeat (apply SetFlag_only_control_bits; [cbn; tauto|]); exact Hc.
Qed.

(** X4: from flags within the three control bits (as [flags = 0] is),
    every sequence of operations leads to flags within them, and there
    [GetAllEnabled] is true exactly when all three getters are and
    [GetAnyEnabled] exactly when one of them is. *)
Theorem all_any_enabled_agree_with_getters
  (c : Basic_DAB_Plus_Controls) (ops : list Op) :
  only_control_bits c ->
  let c' := apply_all c ops in
  only_control_bits c'
  /\ GetAllEnabled c'
     = GetIsDecodeAudio c' && GetIsDecodeData c' && GetIsPlayAudio c'
  /\ GetAnyEnabled c'
     = GetIsDecodeAudio c' || GetIsDecodeData c' || GetIsPlayAudio c'.
Proof.
  intros Hc c'.
  assert (Hc' : only_control_bits c').
  { subst c'. revert c Hc. induction ops as [|o ops IH]; intros c Hc;
      [exact Hc|].
    cbn [apply_all fold_left]. apply IH, apply_only_control_bits, Hc. }
  split; [exact Hc'|]. destruct Hc' as [Hr Hz].
  unfold GetAllEnabled, GetAnyEnabled, GetIsDecodeAudio, GetIsDecodeData,
    GetIsPlayAudio.
  apply Z.eqb_eq in Hz. revert Hz. generalize (flags c') Hr.
  clear. intros b Hb Hz.
  assert (H : forallb (fun b =>
            implb (Z.land b 0x1F =? 0)
              (Bool.eqb (b =? CONTROL_FLAG_ALL_SELECTED)
                 (negb (Z.land b CONTROL_FLAG_DECODE_AUDIO =? 0)
                  && negb (Z.land b CONTROL_FLAG_DECODE_DATA =? 0)
                  && negb (Z.land b CONTROL_FLAG_PLAY_AUDIO =? 0))
               && Bool.eqb (negb (b =? 0))
                    (negb (Z.land b CONTROL_FLAG_DECODE_AUDIO =? 0)
                     || negb (Z.land b CONTROL_FLAG_DECODE_DATA =? 0)
                     || negb (Z.land b CONTROL_FLAG_PLAY_AUDIO =? 0))))
            (Zseq 256) = true) by (vm_compute; reflexivity).
  pose proof (byte_cases _ H b Hb) as Hc. cbn beta in Hc.
  rewrite Hz in Hc. cbn [implb] in Hc.
  apply andb_true_iff in Hc as [H1 H2].
  apply eqb_prop in H1, H2. split; assumption.
Qed.

Lemma all_any_enabled_agree_with_getters_witness :
  let c' :=
    apply_all {| flags := 0 |}
      [Op_SetIsPlayAudio true; Op_SetIsDecodeData true] in
  only_control_bits c'
  /\ GetAllEnabled c'
     = GetIsDecodeAudio c' && GetIsDecodeData c' && GetIsPlayAudio c'
  /\ GetAnyEnabled c'
     = GetIsDecodeAudio c' || GetIsDecodeData c' || GetIsPlayAudio c'.
Proof.
  apply all_any_enabled_agree_with_getters. split; [cbn; lia|reflexivity].
Defined.

End ControlOpsFacts.

(** ** FIG layouts and the FIG scan *)

Module FIGFieldsFacts.
Import FIC FIGFields FIGCoding.

Local Open Scope string_scope.
Local Open Scope list_scope.
Local Open Scope Z_scope.

(** *** Bytes and buffers *)

Lemma field_FC_2 b : 0 <= b < 256 -> field b 0xFC 2 = b / 4.
Proof. revert b. byte_fact. Qed.

Lemma field_03_0 b : 0 <= b < 256 -> field b 0x03 0 = b mod 4.
Proof. revert b. byte_fact. Qed.

Lemma field_80_7 b : 0 <= b < 256 -> field b 0x80 7 = b / 128.
Proof. revert b. byte_fact. Qed.

Lemma field_40_6 b : 0 <= b < 256 -> field b 0x40 6 = (b / 64) mod 2.
Proof. revert b. byte_fact. Qed.

Lemma field_3F_0 b : 0 <= b < 256 -> field b 0x3F 0 = b mod 64.
Proof. revert b. byte_fact. Qed.

Lemma field_70_4 b : 0 <= b < 256 -> field b 0x70 4 = (b / 16) mod 8.
Proof. revert b. byte_fact. Qed.

Lemma field_0C_2 b : 0 <= b < 256 -> field b 0x0C 2 = (b / 4) mod 4.
Proof. revert b. byte_fact. Qed.

Lemma field_0E_1 b : 0 <= b < 256 -> field b 0x0E 1 = (b / 2) mod 8.
Proof. revert b. byte_fact. Qed.

Lemma field_01_0 b : 0 <= b < 256 -> field b 0x01 0 = b mod 2.
Proof. revert b. byte_fact. Qed.

Lemma field_E0_5 b : 0 <= b < 256 -> field b 0xE0 5 = b / 32.
Proof. revert b. byte_fact. Qed.

Lemma low2_shl8 b :
  0 <= b < 256 -> Z.shiftl (uint16 (Z.land b 0x03)) 8 = (b mod 4) * 256.
Proof. revert b. byte_fact. Qed.

Lemma low4_shl8 b :
  0 <= b < 256 -> Z.shiftl (uint16 (Z.land b 0x0F)) 8 = (b mod 16) * 256.
Proof. revert b. byte_fact. Qed.

Lemma low4_shl16 b :
  0 <= b < 256 -> Z.shiftl (Z.land b 0x0F) 16 = (b mod 16) * 65536.
Proof. revert b. byte_fact. Qed.

Lemma all8_shl8 b :
  0 <= b < 256 -> Z.shiftl (uint16 (Z.land b 0xFF)) 8 = b * 256.
Proof. revert b. byte_fact. Qed.

Lemma all8_shl4 b :
  0 <= b < 256 -> Z.shiftl (uint16 (Z.land b 0xFF)) 4 = b * 16.
Proof. revert b. byte_fact. Qed.

Lemma land_FF b : 0 <= b < 256 -> Z.land b 0xFF = b.
Proof. revert b. byte_fact. Qed.

(** [(h << k) | b] is [2^k * h + b] when [b] has [k] bits. *)
Lemma lor_shl (k h b : Z) :
  0 <= k -> 0 <= b < 2 ^ k -> Z.lor (h * 2 ^ k) b = h * 2 ^ k + b.
Proof.
  intros Hk Hb. symmetry. apply Z.add_nocarry_lor.
  apply Z.bits_inj'. intros n Hn. rewrite Z.land_spec, Z.bits_0.
  rewrite <- Z.shiftl_mul_pow2 by lia.
  destruct (Z.ltb_spec n k).
  - rewrite Z.shiftl_spec_low by lia. reflexivity.
  - replace b with (b mod 2 ^ k) by (apply Z.mod_small; exact Hb).
    rewrite Z.mod_pow2_bits_high by lia. apply andb_false_r.
Qed.

Lemma rd_0 x l : rd (x :: l) 0 = x.
Proof. reflexivity. Qed.

Lemma rd_S x l i : 0 < i -> rd (x :: l) i = rd l (i - 1).
Proof.
  intros Hi. unfold rd. replace (Z.to_nat i) with (S (Z.to_nat (i - 1))) by lia.
  reflexivity.
Qed.

Lemma rd_1 a b l : rd (a :: b :: l) 1 = b.
Proof. reflexivity. Qed.

Lemma rd_2 a b c l : rd (a :: b :: c :: l) 2 = c.
Proof. reflexivity. Qed.

Lemma rd_3 a b c d l : rd (a :: b :: c :: d :: l) 3 = d.
Proof. reflexivity. Qed.

Lemma rd_4 a b c d e l : rd (a :: b :: c :: d :: e :: l) 4 = e.
Proof. reflexivity. Qed.

Lemma rd_5 a b c d e f l : rd (a :: b :: c :: d :: e :: f :: l) 5 = f.
Proof. reflexivity. Qed.

Lemma rd_6 a b c d e f g l :
  rd (a :: b :: c :: d :: e :: f :: g :: l) 6 = g.
Proof. reflexivity. Qed.

Ltac rd_list := rewrite ?rd_0, ?rd_1, ?rd_2, ?rd_3, ?rd_4, ?rd_5, ?rd_6.

Lemma rd_app_l (l1 l2 : list Z) (i : Z) :
  0 <= i < Z.of_nat (List.length l1) -> rd (l1 ++ l2) i = rd l1 i.
Proof. intros Hi. unfold rd. apply app_nth1. lia. Qed.

Lemma ptr_app_length (l1 l2 : list Z) :
  ptr (l1 ++ l2) (Z.of_nat (List.length l1)) = l2.
Proof. unfold ptr. rewrite Nat2Z.id. apply drop_app_length. Qed.

Lemma rd_app_length (l1 l2 : list Z) :
  rd (l1 ++ l2) (Z.of_nat (List.length l1)) = rd l2 0.
Proof.
  unfold rd. rewrite Nat2Z.id, app_nth2, Nat.sub_diag by lia. reflexivity.
Qed.

Lemma ptr_ptr (buf : list Z) (a b : Z) :
  0 <= a -> 0 <= b -> ptr (ptr buf a) b = ptr buf (a + b).
Proof.
  intros Ha Hb. unfold ptr. rewrite drop_drop. f_equal. lia.
Qed.

(** A counting loop over the entries of a list. *)
Lemma map_Zseq_imap {A B : Type} (l : list A) (f : Z -> B) (g : Z -> A -> B) :
  (forall i x, l !! i = Some x -> f (Z.of_nat i) = g (Z.of_nat i) x) ->
  map f (Zseq (List.length l)) = imap (fun i x => g (Z.of_nat i) x) l.
Proof.
  intros H. apply list_eq. intros i. unfold Zseq.
  rewrite !list_lookup_fmap, list_lookup_imap.
  destruct (l !! i) as [x|] eqn:E.
  - rewrite lookup_seq_lt by (apply lookup_lt_Some in E; exact E).
    cbn. rewrite (H i x E). reflexivity.
  - rewrite lookup_seq_ge by (apply lookup_ge_None in E; exact E).
    reflexivity.
Qed.

(** The [i]-th of equally long entries starts at byte [i * k]. *)
Lemma ptr_entry {A : Type} (enc : A -> list Z) (k : nat) (l : list A)
  (rest : list Z) (i : nat) (x : A) :
  (forall y, List.length (enc y) = k) ->
  l !! i = Some x ->
  ptr (flat_map enc l ++ rest) (Z.of_nat i * Z.of_nat k)
  = enc x ++ (flat_map enc (drop (S i) l) ++ rest).
Proof.
  intros Hk. revert i. induction l as [|y l IH]; intros i E; [discriminate|].
  destruct i as [|i].
  - injection E as ->. cbn [flat_map]. rewrite <- app_assoc. reflexivity.
  - cbn in E. specialize (IH i E). cbn [flat_map drop].
    rewrite <- app_assoc.
    replace (Z.of_nat (S i) * Z.of_nat k)
      with (Z.of_nat (List.length (enc y)) + Z.of_nat i * Z.of_nat k)
      by (rewrite Hk; lia).
    rewrite <- ptr_ptr by lia. rewrite ptr_app_length. exact IH.
Qed.

Lemma flat_map_length_const {A : Type} (enc : A -> list Z) (k : nat)
  (l : list A) :
  (forall y, List.length (enc y) = k) ->
  List.length (flat_map enc l) = (List.length l * k)%nat.
Proof.
  intros Hk. induction l as [|y l IH]; [reflexivity|].
  cbn [flat_map]. rewrite length_app, Hk, IH. cbn. lia.
Qed.

(** Arithmetic of packed fields. *)
Ltac euclid := Z.to_euclidean_division_equations; lia.


Lemma rd_lookup (l : list Z) (i : nat) (x : Z) :
  l !! i = Some x -> rd l (Z.of_nat i) = x.
Proof.
  intros E. unfold rd. rewrite Nat2Z.id. apply nth_lookup_Some with (d := 0).
  exact E.
Qed.

(** *** Identifiers *)

(** X5: both forms of the service identifier are read back as they were
    packed: the 2 byte form [Country:4 | Reference:12], with no extended
    country code, and the 4 byte form [ECC:8 | Country:4 | Reference:20],
    whatever follows the identifier in the buffer. *)
Theorem service_identifier_round_trip
  (country short_reference long_reference code : Z) (rest : list Z) :
  0 <= country < 16 -> 0 <= short_reference < 4096 ->
  0 <= long_reference < 1048576 -> 0 <= code < 256 ->
  ProcessShortForm
    ([country * 16 + short_reference / 256; short_reference mod 256] ++ rest)
  = {| sid_country_id := country; service_reference := short_reference;
       ecc := 0 |}
  /\ ProcessLongForm
       ([code; country * 16 + long_reference / 65536;
         (long_reference / 256) mod 256; long_reference mod 256] ++ rest)
     = {| sid_country_id := country; service_reference := long_reference;
          ecc := code |}.
Proof.
  intros Hc Hs Hl He. split.
  - unfold ProcessShortForm. cbn [app]. rd_list.
    assert (H0 : 0 <= country * 16 + short_reference / 256 < 256) by euclid.
    assert (H1 : 0 <= short_reference mod 256 < 256) by euclid.
    rewrite field_F0_4, low4_shl8, field_FF_0 by assumption.
    rewrite (lor_shl 8) by (change (2 ^ 8) with 256; lia).
    f_equal; change (2 ^ 8) with 256; euclid.
  - unfold ProcessLongForm. cbn [app]. rd_list.
    assert (H1 : 0 <= country * 16 + long_reference / 65536 < 256) by euclid.
    assert (H2 : 0 <= (long_reference / 256) mod 256 < 256) by euclid.
    assert (H3 : 0 <= long_reference mod 256 < 256) by euclid.
    rewrite field_FF_0, field_F0_4, low4_shl16, !land_FF by assumption.
    rewrite Z.shiftl_0_r, Z.shiftl_mul_pow2 by lia.
    set (A := (country * 16 + long_reference / 65536) mod 16).
    set (B := (long_reference / 256) mod 256) in *.
    change 65536 with (2 ^ 16).
    rewrite (lor_shl 16) by (change (2 ^ 8) with 256; change (2 ^ 16) with 65536; lia).
    replace (A * 2 ^ 16 + B * 2 ^ 8) with ((A * 256 + B) * 2 ^ 8) by lia.
    rewrite (lor_shl 8) by (change (2 ^ 8) with 256; lia).
    subst A B.
    f_equal; change (2 ^ 8) with 256; change (2 ^ 16) with 65536; euclid.
Qed.

(** X6: the two decoders of the ensemble identifier agree: reading the
    identifier from two buffer bytes gives what reading it from the 16 bit
    number that the bytes spell (high byte first) gives, a country below 16
    and a reference below 4096 that together hold all 16 bits. *)
Theorem ensemble_identifier_decoders_agree (b0 b1 : Z) (rest : list Z) :
  0 <= b0 < 256 -> 0 <= b1 < 256 ->
  let eid := ProcessBuffer (b0 :: b1 :: rest) in
  ProcessU16 (256 * b0 + b1) = eid
  /\ 0 <= country_id eid < 16 /\ 0 <= ensemble_reference eid < 4096
  /\ 4096 * country_id eid + ensemble_reference eid = 256 * b0 + b1.
Proof.
  intros H0 H1 eid.
  assert (E : eid = {| country_id := b0 / 16;
                       ensemble_reference := (b0 mod 16) * 256 + b1 |}).
  { unfold eid, ProcessBuffer. rd_list.
    rewrite field_F0_4, low_nibble_shl8, field_FF_0 by assumption.
    change 256 with (2 ^ 8). rewrite (lor_shl 8) by lia. reflexivity. }
  rewrite E. cbn [country_id ensemble_reference]. split.
  - unfold ProcessU16, field.
    rewrite Z.shiftr_land. change (Z.shiftr 0xF000 12) with (Z.ones 4).
    change 0x0FFF with (Z.ones 12).
    rewrite !Z.land_ones, Z.shiftr_0_r, Z.shiftr_div_pow2 by lia.
    unfold uint8, uint16. change (2 ^ 12) with 4096. change (2 ^ 4) with 16.
    f_equal; euclid.
  - repeat split; euclid.
Qed.

Lemma ensemble_identifier_decoders_agree_witness :
  ProcessU16 (256 * 0xC1 + 0x86) = ProcessBuffer [0xC1; 0x86].
Proof.
  apply (ensemble_identifier_decoders_agree 0xC1 0x86 []); lia.
Defined.

Lemma service_identifier_round_trip_witness :
  ProcessShortForm ([0xC * 16 + 0x221 / 256; 0x221 mod 256] ++ [])
  = {| sid_country_id := 0xC; service_reference := 0x221; ecc := 0 |}.
Proof.
  apply (service_identifier_round_trip 0xC 0x221 0x12345 0xE1 []); lia.
Defined.

(** *** FIG 0 handlers *)

(** X7: FIG 0/14 reports, in order and numbered from 0, the subchannel and
    the FEC scheme of each of its N one-byte entries, and reads none of the
    bytes behind them. *)
Theorem fig_0_14_round_trip
  (header : FIG_Header_Type_0) (entries : list FEC_Scheme) (rest : list Z)
  (cif_index : Z) :
  Forall FEC_Scheme_ok entries ->
  (List.length entries <= 255)%nat ->
  let N := Z.of_nat (List.length entries) in
  ProcessFIG_Type_0_Ext_14 header (map encode_FEC_Scheme entries ++ rest)
    N cif_index
  = imap (fun i e =>
      LOG_MESSAGE "[%d] fig 0/14 i=%d/%d id=%-2d fec=%d\n"
        [cif_index; Z.of_nat i; N; fec_subchannel_id e; fec_scheme e])
      entries.
Proof.
  intros Hok Hlen N. unfold ProcessFIG_Type_0_Ext_14, N.
  rewrite Nat2Z.id. apply map_Zseq_imap with
    (g := fun i e => LOG_MESSAGE _ [cif_index; i; _; _; _]).
  intros i e E.
  assert (Hi : (i < List.length entries)%nat) by (eapply lookup_lt_Some, E).
  rewrite rd_app_l by (rewrite length_map; lia).
  rewrite (rd_lookup _ _ (encode_FEC_Scheme e))
    by (rewrite list_lookup_fmap, E; reflexivity).
  destruct (Forall_lookup_1 _ _ _ _ Hok E) as [Hid Hfec].
  unfold encode_FEC_Scheme.
  rewrite field_FC_2, field_03_0 by lia.
  repeat f_equal; euclid.
Qed.

Lemma fig_0_14_round_trip_witness :
  ProcessFIG_Type_0_Ext_14 {| cn := 0; oe := 0; pd := 0 |}
    (map encode_FEC_Scheme
       [{| fec_subchannel_id := 5; fec_scheme := 1 |};
        {| fec_subchannel_id := 63; fec_scheme := 0 |}] ++ [0xFF]) 2 7
  = [LOG_MESSAGE "[%d] fig 0/14 i=%d/%d id=%-2d fec=%d\n" [7; 0; 2; 5; 1];
     LOG_MESSAGE "[%d] fig 0/14 i=%d/%d id=%-2d fec=%d\n" [7; 1; 2; 63; 0]].
Proof.
  apply (fig_0_14_round_trip {| cn := 0; oe := 0; pd := 0 |}
           [{| fec_subchannel_id := 5; fec_scheme := 1 |};
            {| fec_subchannel_id := 63; fec_scheme := 0 |}] [0xFF] 7).
  - repeat constructor; cbn; lia.
  - cbn. lia.
Defined.

(** X8: FIG 0/7 takes a field of exactly 2 bytes, from which it reads back
    the number of services and the reconfiguration count as packed; for
    any other length it reports the length error only. *)
Theorem fig_0_7_round_trip
  (header : FIG_Header_Type_0) (nb_services reconfiguration_count : Z)
  (rest : list Z) (N cif_index : Z) :
  0 <= nb_services < 64 -> 0 <= reconfiguration_count < 1024 ->
  ProcessFIG_Type_0_Ext_7 header
    (encode_Configuration nb_services reconfiguration_count ++ rest)
    N cif_index
  = if N =? 2
    then [LOG_MESSAGE
            "[%d] fig 0/7 total_services=%u reconfiguration_count=%u\n"
            [cif_index; nb_services; reconfiguration_count]]
    else [LOG_ERROR
            "[%d] fig 0/7 Length doesn't match expectations (%d/%d)\n"
            [cif_index; N; 2]].
Proof.
  intros Hs Hc. unfold ProcessFIG_Type_0_Ext_7, encode_Configuration.
  destruct (N =? 2); [|reflexivity]. cbn [negb app]. rd_list.
  assert (H0 : 0 <= nb_services * 4 + reconfiguration_count / 256 < 256)
    by euclid.
  assert (H1 : 0 <= reconfiguration_count mod 256 < 256) by euclid.
  rewrite field_FC_2, low2_shl8, field_FF_0 by assumption.
  change 256 with (2 ^ 8) at 3. rewrite (lor_shl 8) by lia.
  change (2 ^ 8) with 256.
  repeat f_equal; euclid.
Qed.

Lemma fig_0_7_round_trip_witness :
  ProcessFIG_Type_0_Ext_7 {| cn := 0; oe := 0; pd := 0 |}
    (encode_Configuration 12 513 ++ [0xFF]) 2 7
  = [LOG_MESSAGE "[%d] fig 0/7 total_services=%u reconfiguration_count=%u\n"
       [7; 12; 513]].
Proof.
  apply (fig_0_7_round_trip {| cn := 0; oe := 0; pd := 0 |} 12 513 [0xFF] 2 7);
    lia.
Defined.

Lemma length_encode_Stream_CA e : List.length (encode_Stream_CA e) = 3%nat.
Proof. reflexivity. Qed.

Lemma length_encode_Packet_Component e :
  List.length (encode_Packet_Component e) = 7%nat.
Proof. reflexivity. Qed.

(** X9: FIG 0/4 reports, in order and numbered from 0, the fields of each
    of its 3 byte entries as they were packed, and reads none of the bytes
    behind them. *)
Theorem fig_0_4_round_trip
  (header : FIG_Header_Type_0) (entries : list Stream_CA) (rest : list Z)
  (cif_index : Z) :
  Forall Stream_CA_ok entries ->
  (3 * List.length entries <= 255)%nat ->
  let n := Z.of_nat (List.length entries) in
  ProcessFIG_Type_0_Ext_4 header (flat_map encode_Stream_CA entries ++ rest)
    (3 * n) cif_index
  = imap (fun i e => report_Stream_CA cif_index (Z.of_nat i) n e) entries.
Proof.
  intros Hok Hlen n. unfold ProcessFIG_Type_0_Ext_4.
  replace (3 * n mod 3) with 0 by euclid. cbn [Z.eqb negb].
  replace (3 * n / 3) with n by euclid. unfold n at 2. rewrite Nat2Z.id.
  apply map_Zseq_imap with (g := fun i e => report_Stream_CA cif_index i n e).
  intros i e E. cbv zeta. change (Z.of_nat i * 3) with (Z.of_nat i * Z.of_nat 3).
  rewrite (ptr_entry encode_Stream_CA 3 entries rest i e
             length_encode_Stream_CA E).
  destruct (Forall_lookup_1 _ _ _ _ Hok E) as (Hrfa & Hrfu & Hid & Hca).
  unfold encode_Stream_CA, report_Stream_CA. cbn [app]. rd_list.
  assert (H0 : 0 <= ca_rfa e * 128 + ca_rfu e * 64 + ca_subchannel_id e < 256)
    by lia.
  assert (H1 : 0 <= ca_CAOrg e / 256 < 256) by euclid.
  assert (H2 : 0 <= ca_CAOrg e mod 256 < 256) by euclid.
  rewrite field_80_7, field_40_6, field_3F_0, all8_shl8, field_FF_0
    by assumption.
  change 256 with (2 ^ 8) at 1. rewrite (lor_shl 8) by lia.
  change (2 ^ 8) with 256.
  repeat f_equal; euclid.
Qed.

Lemma fig_0_4_round_trip_witness :
  ProcessFIG_Type_0_Ext_4 {| cn := 0; oe := 0; pd := 0 |}
    (flat_map encode_Stream_CA
       [{| ca_rfa := 0; ca_rfu := 1; ca_subchannel_id := 9;
           ca_CAOrg := 0x1234 |}] ++ [0xFF]) (3 * 1) 7
  = [LOG_MESSAGE
       "[%d] fig 0/4 i=%d/%d rfa=%u rfu=%u subchannel_id=%u CAOrg=%u\n"
       [7; 0; 1; 0; 1; 9; 0x1234]].
Proof.
  apply (fig_0_4_round_trip {| cn := 0; oe := 0; pd := 0 |}
           [{| ca_rfa := 0; ca_rfu := 1; ca_subchannel_id := 9;
               ca_CAOrg := 0x1234 |}] [0xFF] 7).
  - repeat constructor; cbn; lia.
  - cbn. lia.
Defined.

(** X10: FIG 0/3 reports, in order and numbered from 0, the nine fields
    of each of its 7 byte entries as they were packed, and reads none of
    the bytes behind them. *)
Theorem fig_0_3_round_trip
  (header : FIG_Header_Type_0) (entries : list Packet_Component)
  (rest : list Z) (cif_index : Z) :
  Forall Packet_Component_ok entries ->
  (7 * List.length entries <= 255)%nat ->
  let n := Z.of_nat (List.length entries) in
  ProcessFIG_Type_0_Ext_3 header
    (flat_map encode_Packet_Component entries ++ rest) (7 * n) cif_index
  = imap (fun i e => report_Packet_Component cif_index (Z.of_nat i) n e)
      entries.
Proof.
  intros Hok Hlen n. unfold ProcessFIG_Type_0_Ext_3.
  replace (7 * n mod 7) with 0 by euclid. cbn [Z.eqb negb].
  replace (7 * n / 7) with n by euclid. unfold n at 2. rewrite Nat2Z.id.
  apply map_Zseq_imap
    with (g := fun i e => report_Packet_Component cif_index i n e).
  intros i e E. cbv zeta.
  change (Z.of_nat i * 7) with (Z.of_nat i * Z.of_nat 7).
  rewrite (ptr_entry encode_Packet_Component 7 entries rest i e
             length_encode_Packet_Component E).
  destruct (Forall_lookup_1 _ _ _ _ Hok E)
    as (Hscid & Hrfa & Hcaf & Hdg & Hrfu & Hty & Hid & Hpa & Hca).
  unfold encode_Packet_Component, report_Packet_Component. cbn [app]. rd_list.
  assert (H0 : 0 <= pc_scid e / 16 < 256) by euclid.
  assert (H1 : 0 <= pc_scid e mod 16 * 16 + pc_rfa e * 2 + pc_caorg_flag e
               < 256) by euclid.
  assert (H2 : 0 <= pc_dg_flag e * 128 + pc_rfu e * 64 + pc_DSCTy e < 256)
    by lia.
  assert (H3 : 0 <= pc_subchannel_id e * 4 + pc_packet_address e / 256 < 256)
    by euclid.
  assert (H4 : 0 <= pc_packet_address e mod 256 < 256) by euclid.
  assert (H5 : 0 <= pc_CAOrg e / 256 < 256) by euclid.
  assert (H6 : 0 <= pc_CAOrg e mod 256 < 256) by euclid.
  rewrite all8_shl4, field_F0_4, field_0E_1, field_01_0, field_80_7,
    field_40_6, field_3F_0, field_FC_2, low2_shl8, all8_shl8, !field_FF_0
    by assumption.
  change 16 with (2 ^ 4) at 2.
  rewrite (lor_shl 4) by (change (2 ^ 4) with 16; euclid).
  change 256 with (2 ^ 8) at 2 5.
  rewrite !(lor_shl 8) by (change (2 ^ 8) with 256; lia).
  change (2 ^ 8) with 256. change (2 ^ 4) with 16.
  repeat f_equal; euclid.
Qed.

Lemma fig_0_3_round_trip_witness :
  ProcessFIG_Type_0_Ext_3 {| cn := 0; oe := 0; pd := 0 |}
    (flat_map encode_Packet_Component
       [{| pc_scid := 0xABC; pc_rfa := 5; pc_caorg_flag := 1;
           pc_dg_flag := 1; pc_rfu := 0; pc_DSCTy := 60;
           pc_subchannel_id := 33; pc_packet_address := 1000;
           pc_CAOrg := 0xBEEF |}] ++ [0xFF]) (7 * 1) 7
  = [LOG_MESSAGE
       "[%d] fig 0/3 i=%d/%d scid=%u rfa=%u caorg=%u dg=%u rfu=%u DSCTy=%u subchannel_id=%u packet_address=%u CAOrg=%u\n"
       [7; 0; 1; 0xABC; 5; 1; 1; 0; 60; 33; 1000; 0xBEEF]].
Proof.
  apply (fig_0_3_round_trip {| cn := 0; oe := 0; pd := 0 |}
           [{| pc_scid := 0xABC; pc_rfa := 5; pc_caorg_flag := 1;
               pc_dg_flag := 1; pc_rfu := 0; pc_DSCTy := 60;
               pc_subchannel_id := 33; pc_packet_address := 1000;
               pc_CAOrg := 0xBEEF |}] [0xFF] 7).
  - repeat constructor; cbn; lia.
  - cbn. lia.
Defined.

(** One round of the loop of FIG 0/1. *)
Ltac ext_1_round :=
  rewrite ProcessFIG_Type_0_Ext_1_loop_equation_1;
  unfold ProcessFIG_Type_0_Ext_1_loop_unfold_clause_1;
  match goal with
  | |- context [Z_lt_dec ?c ?N] =>
    destruct (Z_lt_dec c N) as [?|?]; [|exfalso; lia]
  end.

Lemma length_encode_Subchannel s :
  (3 <= List.length (encode_Subchannel s) <= 4)%nat.
Proof.
  unfold encode_Subchannel. destruct (sub_protection s); cbn; lia.
Qed.

Lemma ProcessFIG_Type_0_Ext_1_loop_entries
  (subs : list Subchannel) (pre rest : list Z) (cif_index i : Z) :
  Forall Subchannel_ok subs ->
  let N := Z.of_nat (List.length pre
                     + List.length (flat_map encode_Subchannel subs)) in
  N <= 255 ->
  ProcessFIG_Type_0_Ext_1_loop
    (pre ++ flat_map encode_Subchannel subs ++ rest) N cif_index
    (Z.of_nat (List.length pre)) i
  = imap (fun j s => report_Subchannel cif_index (i + Z.of_nat j) s) subs.
Proof.
  revert pre i. induction subs as [|s subs IH]; intros pre i Hok N HN.
  - rewrite ProcessFIG_Type_0_Ext_1_loop_equation_1.
    unfold ProcessFIG_Type_0_Ext_1_loop_unfold_clause_1.
    destruct (Z_lt_dec _ _) as [Hlt|_]; [|reflexivity].
    exfalso. unfold N in Hlt. cbn in Hlt. lia.
  - inversion Hok as [|? ? Hs Hsubs]; subst.
    pose proof (length_encode_Subchannel s) as Hlen.
    assert (HN' : N = Z.of_nat (List.length (pre ++ encode_Subchannel s)
                    + List.length (flat_map encode_Subchannel subs))).
    { unfold N. cbn [flat_map]. rewrite !length_app. lia. }
    specialize (IH (pre ++ encode_Subchannel s) (i + 1) Hsubs).
    cbv zeta in IH. rewrite <- HN' in IH. specialize (IH HN).
    cbn [flat_map] in *. rewrite <- !app_assoc in IH.
    rewrite <- app_assoc.
    assert (Hrem : 3 <= N - Z.of_nat (List.length pre) <= 255).
    { unfold N in *. cbn [flat_map] in *. rewrite length_app in *. lia. }
    assert (Hfit : Z.of_nat (List.length (encode_Subchannel s))
                   <= N - Z.of_nat (List.length pre)).
    { unfold N. cbn [flat_map]. rewrite length_app. lia. }
    rewrite ProcessFIG_Type_0_Ext_1_loop_equation_1.
    unfold ProcessFIG_Type_0_Ext_1_loop_unfold_clause_1.
    destruct (Z_lt_dec _ _) as [_|Hge]; [|exfalso; lia].
    cbv zeta. rewrite ptr_app_length.
    unfold uint8. rewrite (Z.mod_small (N - _)) by lia.
    destruct (Z.ltb_spec (N - Z.of_nat (List.length pre)) 3) as [?|_]; [lia|].
    destruct Hs as (Hid & Hstart & Hprot).
    assert (H0 : 0 <= sub_id s * 4 + sub_start_address s / 256 < 256)
      by euclid.
    assert (H1 : 0 <= sub_start_address s mod 256 < 256) by euclid.
    cbn [imap]. unfold report_Subchannel at 1. unfold encode_Subchannel in *.
    destruct (sub_protection s)
      as [table_switch table_index | option prot_level subchannel_size].
    + destruct Hprot as [Hts Hti].
      assert (H2 : 0 <= table_switch * 64 + table_index < 256) by lia.
      cbn [app List.length] in *. rd_list.
      rewrite field_FC_2, low2_shl8, field_FF_0, field_80_7, field_40_6,
        field_3F_0 by assumption.
      replace ((table_switch * 64 + table_index) / 128) with 0 by euclid.
      cbn [truthy Z.eqb negb].
      destruct (Z.gtb_spec 3 (N - Z.of_nat (List.length pre))) as [?|_];
        [lia|].
      rewrite length_app in IH. cbn [List.length] in IH.
      replace (Z.of_nat (List.length pre) + 3)
        with (Z.of_nat (List.length pre + 3)) by lia.
      rewrite IH. cbn [app]. f_equal.
      * rewrite lor_shl8 by lia. change (Z.of_nat 0) with 0.
        rewrite Z.add_0_r. repeat f_equal; euclid.
      * apply imap_ext. intros j x _. cbn [compose].
        replace (i + 1 + Z.of_nat j) with (i + Z.of_nat (S j)) by lia.
        reflexivity.
    + destruct Hprot as (Hopt & Hpl & Hsz).
      assert (H2 : 0 <= 128 + option * 16 + prot_level * 4
                        + subchannel_size / 256 < 256) by euclid.
      assert (H3 : 0 <= subchannel_size mod 256 < 256) by euclid.
      cbn [app List.length] in *. rd_list.
      rewrite field_FC_2, !low2_shl8, !field_FF_0, field_80_7, field_70_4,
        field_0C_2 by assumption.
      replace ((128 + option * 16 + prot_level * 4 + subchannel_size / 256)
               / 128) with 1 by euclid.
      cbn [truthy Z.eqb negb].
      destruct (Z.gtb_spec 4 (N - Z.of_nat (List.length pre))) as [?|_];
        [lia|].
      rewrite length_app in IH. cbn [List.length] in IH.
      replace (Z.of_nat (List.length pre) + 4)
        with (Z.of_nat (List.length pre + 4)) by lia.
      rewrite IH. cbn [app]. f_equal.
      * rewrite !lor_shl8 by lia. change (Z.of_nat 0) with 0.
        rewrite Z.add_0_r. repeat f_equal; euclid.
      * apply imap_ext. intros j x _. cbn [compose].
        replace (i + 1 + Z.of_nat j) with (i + Z.of_nat (S j)) by lia.
        reflexivity.
Qed.

(** X11: FIG 0/1 reports, in order and numbered from 0, each subchannel
    of its field as it was packed, short form (3 bytes) and long form
    (4 bytes) mixed freely, and reads none of the bytes behind the
    field. *)
Theorem fig_0_1_round_trip
  (header : FIG_Header_Type_0) (subs : list Subchannel) (rest : list Z)
  (cif_index : Z) :
  Forall Subchannel_ok subs ->
  (List.length (flat_map encode_Subchannel subs) <= 255)%nat ->
  ProcessFIG_Type_0_Ext_1 header (flat_map encode_Subchannel subs ++ rest)
    (Z.of_nat (List.length (flat_map encode_Subchannel subs))) cif_index
  = imap (fun i s => report_Subchannel cif_index (Z.of_nat i) s) subs.
Proof.
  intros Hok Hlen. unfold ProcessFIG_Type_0_Ext_1.
  apply (ProcessFIG_Type_0_Ext_1_loop_entries subs [] rest cif_index 0 Hok).
  cbn [List.length Nat.add]. lia.
Qed.

Lemma fig_0_1_round_trip_witness :
  ProcessFIG_Type_0_Ext_1 {| cn := 0; oe := 0; pd := 0 |}
    (flat_map encode_Subchannel
       [{| sub_id := 3; sub_start_address := 300;
           sub_protection := Short_form 1 20 |};
        {| sub_id := 17; sub_start_address := 1;
           sub_protection := Long_form 0 2 700 |}] ++ [0xFF]) 7 5
  = [LOG_MESSAGE
       "[%d] fig 0/1 i=%d subchannel_id=%-2d start_addr=%03d long=%d table_switch=%d table_index=%d\n"
       [5; 0; 3; 300; 0; 1; 20];
     LOG_MESSAGE
       "[%d] fig 0/1 i=%d subchannel_id=%-2d start_addr=%03d long=%d option=%d prot_level=%d subchannel_size=%d\n"
       [5; 1; 17; 1; 1; 0; 2; 700]].
Proof.
  apply (fig_0_1_round_trip {| cn := 0; oe := 0; pd := 0 |}
           [{| sub_id := 3; sub_start_address := 300;
               sub_protection := Short_form 1 20 |};
            {| sub_id := 17; sub_start_address := 1;
               sub_protection := Long_form 0 2 700 |}] [0xFF] 5).
  - repeat constructor; cbn; lia.
  - cbn. lia.
Defined.

(** *** The FIG scan *)

Ltac fig_scan_round :=
  rewrite ProcessFIG_loop_equation_1;
  unfold ProcessFIG_loop_unfold_clause_1.

Lemma ProcessFIG_loop_FIGs
  (figs : list FIG) (pre tail : list Z) (cif_index : Z) :
  Forall (fun f => In (fig_type f) [0; 1; 2; 6]) figs ->
  let n := (List.length pre + List.length (encode_FIGs figs))%nat in
  (n <= 30)%nat ->
  n = 30%nat \/ rd tail 0 = 0xFF ->
  ProcessFIG_loop (pre ++ encode_FIGs figs ++ tail) cif_index
    (Z.of_nat (List.length pre))
  = FIGs_output figs tail cif_index.
Proof.
  revert pre. induction figs as [|f figs IH]; intros pre Hty n Hn Hend.
  - unfold n in *. cbn [encode_FIGs flat_map List.length app] in *.
    fig_scan_round. destruct (Z_lt_dec _ _) as [Hlt|_]; [|reflexivity].
    destruct Hend as [E|E]; [lia|].
    cbv zeta. rewrite rd_app_length, E. reflexivity.
  - inversion Hty as [|? ? Hf Hfigs]; subst.
    unfold encode_FIGs in *. cbn [flat_map] in *.
    fold (encode_FIGs figs) in *.
    set (len := List.length (fig_data f)) in *.
    assert (Hlen : n = (List.length (pre ++ encode_FIG f)
                        + List.length (encode_FIGs figs))%nat).
    { unfold n. rewrite !length_app. lia. }
    specialize (IH (pre ++ encode_FIG f) Hfigs). cbv zeta in IH.
    rewrite <- Hlen in IH. specialize (IH Hn Hend).
    rewrite <- !app_assoc in IH.
    assert (Hfit : (List.length pre + 1 + len <= 30)%nat).
    { unfold n in Hn. rewrite length_app in Hn. unfold encode_FIG in Hn.
      cbn [List.length] in Hn. fold len in Hn. lia. }
    set (h := fig_type f * 32 + Z.of_nat len).
    assert (Hh : 0 <= h < 256 /\ h <> 0xFF /\ h / 32 = fig_type f
                 /\ h mod 32 = Z.of_nat len).
    { unfold h. cbn [In] in Hf.
      destruct Hf as [<-|[<-|[<-|[<-|[]]]]]; repeat split; euclid. }
    destruct Hh as (Hh & Hdelim & Htype & Hdata).
    rewrite <- app_assoc. unfold encode_FIG at 1. fold len h.
    cbn [app]. fig_scan_round.
    destruct (Z_lt_dec _ _) as [_|Hge]; [|exfalso; lia].
    cbv zeta. rewrite rd_app_length, rd_0.
    destruct (Z.eqb_spec h 0xFF) as [?|_]; [contradiction|].
    unfold fig_type_of, fig_data_length_of.
    rewrite field_E0_5, field_1F_0, Htype, Hdata by exact Hh.
    unfold uint8. rewrite Z.mod_small by lia.
    destruct (Z.gtb_spec (Z.of_nat len + 1) (30 - Z.of_nat (List.length pre)))
      as [?|_]; [lia|].
    replace (pre ++ h :: fig_data f ++ encode_FIGs figs ++ tail)
      with ((pre ++ [h]) ++ fig_data f ++ encode_FIGs figs ++ tail)
      by (rewrite <- app_assoc; reflexivity).
    replace (Z.of_nat (List.length pre) + 1)
      with (Z.of_nat (List.length (pre ++ [h])))
      by (rewrite length_app; cbn; lia).
    rewrite ptr_app_length.
    replace (Z.of_nat (List.length (pre ++ [h])) - 1 + (Z.of_nat len + 1))
      with (Z.of_nat (List.length (pre ++ encode_FIG f)))
      by (rewrite !length_app; unfold encode_FIG; cbn [List.length];
          fold len; lia).
    replace ((pre ++ [h]) ++ fig_data f ++ encode_FIGs figs ++ tail)
      with (pre ++ encode_FIG f ++ encode_FIGs figs ++ tail)
      by (unfold encode_FIG; fold len h; rewrite <- !app_assoc; reflexivity).
    replace (Z.of_nat (List.length pre) + (Z.of_nat len + 1))
      with (Z.of_nat (List.length (pre ++ encode_FIG f)))
      by (rewrite !length_app; unfold encode_FIG; cbn [List.length];
          fold len; lia).
    rewrite IH. cbn [FIGs_output]. fold len.
    cbn [In] in Hf. destruct Hf as [<-|[<-|[<-|[<-|[]]]]]; reflexivity.
Qed.

(** X12: a FIB payload made of FIGs of the types that have a handler
    (0, 1, 2 and 6), which either fill the 30 bytes or are followed by
    the 0xFF delimiter, is taken apart at the FIG boundaries: the FIGs are
    handed, in order, each with its own data length, to the handler of
    their type, and nothing else is produced. *)
Theorem fig_scan_round_trip
  (figs : list FIG) (tail : list Z) (cif_index : Z) :
  Forall (fun f => In (fig_type f) [0; 1; 2; 6]) figs ->
  (List.length (encode_FIGs figs) <= 30)%nat ->
  List.length (encode_FIGs figs) = 30%nat \/ rd tail 0 = 0xFF ->
  ProcessFIG (encode_FIGs figs ++ tail) cif_index
  = FIGs_output figs tail cif_index.
Proof.
  intros Hty Hn Hend. unfold ProcessFIG.
  apply (ProcessFIG_loop_FIGs figs [] tail cif_index Hty); assumption.
Qed.

(** A FIG 0/0, a FIG of type 1 and the delimiter. *)
Lemma fig_scan_round_trip_witness :
  ProcessFIG
    (encode_FIGs [{| fig_type := 0; fig_data := [0x00; 0xC0; 0x12; 0x34; 0x32] |};
                  {| fig_type := 1; fig_data := [0x01; 0x41; 0x42] |}]
     ++ [0xFF]) 7
  = FIGs_output
      [{| fig_type := 0; fig_data := [0x00; 0xC0; 0x12; 0x34; 0x32] |};
       {| fig_type := 1; fig_data := [0x01; 0x41; 0x42] |}] [0xFF] 7.
Proof.
  apply (fig_scan_round_trip
           [{| fig_type := 0; fig_data := [0x00; 0xC0; 0x12; 0x34; 0x32] |};
            {| fig_type := 1; fig_data := [0x01; 0x41; 0x42] |}] [0xFF] 7).
  - repeat constructor; cbn; tauto.
  - cbn. lia.
  - right. reflexivity.
Defined.

Lemma fig_type_range (header : Z) : 0 <= fig_type_of header < 8.
Proof.
  unfold fig_type_of, field. rewrite Z.shiftr_land.
  change (Z.shiftr 0xE0 5) with (Z.ones 3). rewrite Z.land_ones by lia.
  apply Z.mod_pos_bound. reflexivity.
Qed.

Lemma In_Zseq (n : nat) (z : Z) : 0 <= z < Z.of_nat n -> In z (Zseq n).
Proof.
  intros Hz. unfold Zseq. apply in_map_iff. exists (Z.to_nat z).
  split; [lia|]. apply in_seq. lia.
Qed.

Lemma ProcessFIG_Type_0_calls (buf : list Z) (cif_index curr_byte : Z) :
  let len := fig_data_length_of (rd buf curr_byte) in
  fig_start buf curr_byte ->
  0 <= curr_byte -> curr_byte + 1 + len <= 30 ->
  rd buf curr_byte <> 0xFF ->
  fig_type_of (rd buf curr_byte) = 0 ->
  Forall (scan_call_of buf cif_index)
    (ProcessFIG_Type_0 (ptr buf (curr_byte + 1)) len cif_index).
Proof.
  intros len Hstart Hcurr Hfit Hend Htype.
  assert (Hcall : forall h,
            handler_extension h = field (rd (ptr buf (curr_byte + 1)) 0) 0x1F 0 ->
            scan_call_of buf cif_index
              (Handler_Call h
                 {| cn := field (rd (ptr buf (curr_byte + 1)) 0) 0x80 7;
                    oe := field (rd (ptr buf (curr_byte + 1)) 0) 0x40 6;
                    pd := field (rd (ptr buf (curr_byte + 1)) 0) 0x20 5 |}
                 (ptr (ptr buf (curr_byte + 1)) 1)
                 (uint8 (len - 1)) cif_index)).
  { intros h Hh. exists curr_byte. fold len.
    pose proof (FICFacts.fig_data_length_range (rd buf curr_byte)) as Hr. fold len in Hr.
    rewrite rd_ptr, Z.add_0_r in Hh |- * by lia.
    repeat split; try lia; try assumption.
    - rewrite ptr_ptr by lia. f_equal. lia.
    - unfold uint8. destruct (Z.eqb_spec len 0) as [->|Hne]; [reflexivity|].
      apply Z.mod_small. lia. }
  unfold ProcessFIG_Type_0.
  pose proof (FICFacts.fig_data_length_range (rd (ptr buf (curr_byte + 1)) 0)) as Hr.
  unfold fig_data_length_of in Hr.
  set (extension := field (rd (ptr buf (curr_byte + 1)) 0) 0x1F 0) in *.
  assert (Hin : In extension (Zseq 32)) by (apply In_Zseq; lia).
  clearbody extension. cbv in Hin.
  repeat (destruct Hin as [<-|Hin];
          [first [ apply Forall_nil; exact I
                 | apply Forall_cons; split;
                   [apply Hcall; reflexivity|apply Forall_nil; exact I]
                 | unfold ProcessFIG_Type_0_Ext_0, ProcessFIG_Type_0_Ext_10;
                   cbv zeta;
                   repeat match goal with
                          | |- context [if ?c then _ else _] => destruct c
                          end;
                   (apply Forall_cons; split;
                    [exact I|apply Forall_nil; exact I]) ]|]).
  destruct Hin.
Qed.

Lemma ProcessFIG_loop_calls (buf : list Z) (cif_index : Z) (n : nat) :
  forall curr_byte,
    fig_start buf curr_byte ->
    0 <= curr_byte -> (Z.to_nat (30 - curr_byte) <= n)%nat ->
    Forall (scan_call_of buf cif_index)
      (ProcessFIG_loop buf cif_index curr_byte).
Proof.
  induction n as [|n IH]; intros curr_byte Hstart Hcurr Hn; fig_scan_round;
    destruct (Z_lt_dec _ _) as [Hlt|_];
    try (apply Forall_nil; exact I); [lia|].
  cbv zeta.
  destruct (Z.eqb_spec (rd buf curr_byte) 0xFF) as [|Hend];
    [apply Forall_nil; exact I|].
  pose proof (FICFacts.fig_data_length_range (rd buf curr_byte)) as Hr.
  unfold uint8. rewrite Z.mod_small by lia.
  destruct (Z.gtb_spec (fig_data_length_of (rd buf curr_byte) + 1)
              (30 - curr_byte)) as [?|Hfit].
  { apply Forall_cons; split; [exact I|apply Forall_nil; exact I]. }
  assert (Hnext : In (fig_type_of (rd buf curr_byte)) [0; 1; 2; 6] ->
            Forall (scan_call_of buf cif_index)
              (ProcessFIG_loop buf cif_index
                 (curr_byte + (fig_data_length_of (rd buf curr_byte) + 1)))).
  { intros Hty. apply IH; [|lia|lia].
    replace (curr_byte + (fig_data_length_of (rd buf curr_byte) + 1))
      with (curr_byte + 1 + fig_data_length_of (rd buf curr_byte)) by lia.
    apply fig_start_next; [exact Hstart|exact Hend|exact Hty|lia]. }
  pose proof (fig_type_range (rd buf curr_byte)) as Ht.
  destruct (Z.eq_dec (fig_type_of (rd buf curr_byte)) 0) as [Htype|Htype].
  { match goal with
    | |- Forall _ ?events =>
      replace events
        with (ProcessFIG_Type_0 (ptr buf (curr_byte + 1))
                (fig_data_length_of (rd buf curr_byte)) cif_index
              ++ ProcessFIG_loop buf cif_index
                   (curr_byte + (fig_data_length_of (rd buf curr_byte) + 1)))
        by (rewrite Htype; reflexivity)
    end.
    apply Forall_app; split.
    - apply ProcessFIG_Type_0_calls; [exact Hstart|lia|lia|exact Hend|exact Htype].
    - apply Hnext. rewrite Htype. left. reflexivity. }
  set (fig_type := fig_type_of (rd buf curr_byte)) in *.
  assert (Hin : In fig_type (Zseq 8)) by (apply In_Zseq; lia).
  clearbody fig_type. cbv in Hin.
  destruct Hin as [<-|[<-|[<-|[<-|[<-|[<-|[<-|[<-|[]]]]]]]]];
    try (apply Forall_cons; split; [exact I|apply Forall_nil; exact I]);
    try (apply Forall_nil; exact I);
    try (apply Hnext; cbn; tauto).
  contradiction.
Qed.

(** X13: whatever the 30 payload bytes are, every call that the scan
    makes of a FIG 0 handler other than those of FIG 0/0 and 0/10 is for a
    FIG of type 0 whose header the scan has reached and which lies inside
    the payload; the handler called is the one of the extension in the
    FIG's descriptor byte, and it is given the three flags of that byte,
    the CIF index, the buffer from two bytes after the FIG header, and the
    data length less one; except that for a FIG of data length 0 it is
    given the length 255, the [uint8_t] that 0 - 1 wraps to. *)
Theorem fig_scan_handler_calls (buf : list Z) (cif_index : Z) :
  Forall (scan_call_of buf cif_index) (ProcessFIG buf cif_index).
Proof.
  unfold ProcessFIG. apply (ProcessFIG_loop_calls buf cif_index 30 0); [constructor|lia|lia].
Qed.

(** A type 0 FIG of data length 0: the byte after its header, here the
    header of the next FIG, is read as its descriptor, and the handler of
    FIG 0/14 is called with the length 255. *)
Lemma fig_scan_empty_fig_0 :
  ProcessFIG ([0x00; 0x0E] ++ repeat 0xFF 28) 7
  = [Handler_Call Type_0_Ext_14 {| cn := 0; oe := 0; pd := 0 |}
       (repeat 0xFF 28) 255 7].
Proof. vm_compute. reflexivity. Qed.

End FIGFieldsFacts.

(** ** Transmission errors and the CRC check *)

Module FIBErrorsFacts.
Import FIC FIBErrors.

Local Open Scope list_scope.
Local Open Scope Z_scope.

Lemma uint16_lxor (a b : Z) :
  uint16 (Z.lxor a b) = Z.lxor (uint16 a) (uint16 b).
Proof.
  unfold uint16. change 65536 with (2 ^ 16).
  rewrite <- !Z.land_ones by lia. apply Z.bits_inj'. intros n Hn.
  rewrite ?Z.land_spec, ?Z.lxor_spec, ?Z.land_spec.
  destruct (Z.testbit a n), (Z.testbit b n), (Z.testbit (Z.ones 16) n);
    reflexivity.
Qed.

(** The CRC register is linear over XOR. *)
Lemma crc16_shift_lxor (a b : Z) :
  crc16_shift (Z.lxor a b) = Z.lxor (crc16_shift a) (crc16_shift b).
Proof.
  unfold crc16_shift. rewrite Z.lxor_spec, Z.shiftl_lxor, uint16_lxor.
  set (x := uint16 (Z.shiftl a 1)). set (y := uint16 (Z.shiftl b 1)).
  set (p := crc16_poly).
  destruct (Z.testbit a 15), (Z.testbit b 15); cbn [xorb];
    apply Z.bits_inj'; intros n Hn; rewrite ?Z.lxor_spec;
    destruct (Z.testbit x n), (Z.testbit y n), (Z.testbit p n); reflexivity.
Qed.

Lemma crc16_update_lxor (r1 r2 b1 b2 : Z) :
  crc16_update (Z.lxor r1 r2) (Z.lxor b1 b2)
  = Z.lxor (crc16_update r1 b1) (crc16_update r2 b2).
Proof.
  unfold crc16_update. rewrite Z.shiftl_lxor.
  replace (Z.lxor (Z.lxor r1 r2) (Z.lxor (Z.shiftl b1 8) (Z.shiftl b2 8)))
    with (Z.lxor (Z.lxor r1 (Z.shiftl b1 8)) (Z.lxor r2 (Z.shiftl b2 8))).
  - unfold Nat.iter. cbn [nat_rect]. rewrite !crc16_shift_lxor. reflexivity.
  - apply Z.bits_inj'. intros n Hn. rewrite !Z.lxor_spec.
    destruct (Z.testbit r1 n), (Z.testbit r2 n),
      (Z.testbit (Z.shiftl b1 8) n), (Z.testbit (Z.shiftl b2 8) n);
      reflexivity.
Qed.

Lemma crc16_fold_lxor (l1 l2 : list Z) (r1 r2 : Z) :
  List.length l1 = List.length l2 ->
  fold_left crc16_update (xor_bytes l1 l2) (Z.lxor r1 r2)
  = Z.lxor (fold_left crc16_update l1 r1) (fold_left crc16_update l2 r2).
Proof.
  revert l2 r1 r2. induction l1 as [|b1 l1 IH]; intros [|b2 l2] r1 r2 Hlen;
    try discriminate; [reflexivity|].
  cbn [xor_bytes zip_with fold_left]. fold (xor_bytes l1 l2).
  rewrite crc16_update_lxor. apply IH. cbn in Hlen. lia.
Qed.

Lemma lxor_range (k a b : Z) :
  0 <= k -> 0 <= a < 2 ^ k -> 0 <= b < 2 ^ k -> 0 <= Z.lxor a b < 2 ^ k.
Proof.
  intros Hk Ha Hb.
  destruct (Z.eq_dec k 0) as [->|Hk0].
  { change (2 ^ 0) with 1 in *. replace a with 0 by lia.
    replace b with 0 by lia. change (Z.lxor 0 0) with 0. lia. }
  assert (H0 : 0 <= Z.lxor a b) by (apply Z.lxor_nonneg; lia).
  split; [exact H0|].
  destruct (Z.eq_dec (Z.lxor a b) 0) as [->|Hne]; [lia|].
  apply Z.log2_lt_pow2; [lia|].
  eapply Z.le_lt_trans; [apply Z.log2_lxor; lia|].
  apply Z.max_lub_lt.
  - destruct (Z.eq_dec a 0) as [->|]; [cbn; lia|]. apply Z.log2_lt_pow2; lia.
  - destruct (Z.eq_dec b 0) as [->|]; [cbn; lia|]. apply Z.log2_lt_pow2; lia.
Qed.

(** The bits of the number that two bytes spell, high byte first. *)
Lemma word_testbit (a b n : Z) :
  0 <= b < 256 -> 0 <= n ->
  Z.testbit (256 * a + b) n
  = if n <? 8 then Z.testbit b n else Z.testbit a (n - 8).
Proof.
  intros Hb Hn. rewrite (Z.mul_comm 256 a), <- lor_shl8 by exact Hb.
  change 256 with (2 ^ 8). rewrite <- Z.shiftl_mul_pow2, Z.lor_spec by lia.
  destruct (Z.ltb_spec n 8).
  - rewrite Z.shiftl_spec_low by lia. reflexivity.
  - rewrite Z.shiftl_spec by lia.
    replace b with (b mod 2 ^ 8) by (apply Z.mod_small; exact Hb).
    rewrite Z.mod_pow2_bits_high by lia. apply orb_false_r.
Qed.

Lemma word_lxor (a1 b1 a2 b2 : Z) :
  0 <= b1 < 256 -> 0 <= b2 < 256 ->
  256 * Z.lxor a1 a2 + Z.lxor b1 b2
  = Z.lxor (256 * a1 + b1) (256 * a2 + b2).
Proof.
  intros H1 H2. apply Z.bits_inj'. intros n Hn.
  rewrite Z.lxor_spec, !word_testbit
    by first [assumption | apply (lxor_range 8); lia].
  destruct (n <? 8); rewrite Z.lxor_spec; reflexivity.
Qed.

Lemma rd_xor_bytes (a b : list Z) (i : Z) :
  List.length a = List.length b ->
  rd (xor_bytes a b) i = Z.lxor (rd a i) (rd b i).
Proof.
  intros Hlen. unfold rd, xor_bytes. generalize (Z.to_nat i) as n.
  revert b Hlen. induction a as [|x a IH]; intros [|y b] Hlen n;
    try discriminate.
  - destruct n; reflexivity.
  - destruct n as [|n]; [reflexivity|]. cbn. apply IH. cbn in Hlen. lia.
Qed.

Lemma firstn_xor_bytes (n : nat) (a b : list Z) :
  firstn n (xor_bytes a b) = xor_bytes (firstn n a) (firstn n b).
Proof.
  unfold xor_bytes. revert a b. induction n as [|n IH]; intros [|x a] [|y b];
    try reflexivity.
  cbn. f_equal. apply IH.
Qed.

Lemma bytes_xor_bytes (a b : list Z) :
  Forall (fun x => 0 <= x < 256) a -> Forall (fun x => 0 <= x < 256) b ->
  Forall (fun x => 0 <= x < 256) (xor_bytes a b).
Proof.
  intros Ha. revert b. induction Ha as [|x a Hx Ha IH]; intros b Hb.
  - constructor.
  - destruct Hb as [|y b Hy Hb]; [constructor|].
    cbn. constructor; [|apply IH, Hb].
    apply (lxor_range 8); lia.
Qed.

(** The residue of a FIB with inverted bits is the residue of the FIB
    XORed with the syndrome of the inverted bits. *)
Lemma residue_xor_bytes (fib e : list Z) :
  List.length fib = 32%nat -> List.length e = 32%nat ->
  Forall (fun x => 0 <= x < 256) fib -> Forall (fun x => 0 <= x < 256) e ->
  residue (xor_bytes fib e) = Z.lxor (residue fib) (syndrome e).
Proof.
  intros Hf He Bf Be. unfold residue, syndrome, crc16_xorout.
  rewrite firstn_xor_bytes.
  change 0xFFFF with (Z.lxor 0xFFFF 0) at 1.
  rewrite crc16_fold_lxor by (rewrite !length_take; lia).
  rewrite !rd_xor_bytes by lia.
  rewrite word_lxor by (apply FICFacts.rd_bytes; assumption).
  set (c := fold_left crc16_update (firstn 30 fib) 0xFFFF).
  set (s := fold_left crc16_update (firstn 30 e) 0).
  set (w := 256 * rd fib 30 + rd fib 31).
  set (v := 256 * rd e 30 + rd e 31).
  apply Z.bits_inj'. intros n Hn. rewrite !Z.lxor_spec.
  destruct (Z.testbit c n), (Z.testbit s n), (Z.testbit w n),
    (Z.testbit v n), (Z.testbit 0xFFFF n); reflexivity.
Qed.

Lemma fib_valid_residue (fib : list Z) :
  fib_valid fib = (residue fib =? 0).
Proof.
  unfold fib_valid, residue.
  destruct (Z.eqb_spec (crc16_xorout (firstn 30 fib))
              (256 * rd fib 30 + rd fib 31)) as [E|E];
    destruct (Z.eqb_spec (Z.lxor (crc16_xorout (firstn 30 fib))
                            (256 * rd fib 30 + rd fib 31)) 0) as [E'|E'];
    try reflexivity.
  - exfalso. apply E'. apply Z.lxor_eq_0_iff. exact E.
  - exfalso. apply E. apply Z.lxor_eq_0_iff. exact E'.
Qed.

Lemma ProcessFIB_residue (fib : list Z) (cif_index : Z) :
  Forall (fun x => 0 <= x < 256) fib ->
  ProcessFIB fib cif_index
  = if residue fib =? 0 then ProcessFIG fib cif_index else [].
Proof.
  intros Bf. rewrite FICFacts.ProcessFIB_checks_crc
    by (apply FICFacts.rd_bytes; assumption).
  rewrite fib_valid_residue. reflexivity.
Qed.

(** X14: whether a received FIB passes the CRC check depends on the
    inverted bits alone, not on what the FIB holds: a valid FIB received
    with the bits of [e] inverted is handed to the FIG parser exactly when
    the syndrome of [e] is 0, and dropped otherwise. *)
Theorem fib_check_by_syndrome (fib e : list Z) (cif_index : Z) :
  List.length fib = 32%nat -> List.length e = 32%nat ->
  Forall (fun x => 0 <= x < 256) fib -> Forall (fun x => 0 <= x < 256) e ->
  fib_valid fib = true ->
  ProcessFIB (xor_bytes fib e) cif_index
  = if syndrome e =? 0
    then ProcessFIG (xor_bytes fib e) cif_index
    else [].
Proof.
  intros Hf He Bf Be Hv.
  rewrite ProcessFIB_residue by (apply bytes_xor_bytes; assumption).
  rewrite residue_xor_bytes by assumption.
  rewrite fib_valid_residue in Hv. apply Z.eqb_eq in Hv.
  rewrite Hv, Z.lxor_0_l. reflexivity.
Qed.

(** The FIB of the FIG 0/0 example, received with its first byte 0x05
    turned into 0x04. *)
Lemma fib_check_by_syndrome_witness :
  ProcessFIB
    (xor_bytes (([0x05; 0x00; 0xC0; 0x12; 0x34; 0x32; 0xFF] ++ repeat 0 23)
                ++ [0x19; 0x70])
               (0x01 :: repeat 0 31)) 0
  = if syndrome (0x01 :: repeat 0 31) =? 0
    then ProcessFIG
           (xor_bytes
              (([0x05; 0x00; 0xC0; 0x12; 0x34; 0x32; 0xFF] ++ repeat 0 23)
               ++ [0x19; 0x70])
              (0x01 :: repeat 0 31)) 0
    else [].
Proof.
  apply (fib_check_by_syndrome
           (([0x05; 0x00; 0xC0; 0x12; 0x34; 0x32; 0xFF] ++ repeat 0 23)
            ++ [0x19; 0x70])
           (0x01 :: repeat 0 31) 0).
  - reflexivity.
  - reflexivity.
  - repeat constructor; cbn; lia.
  - repeat constructor; cbn; lia.
  - vm_compute. reflexivity.
Defined.

Lemma xor_bytes_zeros (l : list Z) :
  xor_bytes l (replicate (List.length l) 0) = l.
Proof.
  unfold xor_bytes. induction l as [|x l IH]; [reflexivity|].
  cbn. rewrite Z.lxor_0_r, IH. reflexivity.
Qed.

Lemma alter_lxor (l : list Z) (i : nat) (m : Z) :
  (i < List.length l)%nat ->
  alter (fun b => Z.lxor b m) i l
  = xor_bytes l (<[i := m]> (replicate (List.length l) 0)).
Proof.
  revert i. induction l as [|x l IH]; intros i Hi; [cbn in Hi; lia|].
  destruct i as [|i]; cbn.
  - fold (xor_bytes l (replicate (List.length l) 0)).
    rewrite xor_bytes_zeros. reflexivity.
  - rewrite Z.lxor_0_r. f_equal. apply IH. cbn in Hi. lia.
Qed.

Lemma flip_bit_xor_bytes (fib : list Z) (i k : nat) :
  List.length fib = 32%nat -> (i < 32)%nat ->
  flip_bit fib i k = xor_bytes fib (bit_error i k).
Proof.
  intros Hlen Hi. unfold flip_bit, bit_error. rewrite <- Hlen.
  apply alter_lxor. lia.
Qed.

Lemma bit_error_bytes (i k : nat) :
  (k < 8)%nat ->
  List.length (bit_error i k) = 32%nat
  /\ Forall (fun x => 0 <= x < 256) (bit_error i k).
Proof.
  intros Hk. unfold bit_error. split.
  - rewrite length_insert. reflexivity.
  - apply Forall_insert.
    + apply Forall_replicate. lia.
    + split; [apply Z.pow_nonneg; lia|].
      change 256 with (2 ^ 8). apply Z.pow_lt_mono_r; lia.
Qed.

Lemma residue_flip_bit (fib : list Z) (i k : nat) :
  List.length fib = 32%nat -> Forall (fun x => 0 <= x < 256) fib ->
  (i < 32)%nat -> (k < 8)%nat ->
  residue (flip_bit fib i k)
  = Z.lxor (residue fib) (syndrome (bit_error i k))
  /\ List.length (flip_bit fib i k) = 32%nat
  /\ Forall (fun x => 0 <= x < 256) (flip_bit fib i k).
Proof.
  intros Hlen Bf Hi Hk. destruct (bit_error_bytes i k Hk) as [He Be].
  rewrite flip_bit_xor_bytes by assumption. split; [|split].
  - apply residue_xor_bytes; assumption.
  - unfold xor_bytes. rewrite length_zip_with. lia.
  - apply bytes_xor_bytes; assumption.
Qed.

(** The syndromes of the 256 single bit errors, bit [p mod 8] of byte
    [p / 8]: none is 0, and no two are the same. *)
Lemma single_bit_syndromes :
  let tbl := map (fun p => syndrome (bit_error (p / 8) (p mod 8)))
               (seq 0 256) in
  forallb (fun p =>
    negb (nth p tbl 0 =? 0)
    && forallb (fun q => (p =? q)%nat || negb (nth p tbl 0 =? nth q tbl 0))
         (seq 0 256))
    (seq 0 256) = true.
Proof. vm_compute. reflexivity. Qed.

Lemma single_bit_syndrome (i k j l : nat) :
  (i < 32)%nat -> (k < 8)%nat -> (j < 32)%nat -> (l < 8)%nat ->
  syndrome (bit_error i k) <> 0
  /\ ((i, k) <> (j, l) ->
      Z.lxor (syndrome (bit_error i k)) (syndrome (bit_error j l)) <> 0).
Proof.
  intros Hi Hk Hj Hl. pose proof single_bit_syndromes as H. cbv zeta in H.
  set (f := fun p => syndrome (bit_error (p / 8) (p mod 8))) in H.
  assert (Hnth : forall p, (p < 256)%nat -> nth p (map f (seq 0 256)) 0 = f p).
  { intros p Hp. rewrite nth_indep with (d' := f 0%nat)
      by (rewrite length_map, length_seq; exact Hp).
    rewrite map_nth, seq_nth by exact Hp. reflexivity. }
  assert (Hf : forall a b, (a < 32)%nat -> (b < 8)%nat ->
                 f (8 * a + b)%nat = syndrome (bit_error a b)).
  { intros a b Ha Hb. unfold f. f_equal. f_equal.
    - rewrite Nat.mul_comm, Nat.div_add_l, Nat.div_small by lia. lia.
    - rewrite Nat.add_comm, Nat.mul_comm, Nat.Div0.mod_add.
      apply Nat.mod_small. exact Hb. }
  rewrite forallb_forall in H.
  specialize (H (8 * i + k)%nat). rewrite in_seq in H.
  specialize (H ltac:(lia)). apply andb_prop in H. destruct H as [H0 H1].
  rewrite Hnth, Hf in H0 by lia. split.
  - intros E. rewrite E in H0. discriminate H0.
  - intros Hne E. rewrite forallb_forall in H1.
    specialize (H1 (8 * j + l)%nat). rewrite in_seq in H1.
    specialize (H1 ltac:(lia)). rewrite !Hnth, !Hf in H1 by lia.
    apply -> Z.lxor_eq_0_iff in E. rewrite E, Z.eqb_refl in H1.
    cbn [negb] in H1. rewrite orb_false_r in H1.
    apply Nat.eqb_eq in H1. apply Hne. f_equal; lia.
Qed.

(** X15: one inverted bit, or two, anywhere in the 32 bytes of a valid
    FIB, CRC bytes included, is always caught: the FIB is dropped and
    nothing is parsed. *)
Theorem fib_bit_errors_dropped
  (fib : list Z) (i k j l : nat) (cif_index : Z) :
  List.length fib = 32%nat -> Forall (fun x => 0 <= x < 256) fib ->
  fib_valid fib = true ->
  (i < 32)%nat -> (k < 8)%nat -> (j < 32)%nat -> (l < 8)%nat ->
  (i, k) <> (j, l) ->
  ProcessFIB (flip_bit fib i k) cif_index = []
  /\ ProcessFIB (flip_bit (flip_bit fib i k) j l) cif_index = [].
Proof.
  intros Hlen Bf Hv Hi Hk Hj Hl Hne.
  rewrite fib_valid_residue in Hv. apply Z.eqb_eq in Hv.
  destruct (residue_flip_bit fib i k Hlen Bf Hi Hk) as (R1 & L1 & B1).
  destruct (residue_flip_bit (flip_bit fib i k) j l L1 B1 Hj Hl)
    as (R2 & L2 & B2).
  destruct (single_bit_syndrome i k j l Hi Hk Hj Hl) as [S1 S2].
  rewrite Hv, Z.lxor_0_l in R1. rewrite R1 in R2.
  rewrite !ProcessFIB_residue by assumption. rewrite R1, R2. split.
  - destruct (Z.eqb_spec (syndrome (bit_error i k)) 0); [contradiction|].
    reflexivity.
  - destruct (Z.eqb_spec (Z.lxor (syndrome (bit_error i k))
                            (syndrome (bit_error j l))) 0) as [E|_];
      [|reflexivity].
    exfalso. exact (S2 Hne E).
Qed.

(** The FIB of the FIG 0/0 example with bit 2 of byte 0 inverted, and
    with bit 7 of its last CRC byte inverted as well. *)
Lemma fib_bit_errors_dropped_witness :
  ProcessFIB
    (flip_bit (([0x05; 0x00; 0xC0; 0x12; 0x34; 0x32; 0xFF] ++ repeat 0 23)
               ++ [0x19; 0x70]) 0 2) 0 = []
  /\ ProcessFIB
       (flip_bit
          (flip_bit (([0x05; 0x00; 0xC0; 0x12; 0x34; 0x32; 0xFF]
                      ++ repeat 0 23) ++ [0x19; 0x70]) 0 2) 31 7) 0 = [].
Proof.
  apply (fib_bit_errors_dropped
           (([0x05; 0x00; 0xC0; 0x12; 0x34; 0x32; 0xFF] ++ repeat 0 23)
            ++ [0x19; 0x70]) 0 2 31 7 0).
  - reflexivity.
  - repeat constructor; cbn; lia.
  - vm_compute. reflexivity.
  - lia.
  - lia.
  - lia.
  - lia.
  - discriminate.
Defined.

End FIBErrorsFacts.

(** ** Bit order in the FIB group *)

Module BitOrderFacts.
Import FIC.

Local Open Scope list_scope.
Local Open Scope Z_scope.

Lemma land_shiftr_1 (b j : Z) :
  0 <= j -> Z.land (Z.shiftr b j) 1 = Z.b2z (Z.testbit b j).
Proof.
  intros Hj. change 1 with (Z.ones 1). rewrite Z.land_ones by lia.
  change (2 ^ 1) with 2. rewrite <- Z.bit0_mod, Z.shiftr_spec by lia.
  reflexivity.
Qed.

Lemma length_unpack_bits (encoded_bytes : list Z) :
  List.length (unpack_bits encoded_bytes) = 2304%nat.
Proof.
  unfold unpack_bits.
  rewrite (FIGFieldsFacts.flat_map_length_const _ 8) by (intros; reflexivity).
  unfold Zseq. rewrite length_map, length_seq. reflexivity.
Qed.

Lemma rd_unpack_bits (encoded_bytes : list Z) (i j : Z) :
  0 <= i < 288 -> 0 <= j < 8 ->
  rd (unpack_bits encoded_bytes) (8 * i + j)
  = Z.b2z (Z.testbit (rd encoded_bytes i) j).
Proof.
  intros Hi Hj. unfold unpack_bits.
  set (enc := fun i => map (fun j => Z.land (Z.shiftr (rd encoded_bytes i) j) 1)
                         (Zseq 8)).
  assert (E : Zseq 288 !! Z.to_nat i = Some i).
  { unfold Zseq. rewrite list_lookup_fmap, lookup_seq_lt by lia.
    cbn. f_equal. lia. }
  pose proof (FIGFieldsFacts.ptr_entry enc 8 (Zseq 288) [] (Z.to_nat i) i
                (fun y => eq_refl) E) as Hp.
  rewrite app_nil_r in Hp.
  replace (8 * i + j) with (Z.of_nat (Z.to_nat i) * Z.of_nat 8 + j) by lia.
  rewrite <- rd_ptr by lia. fold enc. rewrite Hp.
  rewrite FIGFieldsFacts.rd_app_l by (cbn; lia).
  unfold enc. unfold rd at 1.
  rewrite nth_indep with (d' := Z.land (Z.shiftr (rd encoded_bytes i) 0) 1)
    by (cbn; lia).
  rewrite (map_nth (fun j => Z.land (Z.shiftr (rd encoded_bytes i) j) 1)).
  unfold Zseq. rewrite nth_indep with (d' := Z.of_nat 0)
    by (rewrite length_map, length_seq; lia).
  rewrite map_nth, seq_nth by lia. cbn [Nat.add].
  rewrite Z2Nat.id by lia. apply land_shiftr_1. lia.
Qed.

Section FIBGroup.

Context {ViterbiDecoder AdditiveScrambler : Type}.
Variable vitdec_Reset : ViterbiDecoder -> ViterbiDecoder.
Variable vitdec_Decode :
  ViterbiDecoder -> list Z -> Z -> list Z -> Z -> list Z -> Z -> Z -> bool ->
  ViterbiDecoder * DecodeResult * list Z.
Variable vitdec_GetPathError : ViterbiDecoder -> Z.
Variable scrambler_Reset : AdditiveScrambler -> AdditiveScrambler.
Variable scrambler_Process : AdditiveScrambler -> AdditiveScrambler * Z.
Variables PI_16 PI_15 PI_X : list Z.

(** X16: the bits that [ProcessFIBGroup] hands to the Viterbi decoder are
    the 2304 bits of the 288 received bytes, the least significant bit of
    each byte first: the first decoding call is given all of them, the second
    and the third what is left of them from the bit that the call before
    stopped at. *)
Theorem unpack_bits_lsb_first
  (p : @FIC_Processor ViterbiDecoder AdditiveScrambler)
  (encoded_bytes : list Z) (cif_index : Z) (i j : Z) :
  0 <= i < 288 -> 0 <= j < 8 ->
  exists bits e1 e2 out1 out2 out3 n2 n3 events,
    snd (ProcessFIBGroup vitdec_Reset vitdec_Decode vitdec_GetPathError
           scrambler_Reset scrambler_Process PI_16 PI_15 PI_X
           p encoded_bytes cif_index)
    = Call_vitdec_Reset
      :: Call_vitdec_Decode bits 2304 PI_16 32 out1 768 (21 * 128) false
      :: Call_vitdec_Decode (ptr bits e1) (2304 - e1) PI_15 32 out2 n2
           (3 * 128) false
      :: Call_vitdec_Decode (ptr bits e2) (2304 - e2) PI_X 24 out3 n3 24 true
      :: events
    /\ List.length bits = 2304%nat
    /\ rd bits (8 * i + j) = Z.b2z (Z.testbit (rd encoded_bytes i) j).
Proof.
  intros Hi Hj.
  pose proof (FICFacts.ProcessFIBGroup_runs vitdec_Reset vitdec_Decode
                vitdec_GetPathError scrambler_Reset scrambler_Process
                PI_16 PI_15 PI_X p encoded_bytes cif_index) as Hruns.
  cbv zeta in Hruns. rewrite Hruns. cbn [snd app].
  do 9 eexists. split; [reflexivity|].
  split; [apply length_unpack_bits | apply rd_unpack_bits; assumption].
Qed.

End FIBGroup.

(** With a decoder that takes no bit and writes none: byte 1 of the group
    is 0x80, and bit 8*1+7 of what the decoder is given is 1. *)
Lemma unpack_bits_lsb_first_witness :
  exists bits e1 e2 out1 out2 out3 n2 n3 events,
    snd (ProcessFIBGroup (fun v : unit => v)
           (fun v _ _ _ _ out _ _ _ =>
              (v, {| nb_encoded_bits := 0;
                     nb_puncture_bits := 0;
                     nb_decoded_bits := 0 |}, out))
           (fun _ => 0) (fun s : unit => s) (fun s => (s, 0xFF))
           [] [] []
           {| vitdec := tt; scrambler := tt; static_decoded_bits := [] |}
           [0x01; 0x80] 0)
    = Call_vitdec_Reset
      :: Call_vitdec_Decode bits 2304 [] 32 out1 768 (21 * 128) false
      :: Call_vitdec_Decode (ptr bits e1) (2304 - e1) [] 32 out2 n2
           (3 * 128) false
      :: Call_vitdec_Decode (ptr bits e2) (2304 - e2) [] 24 out3 n3 24 true
      :: events
    /\ List.length bits = 2304%nat
    /\ rd bits (8 * 1 + 7) = Z.b2z (Z.testbit (rd [0x01; 0x80] 1) 7).
Proof.
  apply (unpack_bits_lsb_first (fun v : unit => v)
           (fun v _ _ _ _ out _ _ _ =>
              (v, {| nb_encoded_bits := 0;
                     nb_puncture_bits := 0;
                     nb_decoded_bits := 0 |}, out))
           (fun _ => 0) (fun s : unit => s) (fun s => (s, 0xFF))
           [] [] []
           {| vitdec := tt; scrambler := tt; static_decoded_bits := [] |}
           [0x01; 0x80] 0 1 7); lia.
Defined.

(** X17: a decoded byte is packed from 8 decoded bits, first bit in the
    most significant place. *)
Theorem pack_byte_msb_first (decoded_bits : list Z) (i : Z) :
  (forall j, 0 <= j < 8 -> 0 <= rd decoded_bits (8 * i + j) <= 1) ->
  pack_byte decoded_bits i
  = 128 * rd decoded_bits (8 * i + 0) + 64 * rd decoded_bits (8 * i + 1)
    + 32 * rd decoded_bits (8 * i + 2) + 16 * rd decoded_bits (8 * i + 3)
    + 8 * rd decoded_bits (8 * i + 4) + 4 * rd decoded_bits (8 * i + 5)
    + 2 * rd decoded_bits (8 * i + 6) + rd decoded_bits (8 * i + 7).
Proof.
  intros Hbit. unfold pack_byte.
  change (Zseq 8) with [0; 1; 2; 3; 4; 5; 6; 7]. cbn [fold_left].
  assert (H : forall j, 0 <= j < 8 ->
            rd decoded_bits (8 * i + j) = 0 \/ rd decoded_bits (8 * i + j) = 1)
    by (intros j Hj; specialize (Hbit j Hj); lia).
  destruct (H 0 ltac:(lia)) as [-> | ->], (H 1 ltac:(lia)) as [-> | ->],
    (H 2 ltac:(lia)) as [-> | ->], (H 3 ltac:(lia)) as [-> | ->],
    (H 4 ltac:(lia)) as [-> | ->], (H 5 ltac:(lia)) as [-> | ->],
    (H 6 ltac:(lia)) as [-> | ->], (H 7 ltac:(lia)) as [-> | ->];
    reflexivity.
Qed.

Lemma pack_byte_msb_first_witness :
  pack_byte [1; 0; 1; 0; 0; 0; 0; 1] 0
  = 128 * 1 + 64 * 0 + 32 * 1 + 16 * 0 + 8 * 0 + 4 * 0 + 2 * 0 + 1.
Proof.
  apply (pack_byte_msb_first [1; 0; 1; 0; 0; 0; 0; 1] 0).
  intros j Hj.
  assert (E : j = 0 \/ j = 1 \/ j = 2 \/ j = 3 \/ j = 4 \/ j = 5 \/ j = 6
              \/ j = 7) by lia.
  destruct E as [->|[->|[->|[->|[->|[->|[->| ->]]]]]]];
    vm_compute; split; discriminate.
Defined.

End BitOrderFacts.

(** ** Depuncturing with too few symbols *)

Module DepunctureStarvedFacts.
Import Depuncture.

Section Update.

Variables SOFT_DECISION_VITERBI_LOW SOFT_DECISION_VITERBI_HIGH : Z.
Context {ExternalDecoder : Type}.
Variable decoder_update : ExternalDecoder -> list Z -> Z -> ExternalDecoder.

(** The loop runs out of punctured symbols: it stops at the first set
    flag for which no symbol is left, on the failed [assert] or on the
    early [return 0]. *)
Lemma update_loop_starved (assertions : bool)
  (punctured_symbols puncture_code : list Z) (n : nat) :
  puncture_code <> [] ->
  forall (i : nat) (depunctured : list Z) (k : nat) (ios : Z),
  (k <= List.length punctured_symbols)%nat ->
  (List.length punctured_symbols
   < k + count_transmitted (window_from puncture_code i n))%nat ->
  exists depunctured',
    update_loop SOFT_DECISION_VITERBI_LOW SOFT_DECISION_VITERBI_HIGH
      assertions punctured_symbols puncture_code n (Z.of_nat i) depunctured
      (Z.of_nat k) (Z.of_nat i mod Z.of_nat (List.length puncture_code)) ios
    = (if assertions then Loop_assert_failed
       else Loop_return 0 depunctured')
    /\ List.length depunctured' = List.length depunctured.
Proof.
  intros Hcode.
  assert (Hlen : 0 < Z.of_nat (List.length puncture_code)).
  { destruct puncture_code; [contradiction|cbn; lia]. }
  induction n as [|n IH]; intros i depunctured k ios Hk Hshort.
  - unfold window_from, count_transmitted in Hshort. cbn in Hshort. lia.
  - cbn [update_loop].
    assert (Hnext : (Z.of_nat i mod Z.of_nat (List.length puncture_code) + 1)
                      mod Z.of_nat (List.length puncture_code)
                    = Z.of_nat (S i) mod Z.of_nat (List.length puncture_code)).
    { rewrite Z.add_mod_idemp_l by lia. f_equal. lia. }
    rewrite Hnext.
    replace (Z.of_nat i + 1) with (Z.of_nat (S i)) by lia.
    unfold window_from in *. cbn [seq map] in Hshort.
    destruct (truthy (rd puncture_code
                (Z.of_nat i mod Z.of_nat (List.length puncture_code)))).
    + unfold count_transmitted in *. cbn [List.filter List.length] in Hshort.
      destruct (Z.ltb_spec (Z.of_nat k)
                  (Z.of_nat (List.length punctured_symbols))) as [Hlt|Hge].
      * rewrite andb_false_r.
        destruct (Z.geb_spec (Z.of_nat k)
                    (Z.of_nat (List.length punctured_symbols))); [lia|].
        replace (Z.of_nat k + 1) with (Z.of_nat (S k)) by lia.
        destruct (IH (S i) (<[Z.to_nat (Z.of_nat i) :=
                               to_int16 (rd punctured_symbols (Z.of_nat k))]>
                             depunctured) (S k) (ios + 1))
          as (dep' & E & L); [lia|lia|].
        exists dep'. split; [exact E|]. rewrite L. apply length_insert.
      * rewrite andb_true_r.
        destruct (Z.geb_spec (Z.of_nat k)
                    (Z.of_nat (List.length punctured_symbols))); [|lia].
        exists depunctured. split; [|reflexivity].
        destruct assertions; reflexivity.
    + unfold count_transmitted in *. cbn [List.filter] in Hshort.
      destruct (IH (S i) (<[Z.to_nat (Z.of_nat i) :=
                             soft_decision_unpunctured
                               SOFT_DECISION_VITERBI_LOW
                               SOFT_DECISION_VITERBI_HIGH]> depunctured)
                  k (ios + 1)) as (dep' & E & L); [lia|lia|].
      exists dep'. split; [exact E|]. rewrite L. apply length_insert.
Qed.

(** X18: when the buffer of punctured symbols holds fewer symbols than
    the puncture code flags over the requested output positions, [update]
    never feeds the decoder: built with [assert] it stops on a failed
    assertion, built without it returns 0, the decoder untouched; the
    scratch vector has grown to the requested size at most. *)
Theorem update_starved (assertions : bool)
  (d : @DAB_Viterbi_Decoder ExternalDecoder)
  (punctured_symbols puncture_code : list Z) (requested_output_symbols : Z) :
  0 <= requested_output_symbols ->
  puncture_code <> [] ->
  (List.length punctured_symbols
   < count_transmitted
       (puncture_window puncture_code (Z.to_nat requested_output_symbols)))%nat ->
  match
    update SOFT_DECISION_VITERBI_LOW SOFT_DECISION_VITERBI_HIGH decoder_update
      assertions d punctured_symbols puncture_code requested_output_symbols
  with
  | Assert_failed => assertions = true
  | Return ret d' =>
    assertions = false /\ ret = 0 /\ decoder d' = decoder d
    /\ List.length (depunctured_symbols d')
       = Nat.max (List.length (depunctured_symbols d))
                 (Z.to_nat requested_output_symbols)
  end.
Proof.
  intros Hreq Hcode Hshort. unfold update.
  destruct (assertions && negb (requested_output_symbols mod code_rate =? 0))
    eqn:Ea.
  { apply andb_prop in Ea. apply Ea. }
  set (depunctured :=
         if requested_output_symbols
            >? Z.of_nat (List.length (depunctured_symbols d))
         then resize (Z.to_nat requested_output_symbols) 0
                (depunctured_symbols d)
         else depunctured_symbols d).
  assert (Hdep : List.length depunctured
                 = Nat.max (List.length (depunctured_symbols d))
                           (Z.to_nat requested_output_symbols)).
  { unfold depunctured.
    destruct (Z.gtb_spec requested_output_symbols
                (Z.of_nat (List.length (depunctured_symbols d)))).
    - rewrite length_resize. lia.
    - lia. }
  destruct (update_loop_starved assertions punctured_symbols puncture_code
              (Z.to_nat requested_output_symbols) Hcode 0%nat depunctured
              0%nat 0) as (dep' & E & L); [lia|exact Hshort|].
  change (Z.of_nat 0) with 0 in E. rewrite Z.mod_0_l in E
    by (destruct puncture_code; [contradiction|cbn; lia]).
  rewrite E. destruct assertions; [reflexivity|].
  cbn [decoder depunctured_symbols]. repeat split. rewrite L. exact Hdep.
Qed.

End Update.

(** The puncture code 1,1,0,0 over 8 output symbols needs 4 symbols; 3
    are given. *)
Lemma update_starved_witness :
  match
    update (-127) 127 (fun (_ : unit) _ _ => tt) false
      {| depunctured_symbols := []; decoder := tt |}
      [10; -20; 30] [1; 1; 0; 0] 8
  with
  | Assert_failed => false = true
  | Return ret d' =>
    false = false /\ ret = 0 /\ decoder d' = tt
    /\ List.length (depunctured_symbols d') = Nat.max 0 8
  end.
Proof.
  apply (update_starved (-127) 127 (fun (_ : unit) _ _ => tt) false
           {| depunctured_symbols := []; decoder := tt |}
           [10; -20; 30] [1; 1; 0; 0] 8);
    [lia | discriminate | vm_compute; lia].
Defined.

End DepunctureStarvedFacts.

(** ** Decoder configuration *)

Module ViterbiConfigFacts.
Import ViterbiConfig.

(** X19: as long as 20 times the soft decision range fits 16 bits, the
    configuration holds the maximum error of a branch, 4 times the range,
    starts every state but the start state 5 maximum errors behind, and
    sets the renormalisation threshold exactly that margin below 65535,
    none of the [uint16_t] products wrapping. *)
Theorem create_decoder_config_margins (low high : Z) :
  -32768 <= low <= high -> high <= 32767 -> 20 * (high - low) <= 65535 ->
  let config := create_decoder_config low high in
  soft_decision_max_error config = 4 * (high - low)
  /\ initial_start_error config = 0
  /\ initial_non_start_error config = 5 * soft_decision_max_error config
  /\ renormalisation_threshold config + initial_non_start_error config
     = 65535.
Proof.
  intros Hlow Hhigh Hfit config. unfold config, create_decoder_config.
  cbn [soft_decision_max_error initial_start_error initial_non_start_error
       renormalisation_threshold].
  unfold to_int16, uint16, Depuncture.code_rate.
  rewrite (Z.mod_small (low + 32768)), (Z.mod_small (high + 32768)) by lia.
  rewrite (Z.mod_small 4), (Z.mod_small 5) by lia.
  replace (high + 32768 - 32768 - (low + 32768 - 32768)) with (high - low)
    by lia.
  rewrite (Z.mod_small (high - low)) by lia.
  rewrite (Z.mod_small ((high - low) * 4)) by lia.
  rewrite (Z.mod_small ((high - low) * 4 * 5)) by lia.
  rewrite Z.add_0_l.
  rewrite (Z.mod_small ((high - low) * 4 * 5)) by lia.
  rewrite (Z.mod_small (65535 - _)) by lia.
  lia.
Qed.

Lemma create_decoder_config_margins_witness :
  let config := create_decoder_config (-127) 127 in
  soft_decision_max_error config = 4 * (127 - -127)
  /\ initial_start_error config = 0
  /\ initial_non_start_error config = 5 * soft_decision_max_error config
  /\ renormalisation_threshold config + initial_non_start_error config
     = 65535.
Proof.
  apply (create_decoder_config_margins (-127) 127); lia.
Defined.

End ViterbiConfigFacts.

(** ** Texture keys *)

Module ViewKeysFacts.
Import ViewKeys.

(** X20: the key of a texture holds the subchannel and the transport
    identifier side by side: both are read back from it, so two slides get
    the same key only when they agree in both; for a 16 bit transport
    identifier and a subchannel identifier below 2^15 (a left shift of such
    an [int] by 16 does not overflow). *)
Theorem GetKey_injective (s1 t1 s2 t2 : Z) :
  0 <= s1 < 32768 -> 0 <= t1 < 65536 ->
  0 <= s2 < 32768 -> 0 <= t2 < 65536 ->
  Z.shiftr (GetKey s1 t1) 16 = s1 /\ Z.land (GetKey s1 t1) 0xFFFF = t1
  /\ (GetKey s1 t1 = GetKey s2 t2 -> s1 = s2 /\ t1 = t2).
Proof.
  intros Hs1 Ht1 Hs2 Ht2.
  assert (K : forall s t, 0 <= s < 32768 -> 0 <= t < 65536 ->
                GetKey s t = s * 65536 + t).
  { intros s t Hs Ht. unfold GetKey.
    rewrite Z.shiftl_mul_pow2 by lia.
    rewrite (FIGFieldsFacts.lor_shl 16) by (change (2 ^ 16) with 65536; lia).
    change (2 ^ 16) with 65536. change (2 ^ 32) with 4294967296.
    apply Z.mod_small. lia. }
  rewrite !K by assumption.
  rewrite Z.shiftr_div_pow2 by lia. change 0xFFFF with (Z.ones 16).
  rewrite Z.land_ones by lia. change (2 ^ 16) with 65536.
  repeat split;
    try (intros E); Z.to_euclidean_division_equations; lia.
Qed.

Lemma GetKey_injective_witness :
  Z.shiftr (GetKey 5 0x1234) 16 = 5 /\ Z.land (GetKey 5 0x1234) 0xFFFF = 0x1234
  /\ (GetKey 5 0x1234 = GetKey 5 0x1234 -> 5 = 5 /\ 0x1234 = 0x1234).
Proof.
  apply (GetKey_injective 5 0x1234 5 0x1234); lia.
Defined.

End ViewKeysFacts.

(** ** Audio decoding in the channel *)

Module ChannelAudioFacts.
Import Channel.

Local Open Scope list_scope.
Local Open Scope Z_scope.

Lemma Params_eqb_eq (a b : Params) : Params_eqb a b = true -> a = b.
Proof.
  destruct a, b. unfold Params_eqb. cbn. intros H.
  repeat (apply andb_prop in H; destruct H as [H ?]).
  apply Z.eqb_eq in H.
  repeat match goal with
         | E : Bool.eqb _ _ = true |- _ => apply eqb_prop in E
         end.
  subst. reflexivity.
Qed.

Section Listeners.

Context {AAC_Audio_Decoder AAC_Data_Decoder : Type}.
Variable AAC_Audio_Decoder_new : Params -> AAC_Audio_Decoder.
Variable GetParams : AAC_Audio_Decoder -> Params.
Variable DecodeFrame :
  AAC_Audio_Decoder -> list Z -> AAC_Audio_Decoder * DecodeFrameResult.
Variable ProcessAccessUnit : AAC_Data_Decoder -> list Z -> AAC_Data_Decoder.

Abbreviation Channel :=
  (@Basic_DAB_Plus_Channel AAC_Audio_Decoder AAC_Data_Decoder).
Abbreviation Notify' :=
  (Notify AAC_Audio_Decoder_new GetParams DecodeFrame ProcessAccessUnit).
Abbreviation run' :=
  (run AAC_Audio_Decoder_new GetParams DecodeFrame ProcessAccessUnit).

Lemma run_app (c : Channel) (l1 l2 : list FrameEvent) :
  run' c (l1 ++ l2)
  = let '(c1, out1) := run' c l1 in
    let '(c2, out2) := run' c1 l2 in
    (c2, out1 ++ out2).
Proof.
  revert c. induction l1 as [|e l1 IH]; intros c; cbn [app run].
  - destruct (run' c l2). reflexivity.
  - destruct (Notify' c e) as [c1 out]. rewrite IH.
    destruct (run' c1 l1) as [c2 out2]. destruct (run' c2 l2) as [c3 out3].
    rewrite app_assoc. reflexivity.
Qed.

(** *** Audio decoding switched off *)

Lemma Notify_audio_off (c : Channel) (e : FrameEvent) :
  Controls.GetIsDecodeAudio (m_controls c) = false ->
  snd (Notify' c e) = []
  /\ m_controls (fst (Notify' c e)) = m_controls c
  /\ m_is_codec_error (fst (Notify' c e)) = m_is_codec_error c.
Proof.
  intros Hoff. destruct e as [header|au_index nb_aus buf| | |];
    try (cbn; auto; fail).
  cbn [Notify]. unfold on_access_unit_audio. rewrite Hoff. cbn [negb].
  unfold on_access_unit_data, on_access_unit_reset.
  destruct (negb _), (au_index =? 0); cbn; auto.
Qed.

(** X21: with audio decoding switched off, whatever events the frame
    processor fires, no audio reaches the observers, no decoder error is
    logged, and the codec error flag and the controls stay as they
    were. *)
Theorem audio_off_is_silent (c : Channel) (events : list FrameEvent) :
  Controls.GetIsDecodeAudio (m_controls c) = false ->
  snd (run' c events) = []
  /\ m_controls (fst (run' c events)) = m_controls c
  /\ m_is_codec_error (fst (run' c events)) = m_is_codec_error c.
Proof.
  revert c. induction events as [|e events IH]; intros c Hoff; [cbn; auto|].
  cbn [run]. destruct (Notify_audio_off c e Hoff) as (Ho & Hc & He).
  destruct (Notify' c e) as [c1 out]. cbn [fst snd] in *. subst out.
  assert (Hoff1 : Controls.GetIsDecodeAudio (m_controls c1) = false)
    by (rewrite Hc; exact Hoff).
  destruct (IH c1 Hoff1) as (Ho' & Hc' & He').
  destruct (run' c1 events) as [c2 out2]. cbn [fst snd] in *.
  subst out2. rewrite Hc', He', Hc, He. auto.
Qed.

(** *** The audio decoder follows the superframe header *)

Hypothesis GetParams_new :
  forall p, GetParams (AAC_Audio_Decoder_new p) = p.
Hypothesis GetParams_DecodeFrame :
  forall d buf, GetParams (fst (DecodeFrame d buf)) = GetParams d.

Abbreviation params_of h :=
  {| sampling_frequency := sampling_rate h;
     is_PS := PS_flag h;
     is_SBR := SBR_flag h;
     params_is_stereo := is_stereo h |}.

Abbreviation follows h c :=
  ((exists d, m_aac_audio_decoder c = Some d /\ GetParams d = params_of h)
   /\ m_super_frame_header c = h).

Abbreviation announced h :=
  (fun o : Output =>
     match o with
     | Notify_audio_data p _ =>
       p = {| frequency := sampling_rate h; audio_is_stereo := true;
              bytes_per_sample := 2 |}
     | LOG_ERROR _ _ => True
     end).

Lemma Notify_header_follows (c : Channel) (h : SuperFrameHeader) :
  follows h (fst (Notify' c (OnSuperFrameHeader h))).
Proof.
  cbn. split; [|reflexivity].
  destruct (m_aac_audio_decoder c) as [d|].
  - destruct (Params_eqb (GetParams d) (params_of h)) eqn:E; cbn [negb].
    + exists d. split; [reflexivity|]. apply Params_eqb_eq, E.
    + eexists. split; [reflexivity|]. apply GetParams_new.
  - eexists. split; [reflexivity|]. apply GetParams_new.
Qed.

Lemma Notify_follows (c : Channel) (h : SuperFrameHeader) (e : FrameEvent) :
  is_header e = false -> follows h c ->
  follows h (fst (Notify' c e)) /\ Forall (announced h) (snd (Notify' c e)).
Proof.
  intros He [(d & Hd & Hp) Hh].
  destruct e as [header|au_index nb_aus buf| | |]; try discriminate;
    try (cbn; split; [split; [exists d; auto|exact Hh]|constructor]; fail).
  cbn [Notify]. unfold on_access_unit_audio. rewrite Hd.
  pose proof (GetParams_DecodeFrame d buf) as Hdec.
  destruct (negb (Controls.GetIsDecodeAudio (m_controls c))).
  - unfold on_access_unit_data, on_access_unit_reset.
    destruct (negb _), (au_index =? 0); cbn;
      (split; [split; [exists d; auto|exact Hh]|constructor]).
  - destruct (DecodeFrame d buf) as [d' res]. cbn [fst] in Hdec.
    unfold on_access_unit_data, on_access_unit_reset.
    destruct (is_error res), (negb _), (au_index =? 0); cbn;
      (split; [split; [exists d'; split; [reflexivity|congruence]|exact Hh]|]);
      repeat constructor.
    all: rewrite Hdec, Hp; reflexivity.
Qed.

Lemma run_follows (c : Channel) (h : SuperFrameHeader)
  (events : list FrameEvent) :
  forallb (fun e => negb (is_header e)) events = true -> follows h c ->
  follows h (fst (run' c events)) /\ Forall (announced h) (snd (run' c events)).
Proof.
  revert c. induction events as [|e events IH]; intros c Hev Hc.
  - cbn. split; [exact Hc|constructor].
  - cbn [forallb] in Hev. apply andb_prop in Hev. destruct Hev as [He Hev].
    apply negb_true_iff in He.
    destruct (Notify_follows c h e He Hc) as [Hc1 Ho1].
    cbn [run]. destruct (Notify' c e) as [c1 out1]. cbn [fst snd] in *.
    destruct (IH c1 Hev Hc1) as [Hc2 Ho2].
    destruct (run' c1 events) as [c2 out2]. cbn [fst snd] in *.
    split; [exact Hc2|]. apply Forall_app. auto.
Qed.

(** X22: from a superframe header to the next one, whatever came before
    and whatever access units and errors follow, the channel holds an
    audio decoder with the parameters of that header, and all audio handed
    to the observers is announced as stereo, 2 bytes per sample, at the
    sampling rate of that header; given a decoder library that reports
    the parameters it was created with, also after decoding a frame. *)
Theorem audio_follows_header
  (c : Channel) (before : list FrameEvent) (h : SuperFrameHeader)
  (after : list FrameEvent) :
  forallb (fun e => negb (is_header e)) after = true ->
  let c1 := fst (run' c (before ++ [OnSuperFrameHeader h])) in
  let c2 := fst (run' c1 after) in
  (exists d, m_aac_audio_decoder c2 = Some d
             /\ GetParams d
                = {| sampling_frequency := sampling_rate h;
                     is_PS := PS_flag h;
                     is_SBR := SBR_flag h;
                     params_is_stereo := is_stereo h |})
  /\ m_super_frame_header c2 = h
  /\ Forall (fun o =>
       match o with
       | Notify_audio_data p _ =>
         p = {| frequency := sampling_rate h; audio_is_stereo := true;
                bytes_per_sample := 2 |}
       | LOG_ERROR _ _ => True
       end) (snd (run' c1 after)).
Proof.
  intros Hafter c1 c2.
  assert (H1 : follows h c1).
  { unfold c1. rewrite run_app. destruct (run' c before) as [c0 out0].
    cbn [run]. pose proof (Notify_header_follows c0 h) as H.
    destruct (Notify' c0 (OnSuperFrameHeader h)) as [c' out']. exact H. }
  destruct (run_follows c1 h after Hafter H1) as [[Hd Hh] Ho].
  split; [exact Hd|]. split; [exact Hh|exact Ho].
Qed.

End Listeners.

(** A decoder that is its parameters; a header at 48 kHz after one at
    32 kHz, then two access units. *)
Lemma audio_off_is_silent_witness :
  snd (run (fun _ => tt) (fun _ => no_params)
         (fun d _ => (d, {| is_error := false; error_code := 0;
                            audio_buf := [] |}))
         (fun d _ => d) idle_channel
         [OnSuperFrameHeader
            {| sampling_rate := 48000; PS_flag := false; SBR_flag := true;
               is_stereo := true |};
          OnAccessUnit 0 2 [1; 2]; OnAccessUnit 1 2 [3; 4]]) = [].
Proof.
  apply (audio_off_is_silent (fun _ => tt) (fun _ => no_params)
           (fun d _ => (d, {| is_error := false; error_code := 0;
                              audio_buf := [] |}))
           (fun d _ => d) idle_channel
           [OnSuperFrameHeader
              {| sampling_rate := 48000; PS_flag := false; SBR_flag := true;
                 is_stereo := true |};
            OnAccessUnit 0 2 [1; 2]; OnAccessUnit 1 2 [3; 4]]).
  reflexivity.
Defined.

Lemma audio_follows_header_witness :
  let audio_channel : @Basic_DAB_Plus_Channel Params unit :=
    {| m_controls := {| Controls.flags := 0xE0 |};
       m_super_frame_header :=
         {| sampling_rate := 0; PS_flag := false; SBR_flag := false;
            is_stereo := false |};
       m_aac_audio_decoder := None;
       m_aac_data_decoder := tt;
       m_is_codec_error := false;
       m_is_firecode_error := false;
       m_is_rs_error := false;
       m_is_au_error := false |} in
  let h := {| sampling_rate := 48000; PS_flag := false; SBR_flag := true;
              is_stereo := true |} in
  let run'' :=
    run (fun p : Params => p) (fun d => d)
        (fun d buf => (d, {| is_error := false; error_code := 0;
                             audio_buf := buf |}))
        (fun (d : unit) _ => d) in
  let c1 :=
    fst (run'' audio_channel
           ([OnSuperFrameHeader
               {| sampling_rate := 32000; PS_flag := false;
                  SBR_flag := false; is_stereo := false |}]
            ++ [OnSuperFrameHeader h])) in
  m_super_frame_header
    (fst (run'' c1 [OnAccessUnit 0 2 [1; 2]; OnAccessUnit 1 2 [3; 4]])) = h.
Proof.
  intros audio_channel h run'' c1.
  apply (audio_follows_header (fun p : Params => p) (fun d => d)
           (fun d buf => (d, {| is_error := false; error_code := 0;
                                audio_buf := buf |}))
           (fun (d : unit) _ => d)
           (fun p => eq_refl) (fun d buf => eq_refl)
           audio_channel
           [OnSuperFrameHeader
              {| sampling_rate := 32000; PS_flag := false;
                 SBR_flag := false; is_stereo := false |}]
           h [OnAccessUnit 0 2 [1; 2]; OnAccessUnit 1 2 [3; 4]]).
  reflexivity.
Defined.

End ChannelAudioFacts.

(** ** Services and their components: FIG 0/2 and FIG 0/8 *)

Module FIGServicesFacts.
Import FIC FIGFields FIGServices FIGFieldsFacts.

Local Open Scope string_scope.
Local Open Scope list_scope.
Local Open Scope Z_scope.

Lemma field_02_1 b : 0 <= b < 256 -> field b 0x02 1 = (b / 2) mod 2.
Proof. revert b. byte_fact. Qed.

Lemma field_0F_0 b : 0 <= b < 256 -> field b 0x0F 0 = b mod 16.
Proof. revert b. byte_fact. Qed.

Lemma low6_shl6 b :
  0 <= b < 256 -> Z.shiftl (uint16 (Z.land b 0x3F)) 6 = (b mod 64) * 64.
Proof. revert b. byte_fact. Qed.

Lemma lor_shl6 (h b : Z) : 0 <= b < 64 -> Z.lor (h * 64) b = h * 64 + b.
Proof. intros Hb. apply (lor_shl 6); lia. Qed.

(** The identifier of a service is read back as packed, in either form. *)
Lemma ServiceIdentifier_decode (long : bool) (sid : ServiceIdentifier)
  (tail : list Z) :
  ServiceIdentifier_ok long sid ->
  List.length (encode_ServiceIdentifier long sid)
  = (if long then 4 else 2)%nat
  /\ (if negb long
      then ProcessShortForm (encode_ServiceIdentifier long sid ++ tail)
      else ProcessLongForm (encode_ServiceIdentifier long sid ++ tail))
     = sid.
Proof.
  destruct sid as [country reference code]. unfold ServiceIdentifier_ok.
  cbn [sid_country_id service_reference ecc].
  intros [Hc Hr]. destruct long; cbn [negb encode_ServiceIdentifier
    sid_country_id service_reference ecc]; (split; [reflexivity|]).
  - destruct Hr as [Hr He].
    unfold ProcessLongForm. cbn [app]. rd_list.
    assert (H1 : 0 <= country * 16 + reference / 65536 < 256) by euclid.
    assert (H2 : 0 <= (reference / 256) mod 256 < 256) by euclid.
    assert (H3 : 0 <= reference mod 256 < 256) by euclid.
    rewrite field_FF_0, field_F0_4, low4_shl16, !land_FF by assumption.
    rewrite Z.shiftl_0_r, Z.shiftl_mul_pow2 by lia.
    set (A := (country * 16 + reference / 65536) mod 16).
    set (B := (reference / 256) mod 256) in *.
    change 65536 with (2 ^ 16).
    rewrite (lor_shl 16)
      by (change (2 ^ 8) with 256; change (2 ^ 16) with 65536; lia).
    replace (A * 2 ^ 16 + B * 2 ^ 8) with ((A * 256 + B) * 2 ^ 8) by lia.
    rewrite (lor_shl 8) by (change (2 ^ 8) with 256; lia).
    subst A B.
    f_equal; change (2 ^ 8) with 256; change (2 ^ 16) with 65536; euclid.
  - destruct Hr as [Hr ->].
    unfold ProcessShortForm. cbn [app]. rd_list.
    assert (H0 : 0 <= country * 16 + reference / 256 < 256) by euclid.
    assert (H1 : 0 <= reference mod 256 < 256) by euclid.
    rewrite field_F0_4, low4_shl8, field_FF_0 by assumption.
    rewrite lor_shl8 by lia.
    f_equal; euclid.
Qed.

(** *** FIG 0/2 *)

Lemma length_encode_Component c : List.length (encode_Component c) = 2%nat.
Proof. destruct c; reflexivity. Qed.

(** The loop over the components of one service reports each of them,
    and does not leave the handler. *)
Lemma ProcessFIG_Type_0_Ext_2_components_reports
  (header : FIG_Header_Type_0) (sid : ServiceIdentifier)
  (cif_index curr_service n : Z) (comps : list Component) (rest : list Z)
  (indices : list nat) :
  Forall Component_ok comps ->
  Forall (fun i => (i < List.length comps)%nat) indices ->
  ProcessFIG_Type_0_Ext_2_components header sid cif_index curr_service n
    (flat_map encode_Component comps ++ rest) (map Z.of_nat indices)
  = (omap (fun i =>
       c ← comps !! i;
       Some (report_Component header sid cif_index curr_service
               (Z.of_nat i) n c)) indices,
     false).
Proof.
  intros Hok. induction indices as [|i indices IH]; intros Hi;
    [reflexivity|].
  inversion Hi as [|? ? Hlt Hrest]; subst.
  destruct (lookup_lt_is_Some_2 comps i Hlt) as [c E].
  cbn [map omap list_omap]. rewrite E. cbn [mbind option_bind].
  cbn [ProcessFIG_Type_0_Ext_2_components]. cbv zeta.
  rewrite (IH Hrest). clear IH.
  change (Z.of_nat i * 2) with (Z.of_nat i * Z.of_nat 2).
  rewrite (ptr_entry encode_Component 2 comps rest i c
             length_encode_Component E).
  pose proof (Forall_lookup_1 _ _ _ _ Hok E) as Hc.
  destruct c as [ty sub ps ca | ty sub ps ca | scid ps ca];
    cbn [Component_ok encode_Component report_Component app] in *; rd_list.
  - destruct Hc as (Hty & Hsub & Hps & Hca).
    assert (H1 : 0 <= sub * 4 + ps * 2 + ca < 256) by lia.
    rewrite field_C0_6, field_3F_0, field_FC_2, field_02_1, field_01_0
      by lia.
    replace (ty / 64) with 0 by euclid. cbv iota beta.
    repeat f_equal; euclid.
  - destruct Hc as (Hty & Hsub & Hps & Hca).
    assert (H1 : 0 <= sub * 4 + ps * 2 + ca < 256) by lia.
    rewrite field_C0_6, field_3F_0, field_FC_2, field_02_1, field_01_0
      by lia.
    replace ((64 + ty) / 64) with 1 by euclid. cbv iota beta.
    repeat f_equal; euclid.
  - destruct Hc as (Hscid & Hps & Hca).
    assert (H0 : 0 <= 192 + scid / 64 < 256) by euclid.
    assert (H1 : 0 <= scid mod 64 * 4 + ps * 2 + ca < 256) by euclid.
    rewrite field_C0_6, low6_shl6, field_FC_2, field_02_1, field_01_0
      by lia.
    replace ((192 + scid / 64) / 64) with 3 by euclid. cbv iota beta.
    rewrite lor_shl6 by euclid.
    repeat f_equal; euclid.
Qed.

Lemma omap_seq_imap {A B : Type} (l : list A) (g : nat -> A -> B) :
  omap (fun i => x ← l !! i; Some (g i x)) (seq 0 (List.length l))
  = imap g l.
Proof.
  revert g. induction l as [|x l IH]; intros g; [reflexivity|].
  cbn [List.length seq omap list_omap lookup list_lookup mbind option_bind imap].
  f_equal. rewrite <- seq_shift.
  rewrite <- (IH (g ∘ S)). clear IH.
  generalize (seq 0 (List.length l)) as s. intros s.
  induction s as [|i s IHs]; [reflexivity|].
  cbn [map omap list_omap]. cbn [lookup list_lookup]. rewrite IHs. reflexivity.
Qed.

Lemma length_encode_Service (long : bool) (s : Service) :
  ServiceIdentifier_ok long (svc_id s) ->
  Z.of_nat (List.length (encode_Service long s))
  = 2 * Z.of_nat (List.length (svc_components s))
    + ((if long then 4 else 2) + 1).
Proof.
  intros Hid. unfold encode_Service.
  destruct (ServiceIdentifier_decode long (svc_id s) [] Hid) as [L _].
  rewrite !length_app, L,
    (flat_map_length_const encode_Component 2 _ length_encode_Component).
  cbn [List.length]. destruct long; lia.
Qed.

Lemma ProcessFIG_Type_0_Ext_2_loop_services
  (header : FIG_Header_Type_0) (services : list Service)
  (pre rest : list Z) (cif_index k : Z) :
  let long := truthy (pd header) in
  Forall (Service_ok long) services ->
  let N := Z.of_nat (List.length pre
                     + List.length (flat_map (encode_Service long) services)) in
  ProcessFIG_Type_0_Ext_2_loop header
    (pre ++ flat_map (encode_Service long) services ++ rest) N cif_index
    (Z.of_nat (List.length pre)) k
  = concat (imap (fun j s =>
              report_Service header cif_index (k + Z.of_nat j) s) services).
Proof.
  intros long. revert pre k.
  induction services as [|s services IH]; intros pre k Hok N.
  - rewrite ProcessFIG_Type_0_Ext_2_loop_equation_1.
    unfold ProcessFIG_Type_0_Ext_2_loop_unfold_clause_1.
    destruct (Z_lt_dec _ _) as [Hlt|_]; [|reflexivity].
    exfalso. unfold N in Hlt. cbn in Hlt. lia.
  - inversion Hok as [|? ? Hs Hsvcs]; subst.
    destruct Hs as (Hid & Hrfa & Hcaid & Hn & Hcomps).
    pose proof (length_encode_Service long s Hid) as Hlen.
    assert (HN' : N = Z.of_nat (List.length (pre ++ encode_Service long s)
                    + List.length (flat_map (encode_Service long) services))).
    { unfold N. cbn [flat_map]. rewrite !length_app. lia. }
    specialize (IH (pre ++ encode_Service long s) (k + 1) Hsvcs).
    cbv zeta in IH. rewrite <- HN' in IH.
    cbn [flat_map] in *. rewrite <- !app_assoc in IH.
    rewrite <- app_assoc.
    assert (Hfit : Z.of_nat (List.length (encode_Service long s))
                   <= N - Z.of_nat (List.length pre)).
    { unfold N. cbn [flat_map]. rewrite length_app. lia. }
    rewrite ProcessFIG_Type_0_Ext_2_loop_equation_1.
    unfold ProcessFIG_Type_0_Ext_2_loop_unfold_clause_1.
    destruct (Z_lt_dec _ _) as [_|Hge];
      [|exfalso; destruct long; lia].
    cbv zeta. rewrite ptr_app_length. fold long.
    destruct (Z.gtb_spec ((if long then 4 else 2) + 1)
                (N - Z.of_nat (List.length pre))) as [?|_];
      [destruct long; lia|].
    set (n := Z.of_nat (List.length (svc_components s))) in *.
    set (d := svc_rfa s * 128 + svc_caid s * 16 + n) in *.
    assert (Hd : 0 <= d < 256 /\ d mod 16 = n) by (unfold d, n; split; euclid).
    destruct Hd as [Hd Hdn].
    set (tail := flat_map (encode_Service long) services ++ rest) in *.
    set (comps := flat_map encode_Component (svc_components s)).
    set (eid := encode_ServiceIdentifier long (svc_id s)).
    assert (Henc : encode_Service long s = eid ++ d :: comps)
      by reflexivity.
    rewrite Henc, <- !app_assoc. cbn [app].
    destruct (ServiceIdentifier_decode long (svc_id s) (d :: comps ++ tail)
                Hid) as [Lid Did].
    fold eid in Lid, Did. rewrite Did.
    replace (if long then 4 else 2) with (Z.of_nat (List.length eid))
      by (rewrite Lid; destruct long; reflexivity).
    rewrite rd_app_length, rd_0, field_0F_0, Hdn by exact Hd.
    replace (eid ++ d :: comps ++ tail) with ((eid ++ [d]) ++ comps ++ tail)
      by (rewrite <- app_assoc; reflexivity).
    replace (Z.of_nat (List.length eid) + 1)
      with (Z.of_nat (List.length (eid ++ [d])))
      by (rewrite length_app; cbn [List.length]; lia).
    rewrite ptr_app_length.
    assert (Hlen' : 2 * n + Z.of_nat (List.length (eid ++ [d]))
                    = Z.of_nat (List.length (encode_Service long s))).
    { rewrite Hlen, length_app, Lid. cbn [List.length]. destruct long; lia. }
    rewrite Hlen'.
    destruct (Z.gtb_spec (Z.of_nat (List.length (encode_Service long s)))
                (N - Z.of_nat (List.length pre))) as [Hgt|_]; [lia|].
    replace (Z.to_nat n) with (List.length (svc_components s))
      by (unfold n; lia).
    unfold Zseq, comps.
    rewrite (ProcessFIG_Type_0_Ext_2_components_reports header (svc_id s)
               cif_index k n (svc_components s) tail
               (seq 0 (List.length (svc_components s))) Hcomps)
      by (apply List.Forall_forall; intros i Hi; apply in_seq in Hi; lia).
    cbn [fst snd].
    rewrite (omap_seq_imap (svc_components s)
               (fun i c => report_Component header (svc_id s) cif_index k
                             (Z.of_nat i) n c)).
    replace (Z.of_nat (List.length pre)
             + Z.of_nat (List.length (encode_Service long s)))
      with (Z.of_nat (List.length (pre ++ encode_Service long s)))
      by (rewrite length_app; lia).
    fold comps.
    replace (pre ++ (eid ++ [d]) ++ comps ++ tail)
      with (pre ++ encode_Service long s ++ tail)
      by (rewrite Henc, <- !app_assoc; reflexivity).
    rewrite IH. cbn [imap concat]. f_equal.
    + unfold report_Service. fold n. change (Z.of_nat 0) with 0.
      rewrite Z.add_0_r. reflexivity.
    + f_equal. apply imap_ext. intros j x _. cbn [compose].
      replace (k + 1 + Z.of_nat j) with (k + Z.of_nat (S j)) by lia.
      reflexivity.
Qed.

(** X23: FIG 0/2 reports, service by service and component by component,
    what the field holds: for each component the identifier of its
    service, in the 2 byte form or with P/D set in the 4 byte form, and
    the fields of the component by its transport mode (stream audio, stream
    data, packet data); and it reads none of the bytes behind the
    field. *)
Theorem fig_0_2_round_trip
  (header : FIG_Header_Type_0) (services : list Service) (rest : list Z)
  (cif_index : Z) :
  let long := truthy (pd header) in
  Forall (Service_ok long) services ->
  (List.length (flat_map (encode_Service long) services) <= 255)%nat ->
  ProcessFIG_Type_0_Ext_2 header
    (flat_map (encode_Service long) services ++ rest)
    (Z.of_nat (List.length (flat_map (encode_Service long) services)))
    cif_index
  = concat (imap (fun k s => report_Service header cif_index (Z.of_nat k) s)
              services).
Proof.
  intros long Hok Hlen. unfold ProcessFIG_Type_0_Ext_2.
  pose proof (ProcessFIG_Type_0_Ext_2_loop_services header services [] rest
                cif_index 0 Hok) as H.
  cbn [List.length Nat.add app] in H. exact H.
Qed.

Lemma fig_0_2_round_trip_witness :
  ProcessFIG_Type_0_Ext_2 {| cn := 0; oe := 0; pd := 0 |}
    (flat_map (encode_Service false)
       [{| svc_id := {| sid_country_id := 0xC; service_reference := 0x221;
                        ecc := 0 |};
           svc_rfa := 0; svc_caid := 0;
           svc_components := [Stream_audio 63 5 1 0; Packet_data 0xABC 0 0] |}]
     ++ [0xFF]) 7 3
  = [LOG_MESSAGE
       "[%d] fig 0/2 pd=%u country_id=%-2u service_ref=%-4u ecc=%u i=%d-%d/%d tmid=%u ASTCy=%u subchannel_id=%-2u ps=%u ca=%u\n"
       [3; 0; 0xC; 0x221; 0; 0; 0; 2; 0; 63; 5; 1; 0];
     LOG_MESSAGE
       "[%d] fig 0/2 pd=%u country_id=%-2u service_ref=%-4u ecc=%u i=%d-%d/%d tmid=%u scid=%u ps=%u ca=%u\n"
       [3; 0; 0xC; 0x221; 0; 0; 1; 2; 3; 0xABC; 0; 0]].
Proof.
  apply (fig_0_2_round_trip {| cn := 0; oe := 0; pd := 0 |}
           [{| svc_id := {| sid_country_id := 0xC; service_reference := 0x221;
                            ecc := 0 |};
               svc_rfa := 0; svc_caid := 0;
               svc_components :=
                 [Stream_audio 63 5 1 0; Packet_data 0xABC 0 0] |}]
           [0xFF] 3).
  - repeat constructor; cbn; lia.
  - cbn. lia.
Defined.

(** *** FIG 0/8 *)

Lemma ProcessFIG_Type_0_Ext_8_loop_components
  (header : FIG_Header_Type_0) (entries : list Global_Component)
  (pre rest : list Z) (cif_index k : Z) :
  let long := truthy (pd header) in
  Forall (Global_Component_ok long) entries ->
  let N := Z.of_nat
             (List.length pre
              + List.length (flat_map (encode_Global_Component long) entries))
  in
  N <= 255 ->
  ProcessFIG_Type_0_Ext_8_loop header
    (pre ++ flat_map (encode_Global_Component long) entries ++ rest) N
    cif_index (Z.of_nat (List.length pre)) k
  = map (report_Global_Component header cif_index) entries.
Proof.
  intros long. revert pre k.
  induction entries as [|g entries IH]; intros pre k Hok N HN.
  - rewrite ProcessFIG_Type_0_Ext_8_loop_equation_1.
    unfold ProcessFIG_Type_0_Ext_8_loop_unfold_clause_1.
    destruct (Z_lt_dec _ _) as [Hlt|_]; [|reflexivity].
    exfalso. unfold N in Hlt. cbn in Hlt. lia.
  - inversion Hok as [|? ? Hg Hrest]; subst.
    destruct Hg as (Hid & Hrfa0 & HSCIdS & Hcomp & Hrfa2).
    set (eid := encode_ServiceIdentifier long (gc_id g)).
    set (cid := encode_Component_Id (gc_component g)).
    set (r := match gc_rfa2 g with Some rfa2 => [rfa2] | None => [] end).
    set (d := match gc_rfa2 g with Some _ => 128 | None => 0 end
              + gc_rfa0 g * 16 + gc_SCIdS g).
    assert (Henc : encode_Global_Component long g = eid ++ d :: cid ++ r)
      by reflexivity.
    assert (Lid : List.length eid = (if long then 4 else 2)%nat)
      by (apply (ServiceIdentifier_decode long (gc_id g) [] Hid)).
    assert (Hlen : Z.of_nat (List.length (encode_Global_Component long g))
                   = (if long then 4 else 2) + 1
                     + Z.of_nat (List.length cid)
                     + Z.of_nat (List.length r)).
    { rewrite Henc, length_app, Lid. cbn [List.length].
      rewrite length_app. destruct long; lia. }
    assert (HN' : N = Z.of_nat
                        (List.length (pre ++ encode_Global_Component long g)
                         + List.length
                             (flat_map (encode_Global_Component long) entries))).
    { unfold N. cbn [flat_map]. rewrite !length_app. lia. }
    specialize (IH (pre ++ encode_Global_Component long g) (k + 1) Hrest).
    cbv zeta in IH. rewrite <- HN' in IH. specialize (IH HN).
    cbn [flat_map] in *. rewrite <- !app_assoc in IH.
    rewrite <- app_assoc.
    assert (Hfit : Z.of_nat (List.length (encode_Global_Component long g))
                   <= N - Z.of_nat (List.length pre)).
    { unfold N. cbn [flat_map]. rewrite length_app. lia. }
    set (tail := flat_map (encode_Global_Component long) entries ++ rest)
      in *.
    assert (Hcid : (1 <= List.length cid <= 2)%nat)
      by (unfold cid; destruct (gc_component g); cbn; lia).
    assert (Hr : (List.length r <= 1)%nat)
      by (unfold r; destruct (gc_rfa2 g); cbn; lia).
    rewrite ProcessFIG_Type_0_Ext_8_loop_equation_1.
    unfold ProcessFIG_Type_0_Ext_8_loop_unfold_clause_1.
    destruct (Z_lt_dec _ _) as [_|Hge]; [|exfalso; destruct long; lia].
    cbv zeta. rewrite ptr_app_length. fold long.
    destruct (Z.gtb_spec ((if long then 4 else 2) + 1 + 1)
                (N - Z.of_nat (List.length pre))) as [?|_]; [lia|].
    rewrite Henc, <- !app_assoc. cbn [app]. rewrite <- !app_assoc.
    destruct (ServiceIdentifier_decode long (gc_id g)
                (d :: cid ++ r ++ tail) Hid) as [_ Did].
    fold eid in Did. rewrite Did.
    replace (if long then 4 else 2) with (Z.of_nat (List.length eid))
      by (rewrite Lid; destruct long; reflexivity).
    rewrite rd_app_length, rd_0.
    replace (eid ++ d :: cid ++ r ++ tail)
      with ((eid ++ [d]) ++ cid ++ r ++ tail)
      by (rewrite <- app_assoc; reflexivity).
    replace (Z.of_nat (List.length eid) + 1)
      with (Z.of_nat (List.length (eid ++ [d])))
      by (rewrite length_app; cbn [List.length]; lia).
    rewrite ptr_app_length.
    assert (Hd : 0 <= d < 256
                 /\ d / 128 = match gc_rfa2 g with Some _ => 1 | None => 0 end
                 /\ (d / 16) mod 8 = gc_rfa0 g /\ d mod 16 = gc_SCIdS g).
    { unfold d. destruct (gc_rfa2 g); repeat split; euclid. }
    destruct Hd as (Hd & Hext & Hd4 & Hd0).
    rewrite (field_80_7 d), (field_70_4 d), (field_0F_0 d), Hext, Hd4, Hd0
      by exact Hd.
    assert (Hbuf : pre ++ (eid ++ [d]) ++ cid ++ r ++ tail
                   = pre ++ encode_Global_Component long g ++ tail)
      by (rewrite Henc, <- !app_assoc; cbn [app]; rewrite <- !app_assoc;
          reflexivity).
    rewrite Hbuf.
    assert (Hnext : forall x,
              x = Z.of_nat (List.length cid) + Z.of_nat (List.length r) ->
              Z.of_nat (List.length pre)
              + uint8 (Z.of_nat (List.length (eid ++ [d])) + x)
              = Z.of_nat (List.length (pre ++ encode_Global_Component long g))
              /\ uint8 (Z.of_nat (List.length (eid ++ [d])) + x)
                 <= N - Z.of_nat (List.length pre)).
    { intros x ->.
      assert (Le : Z.of_nat (List.length (eid ++ [d]))
                   + (Z.of_nat (List.length cid) + Z.of_nat (List.length r))
                   = Z.of_nat (List.length (encode_Global_Component long g))).
      { rewrite Hlen, length_app, Lid. cbn [List.length].
        destruct long; lia. }
      rewrite Le. unfold uint8. rewrite Z.mod_small by lia.
      rewrite length_app. lia. }
    unfold cid, r in *. cbn [map]. unfold report_Global_Component at 1.
    destruct (gc_component g) as [rfu0 sub | rfa1 SCId];
      cbn [encode_Component_Id app List.length] in *.
    + destruct Hcomp as [Hrfu0 Hsub].
      assert (Hb : 0 <= rfu0 * 64 + sub < 256) by lia.
      rd_list. rewrite field_80_7, field_40_6, field_3F_0 by exact Hb.
      replace ((rfu0 * 64 + sub) / 128) with 0 by euclid.
      cbn [truthy Z.eqb negb]. change (1 - 1) with 0. rd_list.
      destruct (gc_rfa2 g) as [rfa2|]; cbn [truthy Z.eqb negb List.length] in *;
        rewrite <- Z.add_assoc;
        match goal with
        | |- context [uint8 (_ + ?x)] =>
          destruct (Hnext x ltac:(reflexivity)) as [Hn1 Hn2]
        end;
        rewrite Hn1;
        match goal with
        | |- context [?a >? ?b] =>
          destruct (Z.gtb_spec a b) as [?|_]; [lia|]
        end;
        rewrite IH; cbn [map app]; repeat f_equal; euclid.
    + destruct Hcomp as [Hrfa1 HSCId].
      assert (Hb0 : 0 <= 128 + rfa1 * 16 + SCId / 256 < 256) by euclid.
      assert (Hb1 : 0 <= SCId mod 256 < 256) by euclid.
      rd_list. rewrite field_80_7, field_70_4, low4_shl8, field_FF_0
        by assumption.
      replace ((128 + rfa1 * 16 + SCId / 256) / 128) with 1 by euclid.
      cbn [truthy Z.eqb negb]. change (2 - 1) with 1. rd_list.
      rewrite lor_shl8 by exact Hb1.
      destruct (gc_rfa2 g) as [rfa2|]; cbn [truthy Z.eqb negb List.length] in *;
        rewrite <- Z.add_assoc;
        match goal with
        | |- context [uint8 (_ + ?x)] =>
          destruct (Hnext x ltac:(reflexivity)) as [Hn1 Hn2]
        end;
        rewrite Hn1;
        match goal with
        | |- context [?a >? ?b] =>
          destruct (Z.gtb_spec a b) as [?|_]; [lia|]
        end;
        rewrite IH; cbn [map app]; repeat f_equal; euclid.
Qed.

(** X24: FIG 0/8 reports, in order, each service component of its field
    as packed: the identifier of the service in the 2 byte form or with
    P/D set in the 4 byte form, the short or the long form of the
    component, the flags; and it reads none of the bytes behind the field.
    Of an entry with the extension flag it skips the byte Rfa without
    reading it: what it reports as rfa2 is the last byte of the component
    form before it. *)
Theorem fig_0_8_round_trip
  (header : FIG_Header_Type_0) (entries : list Global_Component)
  (rest : list Z) (cif_index : Z) :
  let long := truthy (pd header) in
  Forall (Global_Component_ok long) entries ->
  (List.length (flat_map (encode_Global_Component long) entries) <= 255)%nat ->
  ProcessFIG_Type_0_Ext_8 header
    (flat_map (encode_Global_Component long) entries ++ rest)
    (Z.of_nat (List.length (flat_map (encode_Global_Component long) entries)))
    cif_index
  = map (report_Global_Component header cif_index) entries.
Proof.
  intros long Hok Hlen. unfold ProcessFIG_Type_0_Ext_8.
  apply (ProcessFIG_Type_0_Ext_8_loop_components header entries [] rest
           cif_index 0 Hok).
  fold long. cbn [List.length Nat.add]. lia.
Qed.

(** A component in the long form with the extension flag: the byte Rfa,
    0x5A, is not what is reported as rfa2. *)
Lemma fig_0_8_round_trip_witness :
  ProcessFIG_Type_0_Ext_8 {| cn := 0; oe := 0; pd := 0 |}
    (flat_map (encode_Global_Component false)
       [{| gc_id := {| sid_country_id := 0xC; service_reference := 0x221;
                       ecc := 0 |};
           gc_rfa0 := 0; gc_SCIdS := 1;
           gc_component := Long_id 0 0x123;
           gc_rfa2 := Some 0x5A |}]
     ++ [0xFF]) 6 3
  = [LOG_MESSAGE
       "[%d] fig 0/8 pd=%u country_id=%-2u service_ref=%-4u ecc=%u ext=%u rfa0=%u SCIdS=%u is_long=%u rfa1=%u SCId=%-2u rfa2=%u\n"
       [3; 0; 0xC; 0x221; 0; 1; 0; 1; 1; 0; 0x123; 0x23]].
Proof.
  apply (fig_0_8_round_trip {| cn := 0; oe := 0; pd := 0 |}
           [{| gc_id := {| sid_country_id := 0xC; service_reference := 0x221;
                           ecc := 0 |};
               gc_rfa0 := 0; gc_SCIdS := 1;
               gc_component := Long_id 0 0x123;
               gc_rfa2 := Some 0x5A |}]
           [0xFF] 3).
  - repeat constructor; cbn; lia.
  - cbn. lia.
Defined.

End FIGServicesFacts.

(** ** One frame of MSC bits *)

Module ChannelProcessFacts.
Import Channel ChannelProcess.

Local Open Scope list_scope.
Local Open Scope Z_scope.

(** Consecutive slices of equal width cover the buffer. *)
Lemma subspans_tile (buf : list Z) (w : nat) (n a : nat) :
  concat (map (fun i => subspan buf (Z.of_nat i * Z.of_nat w) (Z.of_nat w))
            (seq a n))
  = firstn (n * w) (skipn (a * w) buf).
Proof.
  revert a. induction n as [|n IH]; intros a; [reflexivity|].
  cbn [seq map concat]. rewrite IH. unfold subspan.
  rewrite Nat2Z.id. replace (Z.to_nat (Z.of_nat a * Z.of_nat w))
    with (a * w)%nat by lia.
  replace (S a * w)%nat with (a * w + w)%nat by lia.
  rewrite <- drop_drop. rewrite take_take_drop. f_equal; lia.
Qed.

Lemma length_subspan (buf : list Z) (w : nat) (i n : nat) :
  (n * w <= List.length buf)%nat -> (i < n)%nat ->
  List.length (subspan buf (Z.of_nat i * Z.of_nat w) (Z.of_nat w)) = w.
Proof.
  intros Hbuf Hi. unfold subspan. rewrite length_take, length_drop. nia.
Qed.

Section Process.

Context {AAC_Audio_Decoder AAC_Data_Decoder : Type}.
Context {MSC_Decoder AAC_Frame_Processor : Type}.
Variable AAC_Audio_Decoder_new : Params -> AAC_Audio_Decoder.
Variable GetParams : AAC_Audio_Decoder -> Params.
Variable DecodeFrame :
  AAC_Audio_Decoder -> list Z -> AAC_Audio_Decoder * DecodeFrameResult.
Variable ProcessAccessUnit : AAC_Data_Decoder -> list Z -> AAC_Data_Decoder.
Variable DecodeCIF : MSC_Decoder -> list Z -> MSC_Decoder * list Z.
Variable frame_processor_Process :
  AAC_Frame_Processor -> list Z -> AAC_Frame_Processor * list FrameEvent.

Abbreviation State :=
  (@Channel_State AAC_Audio_Decoder AAC_Data_Decoder MSC_Decoder
     AAC_Frame_Processor).
Abbreviation Notify' :=
  (Notify AAC_Audio_Decoder_new GetParams DecodeFrame ProcessAccessUnit).
Abbreviation run' :=
  (run AAC_Audio_Decoder_new GetParams DecodeFrame ProcessAccessUnit).
Abbreviation Process_loop' :=
  (Process_loop AAC_Audio_Decoder_new GetParams DecodeFrame
     ProcessAccessUnit DecodeCIF frame_processor_Process).
Abbreviation Process' :=
  (Process AAC_Audio_Decoder_new GetParams DecodeFrame
     ProcessAccessUnit DecodeCIF frame_processor_Process).

(** No listener writes the controls. *)
Lemma Notify_controls c (e : FrameEvent) :
  m_controls (fst (Notify' c e)) = m_controls c.
Proof.
  destruct e as [header|au_index nb_aus buf| | |]; try reflexivity.
  cbn [Notify]. unfold on_access_unit_audio.
  destruct (negb (Controls.GetIsDecodeAudio (m_controls c))).
  - unfold on_access_unit_data, on_access_unit_reset.
    destruct (negb _), (au_index =? 0); reflexivity.
  - destruct (m_aac_audio_decoder c) as [d|].
    + destruct (DecodeFrame d buf) as [d' res].
      unfold on_access_unit_data, on_access_unit_reset.
      destruct (is_error res), (negb _), (au_index =? 0); reflexivity.
    + unfold on_access_unit_data, on_access_unit_reset.
      destruct (negb _), (au_index =? 0); reflexivity.
Qed.

Lemma run_controls c (events : list FrameEvent) :
  m_controls (fst (run' c events)) = m_controls c.
Proof.
  revert c. induction events as [|e events IH]; intros c; [reflexivity|].
  cbn [run]. pose proof (Notify_controls c e) as H.
  destruct (Notify' c e) as [c1 out]. cbn [fst] in H.
  specialize (IH c1). destruct (run' c1 events) as [c2 out2].
  cbn [fst] in *. congruence.
Qed.

Lemma Process_loop_calls (st : State) (msc_bits_buf : list Z)
  (cifs : list Z) :
  let r := Process_loop' st msc_bits_buf cifs in
  snd r = map (fun i => subspan msc_bits_buf
                          (i * nb_cif_bits (m_params st))
                          (nb_cif_bits (m_params st))) cifs
  /\ m_params (fst (fst r)) = m_params st
  /\ m_controls (m_listeners (fst (fst r))) = m_controls (m_listeners st).
Proof.
  revert st. induction cifs as [|i cifs IH]; intros st; [cbn; auto|].
  cbn [Process_loop].
  destruct (DecodeCIF (m_msc_decoder st) _) as [msc decoded_bytes].
  destruct decoded_bytes as [|b decoded_bytes].
  - match goal with
    | |- context [Process_loop' ?s _ _] => specialize (IH s)
    end.
    destruct (Process_loop' _ msc_bits_buf cifs) as [[st' out'] calls].
    cbn [fst snd m_params m_listeners] in *.
    destruct IH as (-> & -> & ->). auto.
  - destruct (frame_processor_Process _ _) as [fp events].
    pose proof (run_controls (m_listeners st) events) as Hc.
    destruct (run' (m_listeners st) events) as [listeners out].
    match goal with
    | |- context [Process_loop' ?s _ _] => specialize (IH s)
    end.
    destruct (Process_loop' _ msc_bits_buf cifs) as [[st' out'] calls].
    cbn [fst snd m_params m_listeners] in *.
    destruct IH as (-> & -> & ->). auto.
Qed.

(** X25: a frame of the expected size, with at least one control enabled,
    is handed to the MSC decoder CIF by CIF: [nb_cifs] calls of
    [DecodeCIF], in order, on buffers of [nb_cif_bits] bits each that
    cover the frame without gap or overlap; the parameters and the
    controls of the channel are as before. *)
Theorem Process_hands_over_the_frame (st : State) (msc_bits_buf : list Z) :
  Z.of_nat (List.length msc_bits_buf) = nb_msc_bits (m_params st) ->
  Controls.GetAnyEnabled (m_controls (m_listeners st)) = true ->
  0 <= nb_cifs (m_params st) -> 0 <= nb_cif_bits (m_params st) ->
  nb_cifs (m_params st) * nb_cif_bits (m_params st)
  = nb_msc_bits (m_params st) ->
  let r := Process' st msc_bits_buf in
  concat (snd r) = msc_bits_buf
  /\ Z.of_nat (List.length (snd r)) = nb_cifs (m_params st)
  /\ Forall (fun cif_buf =>
       Z.of_nat (List.length cif_buf) = nb_cif_bits (m_params st)) (snd r)
  /\ m_params (fst (fst r)) = m_params st
  /\ m_controls (m_listeners (fst (fst r))) = m_controls (m_listeners st).
Proof.
  intros Hsize Hany Hn Hw Hmul r. unfold r, Process.
  rewrite Hsize, Z.eqb_refl, Hany. cbn [negb].
  destruct (Process_loop_calls st msc_bits_buf
              (Zseq (Z.to_nat (nb_cifs (m_params st)))))
    as (Hcalls & Hp & Hc).
  rewrite Hcalls, Hp, Hc. clear Hcalls Hp Hc.
  set (n := Z.to_nat (nb_cifs (m_params st))).
  set (w := Z.to_nat (nb_cif_bits (m_params st))).
  assert (Hlen : (n * w)%nat = List.length msc_bits_buf) by (unfold n, w; nia).
  replace (nb_cif_bits (m_params st)) with (Z.of_nat w) by (unfold w; lia).
  unfold Zseq. rewrite map_map.
  repeat split.
  - rewrite (subspans_tile msc_bits_buf w n 0). cbn [Nat.mul drop].
    rewrite Hlen. apply firstn_all.
  - rewrite length_map, length_seq. unfold n. lia.
  - apply List.Forall_forall. intros cif_buf Hin.
    apply in_map_iff in Hin. destruct Hin as (i & <- & Hi).
    apply in_seq in Hi. f_equal.
    apply (length_subspan msc_bits_buf w i n); lia.
Qed.

End Process.

(** A frame of 2 CIFs of 3 bits. *)
Lemma Process_hands_over_the_frame_witness :
  let st : @Channel_State unit unit unit unit :=
    {| m_params := {| nb_msc_bits := 6; nb_cifs := 2; nb_cif_bits := 3 |};
       m_msc_decoder := tt;
       m_aac_frame_processor := tt;
       m_listeners :=
         {| m_controls := {| Controls.flags := 0xE0 |};
            m_super_frame_header :=
              {| sampling_rate := 0; PS_flag := false; SBR_flag := false;
                 is_stereo := false |};
            m_aac_audio_decoder := None;
            m_aac_data_decoder := tt;
            m_is_codec_error := false;
            m_is_firecode_error := false;
            m_is_rs_error := false;
            m_is_au_error := false |} |} in
  concat
    (snd (Process (fun _ => tt) (fun _ => no_params)
            (fun d _ => (d, {| is_error := false; error_code := 0;
                               audio_buf := [] |}))
            (fun d _ => d) (fun d _ => (d, [])) (fun p _ => (p, []))
            st [1; 0; 1; 1; 1; 0]))
  = [1; 0; 1; 1; 1; 0].
Proof.
  intros st.
  apply (Process_hands_over_the_frame (fun _ => tt) (fun _ => no_params)
           (fun d _ => (d, {| is_error := false; error_code := 0;
                              audio_buf := [] |}))
           (fun d _ => d) (fun d _ => (d, [])) (fun p _ => (p, []))
           st [1; 0; 1; 1; 1; 0]);
    [reflexivity | reflexivity | cbn; lia | cbn; lia | reflexivity].
Defined.

End ChannelProcessFacts.

(** ** From the FIB to the subchannels *)

Module FIGDispatchFacts.
Import FIC FIGFields FIGCoding FIGDispatch FIGFieldsFacts.

Local Open Scope string_scope.
Local Open Scope list_scope.
Local Open Scope Z_scope.

(** X26: the whole path of a FIB: a FIB with a valid CRC whose payload is
    one FIG 0/1, listing subchannels in the short and the long form, and
    then the delimiter or nothing, yields the report of each of these
    subchannels, in order, and nothing else: the CRC check passes, the scan
    finds the FIG, FIG 0 hands the field without its descriptor byte to
    the handler of extension 1, and the handler reads back the
    subchannels. *)
Theorem fib_to_subchannels
  (c_n o_e p_d : Z) (subs : list Subchannel) (tail : list Z)
  (c0 c1 : Z) (rest : list Z) (cif_index : Z) :
  let fig :=
    {| fig_type := 0;
       fig_data := (c_n * 128 + o_e * 64 + p_d * 32 + 1)
                   :: flat_map encode_Subchannel subs |} in
  let payload := encode_FIG fig ++ tail in
  Forall Subchannel_ok subs ->
  0 <= c_n < 2 -> 0 <= o_e < 2 -> 0 <= p_d < 2 ->
  List.length payload = 30%nat ->
  tail = [] \/ rd tail 0 = 0xFF ->
  0 <= c0 < 256 -> 0 <= c1 < 256 ->
  crc16_xorout payload = 256 * c0 + c1 ->
  run_handler_calls (ProcessFIB (payload ++ c0 :: c1 :: rest) cif_index)
  = imap (fun i s => report_Subchannel cif_index (Z.of_nat i) s) subs.
Proof.
  intros fig payload Hok Hcn Hoe Hpd Hlen Htail Hc0 Hc1 Hcrc.
  set (fib := payload ++ c0 :: c1 :: rest).
  assert (Hrd30 : rd fib 30 = c0).
  { unfold fib, rd. rewrite app_nth2 by (rewrite Hlen; cbn; lia).
    rewrite Hlen. reflexivity. }
  assert (Hrd31 : rd fib 31 = c1).
  { unfold fib, rd. rewrite app_nth2 by (rewrite Hlen; cbn; lia).
    rewrite Hlen. reflexivity. }
  assert (Hfirst : firstn 30 fib = payload).
  { unfold fib. apply take_app_length'. symmetry. exact Hlen. }
  rewrite FICFacts.ProcessFIB_checks_crc by (rewrite ?Hrd30, ?Hrd31; assumption).
  unfold fib_valid. rewrite Hfirst, Hrd30, Hrd31, Hcrc, Z.eqb_refl.
  set (field := flat_map encode_Subchannel subs) in *.
  set (d := c_n * 128 + o_e * 64 + p_d * 32 + 1) in *.
  assert (Hfield : (List.length field <= 28)%nat).
  { unfold payload, encode_FIG, fig in Hlen. cbn [fig_data List.length] in Hlen.
    rewrite length_app in Hlen. cbn [List.length] in Hlen. lia. }
  (* the scan *)
  unfold ProcessFIG.
  pose proof (ProcessFIG_loop_FIGs [fig] [] (tail ++ c0 :: c1 :: rest)
                cif_index) as Hscan.
  cbv zeta in Hscan. cbn [List.length Nat.add app] in Hscan.
  unfold encode_FIGs in Hscan. cbn [flat_map] in Hscan.
  rewrite app_nil_r in Hscan. change (Z.of_nat 0) with 0 in Hscan.
  unfold fib, payload. rewrite <- app_assoc. rewrite Hscan; clear Hscan.
  2:{ repeat constructor. }
  2:{ unfold payload in Hlen. rewrite length_app in Hlen. lia. }
  2:{ destruct Htail as [->|E].
      - left. unfold payload in Hlen. rewrite app_nil_r in Hlen. exact Hlen.
      - right. destruct tail as [|x tail]; [discriminate E|exact E]. }
  (* FIG 0 *)
  cbn [FIGs_output ProcessFIG_Type fig fig_type fig_data]. rewrite app_nil_r.
  cbn [app flat_map]. unfold ProcessFIG_Type_0. rd_list.
  assert (Hd : 0 <= d < 256 /\ d mod 32 = 1) by (unfold d; split; euclid).
  destruct Hd as [Hd Hext].
  rewrite (field_1F_0 d), Hext by exact Hd.
  cbv iota beta zeta.
  (* the handler *)
  cbn [run_handler_calls flat_map embedded_handler]. rewrite app_nil_r.
  unfold ProcessFIG_Type_0_Ext_1.
  cbn [List.length]. replace (uint8 (Z.of_nat (S (List.length field)) - 1))
    with (Z.of_nat (List.length field))
    by (unfold uint8; rewrite Z.mod_small by lia; lia).
  change (ptr (d :: field ++ encode_FIGs [] ++ tail ++ c0 :: c1 :: rest) 1)
    with (field ++ tail ++ c0 :: c1 :: rest).
  pose proof (ProcessFIG_Type_0_Ext_1_loop_entries subs []
                (tail ++ c0 :: c1 :: rest) cif_index 0 Hok) as Hloop.
  cbv zeta in Hloop. cbn [List.length Nat.add app] in Hloop.
  fold field in Hloop. change (Z.of_nat 0) with 0 in Hloop.
  rewrite Hloop by lia.
  apply imap_ext. intros i s _. rewrite Z.add_0_l. reflexivity.
Qed.

(** A FIB with one FIG 0/1 of two subchannels, the delimiter and padding;
    its CRC bytes are computed. *)
Lemma fib_to_subchannels_witness :
  let subs :=
    [{| sub_id := 3; sub_start_address := 300;
        sub_protection := Short_form 1 20 |};
     {| sub_id := 17; sub_start_address := 1;
        sub_protection := Long_form 0 2 700 |}] in
  let payload :=
    encode_FIG {| fig_type := 0;
                  fig_data := (0 * 128 + 0 * 64 + 0 * 32 + 1)
                              :: flat_map encode_Subchannel subs |}
    ++ (0xFF :: repeat 0 20) in
  let crc := crc16_xorout payload in
  run_handler_calls
    (ProcessFIB (payload ++ crc / 256 :: crc mod 256 :: []) 5)
  = imap (fun i s => report_Subchannel 5 (Z.of_nat i) s) subs.
Proof.
  intros subs payload crc.
  apply (fib_to_subchannels 0 0 0 subs (0xFF :: repeat 0 20)
           (crc / 256) (crc mod 256) [] 5).
  - repeat constructor; cbn; lia.
  - lia.
  - lia.
  - lia.
  - reflexivity.
  - right. reflexivity.
  - vm_compute. split; [discriminate|reflexivity].
  - vm_compute. split; [discriminate|reflexivity].
  - vm_compute. reflexivity.
Defined.

End FIGDispatchFacts.

(** ** User applications: FIG 0/13 *)

Module FIGUserAppsFacts.
Import FIC FIGFields FIGServices FIGUserApps FIGFieldsFacts.

Local Open Scope string_scope.
Local Open Scope list_scope.
Local Open Scope Z_scope.

Lemma all8_shl3 b :
  0 <= b < 256 -> Z.shiftl (uint16 (Z.land b 0xFF)) 3 = b * 8.
Proof. revert b. byte_fact. Qed.

Lemma lor_shl3 (h b : Z) : 0 <= b < 8 -> Z.lor (h * 8) b = h * 8 + b.
Proof. intros Hb. apply (lor_shl 3); lia. Qed.

(** X27: FIG 0/13 reads behind its field.  The room left for a user
    application is counted from the start of the block, the identifier and
    the descriptor byte included, though the applications start behind
    them.  So for a field that ends with the descriptor byte of a block
    which announces one application, the handler reports an application
    whose type and length are taken from the two bytes that follow the
    field, whenever the length in them is small enough (2 + length at most
    the 3 or 5 header bytes). *)
Theorem fig_0_13_reads_behind_the_field
  (header : FIG_Header_Type_0) (sid : ServiceIdentifier) (SCIdS a0 a1 : Z)
  (rest : list Z) (cif_index : Z) :
  let long := truthy (pd header) in
  let nb_header_bytes := (if long then 4 else 2) + 1 in
  let block := encode_ServiceIdentifier long sid ++ [SCIdS * 16 + 1] in
  ServiceIdentifier_ok long sid ->
  0 <= SCIdS < 16 -> 0 <= a0 < 256 -> 0 <= a1 < 256 ->
  2 + a1 mod 32 <= nb_header_bytes ->
  Z.of_nat (List.length block) = nb_header_bytes
  /\ ProcessFIG_Type_0_Ext_13 header (block ++ a0 :: a1 :: rest)
       nb_header_bytes cif_index
     = [LOG_MESSAGE
          "[%d] fig 0/13 pd=%u country_id=%-2u service_ref=%-4u ecc=%u SCIdS=%u i=%d/%d app_type=%u L=%d\n"
          [cif_index; pd header;
           sid_country_id sid; service_reference sid; ecc sid;
           SCIdS; 0; 1; a0 * 8 + a1 / 32; a1 mod 32]].
Proof.
  intros long nb_header_bytes block Hid HS Ha0 Ha1 HL.
  set (eid := encode_ServiceIdentifier long sid) in *.
  set (d := SCIdS * 16 + 1) in *.
  destruct (FIGServicesFacts.ServiceIdentifier_decode long sid
              (d :: a0 :: a1 :: rest) Hid) as [Lid Did].
  fold eid in Lid, Did.
  assert (Hlen : Z.of_nat (List.length block) = nb_header_bytes).
  { unfold block, nb_header_bytes. rewrite length_app, Lid.
    cbn [List.length]. destruct long; lia. }
  split; [exact Hlen|].
  assert (Hd : 0 <= d < 256 /\ d / 16 = SCIdS /\ d mod 16 = 1)
    by (unfold d; repeat split; euclid).
  destruct Hd as (Hd & Hd4 & Hd0).
  unfold ProcessFIG_Type_0_Ext_13.
  rewrite ProcessFIG_Type_0_Ext_13_loop_equation_1.
  unfold ProcessFIG_Type_0_Ext_13_loop_unfold_clause_1.
  destruct (Z_lt_dec _ _) as [_|Hge];
    [|exfalso; unfold nb_header_bytes in Hge; destruct long; lia].
  cbv zeta. fold long. fold nb_header_bytes.
  change (ptr (block ++ a0 :: a1 :: rest) 0) with (block ++ a0 :: a1 :: rest).
  rewrite Z.sub_0_r.
  destruct (Z.gtb_spec nb_header_bytes nb_header_bytes) as [?|_]; [lia|].
  assert (Hblk : block ++ a0 :: a1 :: rest = eid ++ d :: a0 :: a1 :: rest)
    by (unfold block; rewrite <- app_assoc; reflexivity).
  assert (Hptr : ptr (block ++ a0 :: a1 :: rest) nb_header_bytes
                 = a0 :: a1 :: rest)
    by (rewrite <- Hlen; apply ptr_app_length).
  rewrite Hptr, Hblk, Did.
  replace (if long then 4 else 2) with (Z.of_nat (List.length eid))
    by (rewrite Lid; destruct long; reflexivity).
  rewrite rd_app_length, rd_0.
  rewrite (field_F0_4 d), (FIGServicesFacts.field_0F_0 d), Hd4, Hd0
    by exact Hd.
  change (Zseq (Z.to_nat 1)) with [0].
  cbn [ProcessFIG_Type_0_Ext_13_apps]. cbv zeta.
  change (Z.of_nat 0) with 0. rewrite Z.sub_0_r.
  change (ptr (a0 :: a1 :: rest) 0) with (a0 :: a1 :: rest). rd_list.
  destruct (Z.gtb_spec 2 nb_header_bytes) as [?|_];
    [unfold nb_header_bytes in *; destruct long; lia|].
  rewrite all8_shl3, field_E0_5, field_1F_0 by assumption.
  unfold uint8. rewrite (Z.mod_small (2 + a1 mod 32)) by euclid.
  destruct (Z.gtb_spec (2 + a1 mod 32) nb_header_bytes) as [?|_]; [lia|].
  cbn [fst snd].
  rewrite ProcessFIG_Type_0_Ext_13_loop_equation_1.
  unfold ProcessFIG_Type_0_Ext_13_loop_unfold_clause_1.
  destruct (Z_lt_dec _ _) as [Hlt|_].
  { exfalso. fold long in Hlt. fold nb_header_bytes in Hlt.
    assert (0 <= a1 mod 32) by euclid. lia. }
  rewrite app_nil_r, lor_shl3 by euclid. reflexivity.
Qed.

Lemma fig_0_13_reads_behind_the_field_witness :
  ProcessFIG_Type_0_Ext_13 {| cn := 0; oe := 0; pd := 0 |}
    ((encode_ServiceIdentifier false
        {| sid_country_id := 0xC; service_reference := 0x221; ecc := 0 |}
      ++ [2 * 16 + 1]) ++ 0x12 :: 0x61 :: []) 3 7
  = [LOG_MESSAGE
       "[%d] fig 0/13 pd=%u country_id=%-2u service_ref=%-4u ecc=%u SCIdS=%u i=%d/%d app_type=%u L=%d\n"
       [7; 0; 0xC; 0x221; 0; 2; 0; 1; 0x12 * 8 + 0x61 / 32; 0x61 mod 32]].
Proof.
  apply (fig_0_13_reads_behind_the_field {| cn := 0; oe := 0; pd := 0 |}
           {| sid_country_id := 0xC; service_reference := 0x221; ecc := 0 |}
           2 0x12 0x61 [] 7).
  - repeat constructor; cbn; lia.
  - lia.
  - lia.
  - lia.
  - vm_compute. discriminate.
Defined.

End FIGUserAppsFacts.
